(** * Metrics extraction and validation pipeline: a shallow embedding

    This development embeds the decision logic of the influencer-metrics
    helper ([openai_helper.py]) and of the contract parser's JSON fallback
    ([Contract_to_JSON/lambda_function.py]) and proves properties of it.

    Modelling conventions.
    - A Python [str] is a [string] (a sequence of 8-bit characters); the
      case, whitespace and digit classes are the ASCII ones.
    - A Python [float] is an IEEE-754 binary64 value, [spec_float] with
      [prec = 53] and [emax = 1024]; arithmetic is the correctly rounded
      one of [SpecFloat].
    - A Python [int] is a [Z].
    - A JSON value / Python object is a [pyval]; a [dict] with string keys
      is a [gmap string pyval].
    - A call that can raise returns a [result]; [try]/[except] is [catch].
    - The language model, the JSON decoder and the clock are outside the
      repository: they are Section variables or explicit arguments. *)

From Stdlib Require Import ZArith String Ascii List SpecFloat DecimalString Lia.
From stdpp Require Import gmap strings list fin_maps.

#[local] Set Warnings "-register-all".
#[local] Open Scope Z_scope.

(** ** Python strings *)

Module PyStr.

Definition chr (n : nat) : ascii := ascii_of_nat n.
Definition ord (c : ascii) : nat := nat_of_ascii c.

Definition is_upper (c : ascii) : bool :=
  (Nat.leb 65 (ord c) && Nat.leb (ord c) 90)%bool.
Definition is_lower (c : ascii) : bool :=
  (Nat.leb 97 (ord c) && Nat.leb (ord c) 122)%bool.
Definition is_digit (c : ascii) : bool :=
  (Nat.leb 48 (ord c) && Nat.leb (ord c) 57)%bool.
Definition is_alpha (c : ascii) : bool := (is_upper c || is_lower c)%bool.

(** [str.isspace] on the ASCII range: tab, LF, VT, FF, CR, FS, GS, RS, US
    and the space. *)
Definition is_space (c : ascii) : bool :=
  ((Nat.leb 9 (ord c) && Nat.leb (ord c) 13)
   || (Nat.leb 28 (ord c) && Nat.leb (ord c) 32))%bool.

Definition lower_char (c : ascii) : ascii :=
  if is_upper c then chr (ord c + 32) else c.

(** [s.lower()] *)
Fixpoint lower (s : string) : string :=
  match s with
  | EmptyString => EmptyString
  | String c r => String (lower_char c) (lower r)
  end.

Fixpoint lstrip (s : string) : string :=
  match s with
  | EmptyString => EmptyString
  | String c r => if is_space c then lstrip r else s
  end.

Fixpoint rstrip (s : string) : string :=
  match s with
  | EmptyString => EmptyString
  | String c r =>
      match rstrip r with
      | EmptyString => if is_space c then EmptyString else String c EmptyString
      | r' => String c r'
      end
  end.

(** [s.strip()] *)
Definition strip (s : string) : string := rstrip (lstrip s).

Fixpoint last_char (s : string) : option ascii :=
  match s with
  | EmptyString => None
  | String c EmptyString => Some c
  | String _ r => last_char r
  end.

(** [s.endswith(c)] for a one-character [c] *)
Definition endswith_char (s : string) (c : ascii) : bool :=
  match last_char s with
  | Some c' => Ascii.eqb c' c
  | None => false
  end.

(** [s[:-1]] *)
Fixpoint drop_last (s : string) : string :=
  match s with
  | EmptyString => EmptyString
  | String _ EmptyString => EmptyString
  | String c r => String c (drop_last r)
  end.

(** [sub in s] *)
Fixpoint contains (sub s : string) : bool :=
  if String.prefix sub s then true
  else match s with
       | EmptyString => false
       | String _ r => contains sub r
       end.

Fixpoint filter (p : ascii -> bool) (s : string) : string :=
  match s with
  | EmptyString => EmptyString
  | String c r => if p c then String c (filter p r) else filter p r
  end.

Fixpoint forallb (p : ascii -> bool) (s : string) : bool :=
  match s with
  | EmptyString => true
  | String c r => (p c && forallb p r)%bool
  end.

Fixpoint existsb (p : ascii -> bool) (s : string) : bool :=
  match s with
  | EmptyString => false
  | String c r => (p c || existsb p r)%bool
  end.

(** the longest prefix whose characters satisfy [p], and the rest *)
Fixpoint span (p : ascii -> bool) (s : string) : string * string :=
  match s with
  | EmptyString => (EmptyString, EmptyString)
  | String c r =>
      if p c then let '(a, b) := span p r in (String c a, b)
      else (EmptyString, s)
  end.

Definition is_empty (s : string) : bool :=
  match s with EmptyString => true | _ => false end.

(** the double-quote character *)
Definition dquote : ascii := "034"%char.

(** [s] between double quotes *)
Definition quoted (s : string) : string :=
  String dquote (s +:+ String dquote EmptyString).

End PyStr.

(** ** The heuristic prefilter ([_quick_metrics_check]) *)

(** An entry of [metrics_indicators].  The loop of the source tests
    [isinstance(indicator, str)]: a [str] entry is looked up as a plain
    substring, any other entry is handed to [re.search]. *)
Inductive indicator :=
| IndStr (s : string)
| IndPattern (matches : string -> bool).

(** The list of the source.  Its last two entries are written as raw string
    literals ([r'...']): they are [str] objects like the eleven before them. *)
Definition metrics_indicators : list indicator :=
  [ IndStr "likes"; IndStr "comments"; IndStr "followers"; IndStr "views";
    IndStr "reach"; IndStr "impressions"; IndStr "engagement"; IndStr "post";
    IndStr "instagram.com/p/"; IndStr "analytics"; IndStr "stats";
    IndStr "\d+[kKmM]?\s*(likes|comments|followers|views)";
    IndStr "\d{1,3}[,\s]*\d{3}" ].

Definition indicator_hit (text_lower : string) (i : indicator) : bool :=
  match i with
  | IndStr s => PyStr.contains s text_lower
  | IndPattern matches => matches text_lower
  end.

Definition _quick_metrics_check (text : string) : bool :=
  let text_lower := PyStr.lower text in
  List.existsb (indicator_hit text_lower) metrics_indicators.

(** ** Exceptions *)

(** The exception classes the modelled code can meet. *)
Inductive exc :=
| ValueError | TypeError | AttributeError | OverflowError
| ZeroDivisionError | KeyError | JSONDecodeError | ServiceError.

Inductive result (A : Type) :=
| Ok (a : A)
| Raise (e : exc).
Arguments Ok {A} a.
Arguments Raise {A} e.

Definition bind {A B} (r : result A) (k : A -> result B) : result B :=
  match r with
  | Ok a => k a
  | Raise e => Raise e
  end.

Notation "'let*' x ':=' c1 'in' c2" := (bind c1 (fun x => c2))
  (at level 10, x name, c1 at level 100, c2 at level 200).

(** [isinstance(e, cls)] for the classes of an [except] clause:
    [JSONDecodeError] is a subclass of [ValueError]. *)
Definition exc_isinstance (e cls : exc) : bool :=
  match e, cls with
  | ValueError, ValueError | JSONDecodeError, ValueError
  | TypeError, TypeError | AttributeError, AttributeError
  | OverflowError, OverflowError | ZeroDivisionError, ZeroDivisionError
  | KeyError, KeyError
  | JSONDecodeError, JSONDecodeError | ServiceError, ServiceError => true
  | _, _ => false
  end.

(** [try: body except (cls...): handler] *)
Definition catch {A} (body : result A) (classes : list exc) (handler : result A)
  : result A :=
  match body with
  | Ok a => Ok a
  | Raise e =>
      if List.existsb (exc_isinstance e) classes then handler else Raise e
  end.

(** ** Python floats: IEEE-754 binary64 *)

Module PyFloat.

Definition prec : Z := 53.
Definition emax : Z := 1024.

Abbreviation float := spec_float.

(** an integer as an exact (not normalised) binary number *)
Definition exact_of_Z (z : Z) : float :=
  match z with
  | Z0 => S754_zero false
  | Zpos p => S754_finite false p 0
  | Zneg p => S754_finite true p 0
  end.

(** the binary64 value nearest to [z] (ties to even) *)
Definition nearest_of_Z (z : Z) : float := binary_normalize prec emax z 0 false.

(** [float(z)] for an [int] [z] *)
Definition of_int (z : Z) : result float :=
  match nearest_of_Z z with
  | S754_infinity _ => Raise OverflowError
  | f => Ok f
  end.

(** [x * y] and [x + y] on floats *)
Definition mul (x y : float) : float := SFmul prec emax x y.
Definition add (x y : float) : float := SFadd prec emax x y.

(** [x / y] on floats *)
Definition truediv (x y : float) : result float :=
  match y with
  | S754_zero _ => Raise ZeroDivisionError
  | _ => Ok (SFdiv prec emax x y)
  end.

(** [a / b] on [int]s: the correctly rounded quotient *)
Definition int_truediv (a b : Z) : result float :=
  if Z.eqb b 0 then Raise ZeroDivisionError
  else match SFdiv prec emax (exact_of_Z a) (exact_of_Z b) with
       | S754_infinity _ => Raise OverflowError
       | f => Ok f
       end.

(** [int(x)]: truncation towards zero *)
Definition to_int (x : float) : result Z :=
  match x with
  | S754_zero _ => Ok 0
  | S754_infinity _ => Raise OverflowError
  | S754_nan => Raise ValueError
  | S754_finite s m e => Ok (cond_Zopp s (Z.shiftl (Zpos m) e))
  end.

(** [bool(x)] *)
Definition truthy (x : float) : bool :=
  match x with
  | S754_zero _ => false
  | _ => true
  end.

Definition is_finite (x : float) : bool :=
  match x with
  | S754_zero _ | S754_finite _ _ _ => true
  | _ => false
  end.

(** the binary64 value nearest to [(-1)^neg * m * 10^e10], for [0 <= m] *)
Definition of_decimal (neg : bool) (m e10 : Z) : float :=
  match m with
  | Zpos p =>
      if Z.leb 0 e10 then binary_round prec emax neg (p * Z.to_pos (10 ^ e10)) 0
      else SFdiv prec emax (S754_finite neg p 0)
                 (S754_finite false (Z.to_pos (10 ^ (- e10))) 0)
  | _ => S754_zero neg
  end.

(** the integer nearest to [n / d], ties to even, for [0 <= n] and [0 < d] *)
Definition div_half_even (n d : Z) : Z :=
  let q := n / d in
  let r := n mod d in
  match Z.compare (2 * r) d with
  | Lt => q
  | Gt => q + 1
  | Eq => if Z.even q then q else q + 1
  end.

(** [round(x, 2)]: the exact value of [x] is rounded to two decimal places
    (ties to even) and the decimal is read back as a float. *)
Definition round2 (x : float) : float :=
  match x with
  | S754_finite s m e =>
      let n :=
        if Z.leb 0 e then Zpos m * 2 ^ e * 100
        else div_half_even (Zpos m * 100) (2 ^ (- e)) in
      of_decimal s n (-2)
  | _ => x
  end.

Definition digit_val (c : ascii) : Z := Z.of_nat (PyStr.ord c) - 48.

Fixpoint digits_val_acc (acc : Z) (s : string) : Z :=
  match s with
  | EmptyString => acc
  | String c r => digits_val_acc (10 * acc + digit_val c) r
  end.

(** the number a string of decimal digits denotes *)
Definition digits_val (s : string) : Z := digits_val_acc 0 s.

Definition is_underscore (c : ascii) : bool := Ascii.eqb c "_".

(** The copy loop that drops underscores: one is allowed only between two
    digits. [prev] is the previous character (NUL at the start). *)
Fixpoint drop_underscores (prev : ascii) (s : string) : option string :=
  match s with
  | EmptyString => if is_underscore prev then None else Some EmptyString
  | String c r =>
      if is_underscore c then
        if PyStr.is_digit prev then drop_underscores c r else None
      else if (is_underscore prev && negb (PyStr.is_digit c))%bool then None
      else option_map (String c) (drop_underscores c r)
  end.

Definition without_underscores (s : string) : option string :=
  if PyStr.existsb is_underscore s then drop_underscores "000" s else Some s.

(** an optional sign, and the rest *)
Definition split_sign (s : string) : bool * string :=
  match s with
  | String "-" r => (true, r)
  | String "+" r => (false, r)
  | _ => (false, s)
  end.

(** [digits [. digits] [(e|E) [sign] digits]] with at least one digit before
    the exponent: the mantissa and the decimal exponent. *)
Definition parse_decimal (s : string) : option (Z * Z) :=
  let '(ip, r1) := PyStr.span PyStr.is_digit s in
  let '(fp, r2) :=
    match r1 with
    | String "." r => PyStr.span PyStr.is_digit r
    | _ => (EmptyString, r1)
    end in
  if (PyStr.is_empty ip && PyStr.is_empty fp)%bool then None
  else
    let m := digits_val (ip +:+ fp) in
    let scale := - Z.of_nat (String.length fp) in
    match r2 with
    | EmptyString => Some (m, scale)
    | String c r3 =>
        if (Ascii.eqb c "e" || Ascii.eqb c "E")%bool then
          let '(eneg, r4) := split_sign r3 in
          let '(ep, r5) := PyStr.span PyStr.is_digit r4 in
          if (PyStr.is_empty ep || negb (PyStr.is_empty r5))%bool then None
          else Some (m, cond_Zopp eneg (digits_val ep) + scale)
        else None
    end.

(** [float(s)] for a [str] [s] *)
Definition of_str (s : string) : result float :=
  match without_underscores (PyStr.strip s) with
  | None => Raise ValueError
  | Some t =>
      let '(neg, body) := split_sign t in
      let word := PyStr.lower body in
      if (String.eqb word "inf" || String.eqb word "infinity")%bool
      then Ok (S754_infinity neg)
      else if String.eqb word "nan" then Ok S754_nan
      else match parse_decimal body with
           | Some (m, e10) => Ok (of_decimal neg m e10)
           | None => Raise ValueError
           end
  end.

End PyFloat.

(** ** Python values *)

(** What [json.loads] can return, which is also what the helper's
    dictionaries hold. *)
Inductive pyval :=
| VNone
| VBool (b : bool)
| VInt (z : Z)
| VFloat (f : spec_float)
| VStr (s : string)
| VList (l : list pyval)
| VDict (d : gmap string pyval).

Abbreviation dict := (gmap string pyval).

Module Py.

(** [bool(v)] *)
Definition truthy (v : pyval) : bool :=
  match v with
  | VNone => false
  | VBool b => b
  | VInt z => negb (Z.eqb z 0)
  | VFloat f => PyFloat.truthy f
  | VStr s => negb (PyStr.is_empty s)
  | VList l => match l with [] => false | _ => true end
  | VDict d => negb (bool_decide (d = ∅))
  end.

(** [a or b] *)
Definition or (a b : pyval) : pyval := if truthy a then a else b.

(** [v == s] for a [str] literal [s] *)
Definition eq_str (v : pyval) (s : string) : bool :=
  match v with
  | VStr t => String.eqb t s
  | _ => false
  end.

(** [d.get(k)] and [d.get(k, dflt)] *)
Definition get (d : dict) (k : string) : pyval := default VNone (d !! k).
Definition get_default (d : dict) (k : string) (dflt : pyval) : pyval :=
  default dflt (d !! k).

(** [k in d] *)
Definition has_key (d : dict) (k : string) : bool := bool_decide (is_Some (d !! k)).

(** [v[k]] for a [str] key [k] *)
Definition getitem (v : pyval) (k : string) : result pyval :=
  match v with
  | VDict d => match d !! k with Some x => Ok x | None => Raise KeyError end
  | _ => Raise TypeError
  end.

(** [v.get(k)] and [v.get(k, dflt)] on an arbitrary object: only a [dict]
    has the method. *)
Definition method_get (v : pyval) (k : string) (dflt : pyval) : result pyval :=
  match v with
  | VDict d => Ok (get_default d k dflt)
  | _ => Raise AttributeError
  end.

Fixpoint chars (s : string) : list pyval :=
  match s with
  | EmptyString => []
  | String c r => VStr (String c EmptyString) :: chars r
  end.

(** the items a [for] loop over [v] visits; a [dict] yields its keys (in
    an order the model does not track: the callers raise on any of them) *)
Definition iterate (v : pyval) : result (list pyval) :=
  match v with
  | VList l => Ok l
  | VStr s => Ok (chars s)
  | VDict d => Ok (VStr <$> (map_to_list d).*1)
  | _ => Raise TypeError
  end.

(** The numeric tower: [bool] and [int] are integers, [float] is a float. *)
Inductive number := NInt (z : Z) | NFloat (f : spec_float).

Definition as_number (v : pyval) : result number :=
  match v with
  | VBool b => Ok (NInt (if b then 1 else 0))
  | VInt z => Ok (NInt z)
  | VFloat f => Ok (NFloat f)
  | _ => Raise TypeError
  end.

Definition of_number (n : number) : pyval :=
  match n with
  | NInt z => VInt z
  | NFloat f => VFloat f
  end.

Definition to_float (n : number) : result spec_float :=
  match n with
  | NInt z => PyFloat.of_int z
  | NFloat f => Ok f
  end.

(** [a + b], [a * b] and [a / b] on numbers.  On other operands the model
    raises [TypeError]: the callers catch every exception alike. *)
Definition add (a b : pyval) : result pyval :=
  let* x := as_number a in
  let* y := as_number b in
  match x, y with
  | NInt m, NInt n => Ok (VInt (m + n))
  | _, _ =>
      let* f := to_float x in
      let* g := to_float y in
      Ok (VFloat (PyFloat.add f g))
  end.

Definition mul (a b : pyval) : result pyval :=
  let* x := as_number a in
  let* y := as_number b in
  match x, y with
  | NInt m, NInt n => Ok (VInt (m * n))
  | _, _ =>
      let* f := to_float x in
      let* g := to_float y in
      Ok (VFloat (PyFloat.mul f g))
  end.

Definition truediv (a b : pyval) : result pyval :=
  let* x := as_number a in
  let* y := as_number b in
  match x, y with
  | NInt m, NInt n =>
      let* q := PyFloat.int_truediv m n in Ok (VFloat q)
  | _, _ =>
      let* f := to_float x in
      let* g := to_float y in
      let* q := PyFloat.truediv f g in
      Ok (VFloat q)
  end.

(** [sum(l)]: the fold of [+] from [0] *)
Fixpoint sum_from (acc : pyval) (l : list pyval) : result pyval :=
  match l with
  | [] => Ok acc
  | x :: r => let* acc' := add acc x in sum_from acc' r
  end.
Definition sum (l : list pyval) : result pyval := sum_from (VInt 0) l.

(** [len(l)] for a list *)
Definition len (l : list pyval) : pyval := VInt (Z.of_nat (length l)).

(** [int(s)] for a [str] [s]: blanks stripped, an optional sign, decimal
    digits with single underscores between them. *)
Definition int_of_str (s : string) : result Z :=
  match PyFloat.without_underscores (PyStr.strip s) with
  | None => Raise ValueError
  | Some t =>
      let '(neg, body) := PyFloat.split_sign t in
      if (negb (PyStr.is_empty body) && PyStr.forallb PyStr.is_digit body)%bool
      then Ok (cond_Zopp neg (PyFloat.digits_val body))
      else Raise ValueError
  end.

(** [int(v)] *)
Definition int (v : pyval) : result Z :=
  match v with
  | VBool b => Ok (if b then 1 else 0)
  | VInt z => Ok z
  | VFloat f => PyFloat.to_int f
  | VStr s => int_of_str s
  | _ => Raise TypeError
  end.

(** [float(v)] *)
Definition float (v : pyval) : result spec_float :=
  match v with
  | VBool b => Ok (PyFloat.nearest_of_Z (if b then 1 else 0))
  | VInt z => PyFloat.of_int z
  | VFloat f => Ok f
  | VStr s => PyFloat.of_str s
  | _ => Raise TypeError
  end.

(** [round(v, 2)] *)
Definition round2 (v : pyval) : result pyval :=
  match v with
  | VFloat f => Ok (VFloat (PyFloat.round2 f))
  | VInt z => Ok (VInt z)
  | VBool b => Ok (VInt (if b then 1 else 0))
  | _ => Raise TypeError
  end.

(** [str(n)] for a natural number *)
Definition str_of_nat (n : nat) : string :=
  DecimalString.NilZero.string_of_uint (Nat.to_uint n).

End Py.

(** ** Calendar dates ([datetime]) *)

Module PyDate.

(** A date of the proleptic Gregorian calendar.  The time of day is left
    out: every date the helper prints goes through [strftime('%Y-%m-%d')]. *)
Record date := mkdate { year : Z; month : Z; day : Z }.

Definition is_leap (y : Z) : bool :=
  (Z.eqb (y mod 4) 0 && (negb (Z.eqb (y mod 100) 0) || Z.eqb (y mod 400) 0))%bool.

Definition days_in_year (y : Z) : Z := if is_leap y then 366 else 365.

Definition days_in_month (y m : Z) : Z :=
  match m with
  | 1 | 3 | 5 | 7 | 8 | 10 | 12 => 31
  | 4 | 6 | 9 | 11 => 30
  | 2 => if is_leap y then 29 else 28
  | _ => 0
  end.

(** [datetime.MINYEAR = 1], [datetime.MAXYEAR = 9999] *)
Definition valid (d : date) : bool :=
  (Z.leb 1 (year d) && Z.leb (year d) 9999
   && Z.leb 1 (month d) && Z.leb (month d) 12
   && Z.leb 1 (day d) && Z.leb (day d) (days_in_month (year d) (month d)))%bool.

Definition days_before_year (y : Z) : Z :=
  let p := y - 1 in p * 365 + p / 4 - p / 100 + p / 400.

Fixpoint days_before_month_from (fuel : nat) (y m : Z) : Z :=
  match fuel with
  | O => 0
  | S f => days_in_month y (m - 1) + days_before_month_from f y (m - 1)
  end.

(** days of year [y] before the first of month [m] *)
Definition days_before_month (y m : Z) : Z :=
  days_before_month_from (Z.to_nat (m - 1)) y m.

(** [d.toordinal()]: 1 for 0001-01-01 *)
Definition to_ordinal (d : date) : Z :=
  days_before_year (year d) + days_before_month (year d) (month d) + day d.

(** [date.max.toordinal()] *)
Definition max_ordinal : Z := 3652059.

(** the year holding day [n] counted from the first day of year [y] *)
Fixpoint find_year (fuel : nat) (y n : Z) : Z * Z :=
  match fuel with
  | O => (y, n)
  | S f =>
      if Z.leb n (days_in_year y) then (y, n)
      else find_year f (y + 1) (n - days_in_year y)
  end.

Fixpoint find_month (fuel : nat) (y m n : Z) : Z * Z :=
  match fuel with
  | O => (m, n)
  | S f =>
      if Z.leb n (days_in_month y m) then (m, n)
      else find_month f y (m + 1) (n - days_in_month y m)
  end.

(** [date.fromordinal(n)]; [None] when out of range *)
Definition of_ordinal (n : Z) : option date :=
  if (Z.leb 1 n && Z.leb n max_ordinal)%bool then
    let '(y, r) := find_year (Z.to_nat 9998) 1 n in
    let '(m, d) := find_month 11 y 1 r in
    Some (mkdate y m d)
  else None.

(** [d - timedelta(days=n)]; out of range is an [OverflowError] *)
Definition minus_days (d : date) (n : Z) : result date :=
  match of_ordinal (to_ordinal d - n) with
  | Some d' => Ok d'
  | None => Raise OverflowError
  end.

Definition digit_char (d : Z) : ascii := PyStr.chr (Z.to_nat (48 + d mod 10)).

Definition pad2 (n : Z) : string :=
  String (digit_char (n / 10)) (String (digit_char n) EmptyString).

Definition pad4 (n : Z) : string :=
  String (digit_char (n / 1000)) (String (digit_char (n / 100)) (pad2 n)).

(** [%Y] of [strftime].  Whether a year below 1000 is zero-padded to four
    digits depends on the platform's C library and on the Python version
    ([pads_year = false]: the year is printed as the C library does,
    without padding). *)
Definition year_text (pads_year : bool) (y : Z) : string :=
  if pads_year then pad4 y else Py.str_of_nat (Z.to_nat y).

(** [d.strftime('%Y-%m-%d')] *)
Definition strftime (pads_year : bool) (d : date) : string :=
  year_text pads_year (year d)
  +:+ String "-" (pad2 (month d) +:+ String "-" (pad2 (day d))).

(** *** [strptime]

    The format is compiled to a regular expression whose numeric groups
    are ordered alternatives; [re.match] takes the first alternative
    that lets the rest of the pattern match, and the whole string has to
    be consumed by that match. *)

Inductive directive :=
| DYear | DMonth | DDay | DHour | DMinute | DSecond
| DLit (c : ascii)
| DSpaces.

(** the value of the first [n] characters when they are digits in
    [lo..hi]; with the rest of the string *)
Definition take_number (n : nat) (lo hi : Z) (s : string) : option (Z * string) :=
  let head := String.substring 0 n s in
  let rest := String.substring n (String.length s - n) s in
  if (Nat.eqb (String.length head) n && PyStr.forallb PyStr.is_digit head)%bool then
    let v := PyFloat.digits_val head in
    if (Z.leb lo v && Z.leb v hi)%bool then Some (v, rest) else None
  else None.

(** a blank followed by a digit [1..9]: the last alternative of [%d] *)
Definition take_blank_digit (s : string) : option (Z * string) :=
  match s with
  | String " " r => take_number 1 1 9 r
  | _ => None
  end.

(** the alternatives of a numeric directive, in the order of the pattern *)
Definition alternatives (d : directive) : list (string -> option (Z * string)) :=
  match d with
  | DYear => [take_number 4 0 9999]
  | DMonth => [take_number 2 10 12; take_number 2 1 9; take_number 1 1 9]
  | DDay => [take_number 2 30 31; take_number 2 10 29; take_number 2 1 9;
             take_number 1 1 9; take_blank_digit]
  | DHour => [take_number 2 20 23; take_number 2 0 19; take_number 1 0 9]
  | DMinute => [take_number 2 0 59; take_number 1 0 9]
  | DSecond => [take_number 2 60 61; take_number 2 0 59; take_number 1 0 9]
  | _ => []
  end.

(** the strings left after one or more blanks, the longest run first *)
Fixpoint after_blanks (s : string) : list string :=
  match s with
  | String c r => if PyStr.is_space c then after_blanks r ++ [r] else []
  | EmptyString => []
  end.

Record fields := mkfields {
  f_year : Z; f_month : Z; f_day : Z; f_hour : Z; f_minute : Z; f_second : Z }.

Definition no_fields : fields := mkfields 1900 1 1 0 0 0.

Definition set_field (d : directive) (v : Z) (f : fields) : fields :=
  match d with
  | DYear => mkfields v (f_month f) (f_day f) (f_hour f) (f_minute f) (f_second f)
  | DMonth => mkfields (f_year f) v (f_day f) (f_hour f) (f_minute f) (f_second f)
  | DDay => mkfields (f_year f) (f_month f) v (f_hour f) (f_minute f) (f_second f)
  | DHour => mkfields (f_year f) (f_month f) (f_day f) v (f_minute f) (f_second f)
  | DMinute => mkfields (f_year f) (f_month f) (f_day f) (f_hour f) v (f_second f)
  | DSecond => mkfields (f_year f) (f_month f) (f_day f) (f_hour f) (f_minute f) v
  | _ => f
  end.

Fixpoint first_some {A B} (k : A -> option B) (l : list A) : option B :=
  match l with
  | [] => None
  | x :: r => match k x with Some y => Some y | None => first_some k r end
  end.

(** [pattern.match(s)]: the fields and the unmatched rest *)
Fixpoint regex_match (fmt : list directive) (f : fields) (s : string)
  : option (fields * string) :=
  match fmt with
  | [] => Some (f, s)
  | DLit c :: fmt' =>
      match s with
      | String c' r => if Ascii.eqb c' c then regex_match fmt' f r else None
      | EmptyString => None
      end
  | DSpaces :: fmt' => first_some (regex_match fmt' f) (after_blanks s)
  | d :: fmt' =>
      first_some
        (fun alt => match alt s with
                    | Some (v, r) => regex_match fmt' (set_field d v f) r
                    | None => None
                    end)
        (alternatives d)
  end.

(** [datetime.strptime(s, fmt)], reduced to its date *)
Definition strptime (s : string) (fmt : list directive) : result date :=
  match regex_match fmt no_fields s with
  | Some (f, EmptyString) =>
      let d := mkdate (f_year f) (f_month f) (f_day f) in
      if (valid d && Z.leb (f_second f) 59)%bool then Ok d else Raise ValueError
  | _ => Raise ValueError
  end.

(** the formats of [date_patterns] *)
Definition fmt_ymd : list directive :=
  [DYear; DLit "-"; DMonth; DLit "-"; DDay].
Definition fmt_dmy_slash : list directive :=
  [DDay; DLit "/"; DMonth; DLit "/"; DYear].
Definition fmt_mdy_slash : list directive :=
  [DMonth; DLit "/"; DDay; DLit "/"; DYear].
Definition fmt_ymd_hms : list directive :=
  [DYear; DLit "-"; DMonth; DLit "-"; DDay; DSpaces;
   DHour; DLit ":"; DMinute; DLit ":"; DSecond].
Definition fmt_dmy_dash : list directive :=
  [DDay; DLit "-"; DMonth; DLit "-"; DYear].

End PyDate.

(** ** The field normalizers of [OpenAIHelper] *)

Definition is_digit_or_dot (c : ascii) : bool :=
  (PyStr.is_digit c || Ascii.eqb c ".")%bool.

(** [int(base * factor)] for the float [base] and the [int] [factor] *)
Definition scale_and_truncate (base : spec_float) (factor : Z) : result Z :=
  PyFloat.to_int (PyFloat.mul base (PyFloat.nearest_of_Z factor)).

(** [_safe_int_enhanced(value)]: an [int] or [None] *)
Definition _safe_int_enhanced (value : pyval) : result pyval :=
  match value with
  | VNone => Ok VNone
  | _ =>
      catch
        match value with
        | VStr s =>
            let value := PyStr.strip (PyStr.lower s) in
            if PyStr.endswith_char value "k" then
              let* base := PyFloat.of_str (PyStr.drop_last value) in
              let* n := scale_and_truncate base 1000 in
              Ok (VInt n)
            else if PyStr.endswith_char value "m" then
              let* base := PyFloat.of_str (PyStr.drop_last value) in
              let* n := scale_and_truncate base 1000000 in
              Ok (VInt n)
            else
              let clean_value := PyStr.filter is_digit_or_dot value in
              if PyStr.contains "." clean_value then
                let* f := PyFloat.of_str clean_value in
                let* n := PyFloat.to_int f in
                Ok (VInt n)
              else if PyStr.is_empty clean_value then Ok VNone
              else let* n := Py.int_of_str clean_value in Ok (VInt n)
        | _ => let* n := Py.int value in Ok (VInt n)
        end
        [ValueError; TypeError] (Ok VNone)
  end.

Definition is_percent_or_comma (c : ascii) : bool :=
  (Ascii.eqb c "%" || Ascii.eqb c ",")%bool.

(** [_safe_float(value)]: a [float] or [None] *)
Definition _safe_float (value : pyval) : result pyval :=
  match value with
  | VNone => Ok VNone
  | _ =>
      catch
        match value with
        | VStr s =>
            let clean_value :=
              PyStr.strip (PyStr.filter (fun c => negb (is_percent_or_comma c)) s) in
            if PyStr.is_empty clean_value then Ok VNone
            else let* f := PyFloat.of_str clean_value in Ok (VFloat f)
        | _ => let* f := Py.float value in Ok (VFloat f)
        end
        [ValueError; TypeError] (Ok VNone)
  end.

Definition valid_types : list string := ["photo"; "video"; "reel"; "carousel"].

Definition type_mapping : list (string * string) :=
  [ ("image", "photo"); ("pic", "photo"); ("picture", "photo");
    ("vid", "video"); ("clip", "video");
    ("story", "reel"); ("stories", "reel");
    ("slide", "carousel"); ("slides", "carousel"); ("swipe", "carousel") ].

Fixpoint assoc (k : string) (l : list (string * string)) : option string :=
  match l with
  | [] => None
  | (k', v) :: r => if String.eqb k k' then Some v else assoc k r
  end.

(** [_validate_media_type(media_type)] *)
Definition _validate_media_type (media_type : pyval) : result string :=
  if negb (Py.truthy media_type) then Ok "photo"
  else match media_type with
       | VStr s =>
           let media_type := PyStr.lower s in
           if List.existsb (String.eqb media_type) valid_types then Ok media_type
           else match assoc media_type type_mapping with
                | Some t => Ok t
                | None => Ok "photo"
                end
       | _ => Raise AttributeError
       end.

(** [re.search(r'(\d+)', s)]: the first run of digits *)
Fixpoint first_digits (s : string) : option string :=
  match s with
  | EmptyString => None
  | String c r =>
      if PyStr.is_digit c then Some (fst (PyStr.span PyStr.is_digit s))
      else first_digits r
  end.

Definition date_patterns : list (list PyDate.directive) :=
  [ PyDate.fmt_ymd; PyDate.fmt_dmy_slash; PyDate.fmt_mdy_slash;
    PyDate.fmt_ymd_hms; PyDate.fmt_dmy_dash ].

(** the loop over [date_patterns] *)
Fixpoint try_patterns (date_str : string) (patterns : list (list PyDate.directive))
  : option PyDate.date :=
  match patterns with
  | [] => None
  | p :: rest =>
      match PyDate.strptime date_str p with
      | Ok d => Some d
      | Raise _ => try_patterns date_str rest
      end
  end.

(** The relative-date branch: [Some] date when it returns, [None] when
    control falls through to the absolute formats. *)
Definition relative_date (today : PyDate.date) (date_str : string)
  : result (option PyDate.date) :=
  let lowered := PyStr.lower date_str in
  if (PyStr.contains "ago" lowered || PyStr.contains "yesterday" lowered)%bool then
    if PyStr.contains "yesterday" lowered then
      let* d := PyDate.minus_days today 1 in Ok (Some d)
    else if PyStr.contains "day" lowered then
      match first_digits date_str with
      | Some ds =>
          let* days := Py.int_of_str ds in
          let* d := PyDate.minus_days today days in Ok (Some d)
      | None => Ok None
      end
    else if PyStr.contains "week" lowered then
      match first_digits date_str with
      | Some ds =>
          let* weeks := Py.int_of_str ds in
          let* d := PyDate.minus_days today (7 * weeks) in Ok (Some d)
      | None => Ok None
      end
    else Ok None
  else Ok None.

(** the date the [try] block of [_validate_date] settles on: a relative
    date, the first format that parses, or today *)
Definition resolve_date (today : PyDate.date) (date_str : pyval) : result PyDate.date :=
  match date_str with
  | VStr s =>
      let* rel := relative_date today s in
      match rel with
      | Some d => Ok d
      | None =>
          match try_patterns s date_patterns with
          | Some d => Ok d
          | None => Ok today
          end
      end
  | _ => Raise AttributeError
  end.

(** [_validate_date(date_str)]; [today] is what [datetime.now()] returns
    during the call.  Every path ends in [strftime('%Y-%m-%d')]. *)
Definition _validate_date (pads_year : bool) (today : PyDate.date) (date_str : pyval)
  : string :=
  if negb (Py.truthy date_str) then PyDate.strftime pads_year today
  else
    match resolve_date today date_str with
    | Ok d => PyDate.strftime pads_year d
    | Raise _ => PyDate.strftime pads_year today
    end.

(** [_create_empty_metrics_response_with_username(username)] *)
Definition _create_empty_metrics_response_with_username (username : string) : dict :=
  list_to_map
    [ ("has_metrics", VBool false);
      ("influencer_name", VStr username);
      ("data_quality_score", VFloat (S754_zero false));
      ("extraction_confidence", VFloat (PyFloat.of_decimal false 10 (-1)));
      ("recent_posts", VList []);
      ("followers_count", VNone);
      ("following_count", VNone);
      ("posts_count", VNone);
      ("avg_likes_per_post", VNone);
      ("avg_comments_per_post", VNone);
      ("engagement_rate", VNone);
      ("missing_data_points", VList []);
      ("data_source_reliability", VStr "high") ].

(** ** [_validate_and_clean_metrics_enhanced] *)

Definition is_id_char (c : ascii) : bool :=
  (PyStr.is_alpha c || PyStr.is_digit c || Ascii.eqb c "_" || Ascii.eqb c "-")%bool.

(** the pattern [/p/([A-Za-z0-9_-]+)/] anchored at the start of [s] *)
Definition match_post_id_here (s : string) : option string :=
  match s with
  | String "/" (String "p" (String "/" r)) =>
      match PyStr.span is_id_char r with
      | (String c g, String "/" _) => Some (String c g)
      | _ => None
      end
  | _ => None
  end.

(** [re.search(r'/p/([A-Za-z0-9_-]+)/', url)]: group 1 of the leftmost match *)
Fixpoint search_post_id (url : string) : option string :=
  match match_post_id_here url with
  | Some g => Some g
  | None =>
      match url with
      | EmptyString => None
      | String _ r => search_post_id r
      end
  end.

(** the float 0.5 *)
Definition half : pyval := VFloat (PyFloat.of_decimal false 5 (-1)).

(** the dictionary literal [cleaned_post = {...}] *)
Definition cleaned_post_dict (post_id url media_type likes comments post_date
    views reach impressions shares completeness_score : pyval) : dict :=
  list_to_map
    [ ("post_id", post_id);
      ("url", url);
      ("media_type", media_type);
      ("likes", likes);
      ("comments", comments);
      ("post_date", post_date);
      ("views", views);
      ("reach", reach);
      ("impressions", impressions);
      ("shares", shares);
      ("completeness_score", completeness_score) ].

(** One round of the loop over [data['recent_posts']]: the cleaned post
    number [i] (counted from 0). *)
Definition clean_post (pads_year : bool) (today : PyDate.date) (username : string)
    (i : nat) (post : pyval) : result pyval :=
  let* post_id := Py.method_get post "post_id" VNone in
  let* post_url := Py.method_get post "url" (VStr EmptyString) in
  let* post_id :=
    if (negb (Py.truthy post_id) && Py.truthy post_url)%bool then
      match post_url with
      | VStr u =>
          match search_post_id u with
          | Some g => Ok (VStr g)
          | None => Ok post_id
          end
      | _ => Raise TypeError
      end
    else Ok post_id in
  let label := "post_" +:+ Py.str_of_nat (i + 1) in
  let* media_type := Py.method_get post "media_type" VNone in
  let* media_type := _validate_media_type media_type in
  let* likes := Py.method_get post "likes" VNone in
  let* likes := _safe_int_enhanced likes in
  let* comments := Py.method_get post "comments" VNone in
  let* comments := _safe_int_enhanced comments in
  let* post_date := Py.method_get post "post_date" VNone in
  let post_date := _validate_date pads_year today post_date in
  let* views := Py.method_get post "views" VNone in
  let* views := _safe_int_enhanced views in
  let* reach := Py.method_get post "reach" VNone in
  let* reach := _safe_int_enhanced reach in
  let* impressions := Py.method_get post "impressions" VNone in
  let* impressions := _safe_int_enhanced impressions in
  let* shares := Py.method_get post "shares" VNone in
  let* shares := _safe_int_enhanced shares in
  let* completeness_score := Py.method_get post "completeness_score" half in
  Ok (VDict (cleaned_post_dict
    (Py.or post_id (VStr label))
    (Py.or post_url
       (VStr ("https://instagram.com/" +:+ username +:+ "/p/" +:+ label)))
    (VStr media_type) likes comments (VStr post_date)
    views reach impressions shares completeness_score)).

(** the loop [for i, post in enumerate(...)], from index [i] on; [clock i]
    is the date [datetime.now()] gives while post [i] is cleaned *)
Fixpoint clean_posts_from (pads_year : bool) (clock : nat -> PyDate.date)
    (username : string) (i : nat) (posts : list pyval) : result (list pyval) :=
  match posts with
  | [] => Ok []
  | post :: rest =>
      let* cleaned_post := clean_post pads_year (clock i) username i post in
      let* cleaned_rest := clean_posts_from pads_year clock username (S i) rest in
      Ok (cleaned_post :: cleaned_rest)
  end.

(** A statement of the [try] block: it updates [data] or raises, and a
    statement that raises leaves [data] as it was. *)
Definition statement := dict -> result dict.

(** [try: statements; return data / except Exception: return data]:
    the updates made before a statement raises are kept. *)
Fixpoint run (body : list statement) (data : dict) : dict :=
  match body with
  | [] => data
  | s :: rest =>
      match s data with
      | Ok data' => run rest data'
      | Raise _ => data
      end
  end.

(** the same run, telling whether a statement raised *)
Fixpoint exec (body : list statement) (data : dict) : result dict :=
  match body with
  | [] => Ok data
  | s :: rest => let* data' := s data in exec rest data'
  end.

(** [data[key] = data.get(key, dflt)] *)
Definition set_default (key : string) (dflt : pyval) : statement :=
  fun data => Ok (<[key := Py.get_default data key dflt]> data).

(** [data[key] = normalize(data.get(key))] *)
Definition set_normalized (key : string) (normalize : pyval -> result pyval)
  : statement :=
  fun data =>
    let* v := normalize (Py.get data key) in
    Ok (<[key := v]> data).

Definition set_has_metrics : statement :=
  fun data =>
    Ok (<["has_metrics" :=
            VBool (Py.truthy (Py.get_default data "has_metrics" (VBool false)))]> data).

Definition set_influencer_name (username : string) : statement :=
  fun data =>
    if (negb (Py.truthy (Py.get data "influencer_name"))
        || Py.eq_str (Py.get data "influencer_name") "unknown")%bool
    then Ok (<["influencer_name" := VStr username]> data)
    else Ok data.

Definition set_recent_posts (pads_year : bool) (clock : nat -> PyDate.date)
    (username : string) : statement :=
  fun data =>
    if (Py.has_key data "recent_posts" && Py.truthy (Py.get data "recent_posts"))%bool
    then
      let* posts := Py.iterate (Py.get data "recent_posts") in
      let* cleaned_posts := clean_posts_from pads_year clock username 0 posts in
      Ok (<["recent_posts" := VList cleaned_posts]> data)
    else Ok (<["recent_posts" := VList []]> data).

(** [[p[field] for p in posts if p[field] is not None]] *)
Fixpoint collect_field (field : string) (posts : list pyval) : result (list pyval) :=
  match posts with
  | [] => Ok []
  | p :: rest =>
      let* v := Py.getitem p field in
      let* vs := collect_field field rest in
      Ok (match v with VNone => vs | _ => v :: vs end)
  end.

(** [if data['recent_posts'] and not data[avg_key]: ...] *)
Definition derive_average (avg_key field : string) : statement :=
  fun data =>
    let* posts := Py.getitem (VDict data) "recent_posts" in
    if negb (Py.truthy posts) then Ok data else
    let* avg := Py.getitem (VDict data) avg_key in
    if Py.truthy avg then Ok data else
      let* items := Py.iterate posts in
      let* values := collect_field field items in
      match values with
      | [] => Ok data
      | _ =>
          let* total := Py.sum values in
          let* mean := Py.truediv total (Py.len values) in
          let* n := Py.int mean in
          Ok (<[avg_key := VInt n]> data)
      end.

Definition derive_engagement_rate : statement :=
  fun data =>
    let* avg_likes := Py.getitem (VDict data) "avg_likes_per_post" in
    if negb (Py.truthy avg_likes) then Ok data else
    let* avg_comments := Py.getitem (VDict data) "avg_comments_per_post" in
    if negb (Py.truthy avg_comments) then Ok data else
    let* followers := Py.getitem (VDict data) "followers_count" in
    if negb (Py.truthy followers) then Ok data else
    let* current := Py.getitem (VDict data) "engagement_rate" in
    if Py.truthy current then Ok data else
    let* total := Py.add avg_likes avg_comments in
    let* ratio := Py.truediv total followers in
    let* engagement := Py.mul ratio (VInt 100) in
    let* rounded := Py.round2 engagement in
    Ok (<["engagement_rate" := rounded]> data).

(** the statements of the [try] block, in order *)
Definition validation_body (pads_year : bool) (clock : nat -> PyDate.date)
    (username : string) : list statement :=
  [ set_has_metrics;
    set_influencer_name username;
    set_default "data_quality_score" half;
    set_default "extraction_confidence" half;
    set_default "missing_data_points" (VList []);
    set_default "data_source_reliability" (VStr "medium");
    set_recent_posts pads_year clock username;
    set_normalized "followers_count" _safe_int_enhanced;
    set_normalized "following_count" _safe_int_enhanced;
    set_normalized "posts_count" _safe_int_enhanced;
    set_normalized "avg_likes_per_post" _safe_int_enhanced;
    set_normalized "avg_comments_per_post" _safe_int_enhanced;
    set_normalized "engagement_rate" _safe_float;
    derive_average "avg_likes_per_post" "likes";
    derive_average "avg_comments_per_post" "comments";
    derive_engagement_rate ].

Definition _validate_and_clean_metrics_enhanced (pads_year : bool)
    (clock : nat -> PyDate.date) (data : dict) (username : string) : dict :=
  run (validation_body pads_year clock username) data.

(** ** The services the helper calls *)

(** A chat-completion request, by the inputs its prompt is built from. *)
Inductive request :=
| ClassifyRequest (message_text username : string)
| ExtractRequest (text username : string)
| RespondRequest (message_text username : string) (classification campaign_context : pyval)
| NameRequest (message : string).

(** the handle characters [[a-zA-Z0-9._]] *)
Definition is_handle_char (c : ascii) : bool :=
  (PyStr.is_alpha c || PyStr.is_digit c || Ascii.eqb c "." || Ascii.eqb c "_")%bool.

(** A username pattern is a literal lead followed by [@([a-zA-Z0-9._]+)],
    matched with [re.IGNORECASE]; here anchored at the start of [s]. *)
Definition match_handle_here (lead s : string) : option string :=
  if String.prefix (PyStr.lower lead) (PyStr.lower s) then
    match String.substring (String.length lead) (String.length s - String.length lead) s with
    | String "@" r =>
        match PyStr.span is_handle_char r with
        | (String c g, _) => Some (String c g)
        | _ => None
        end
    | _ => None
    end
  else None.

(** [re.search(pattern, s, re.IGNORECASE)]: group 1 of the leftmost match *)
Fixpoint search_handle (lead s : string) : option string :=
  match match_handle_here lead s with
  | Some g => Some g
  | None =>
      match s with
      | EmptyString => None
      | String _ r => search_handle lead r
      end
  end.

(** the literal leads of [username_patterns], in order *)
Definition username_patterns : list string :=
  [ EmptyString; "username is "; "my username is "; "handle is ";
    "my handle is "; "ig: "; "instagram: "; "i'm "; "it's " ].

Definition default_classification : dict :=
  list_to_map
    [ ("message_intent", VStr "general_chat");
      ("sentiment", VStr "neutral");
      ("contains_metrics", VBool false);
      ("requires_immediate_response", VBool false);
      ("suggested_response_type", VStr "provide_support");
      ("urgency_level", VStr "low") ].

Section Service.

(** [json.loads] *)
Variable loads : string -> result pyval.
(** [client.chat.completions.create(...)] followed by
    [response.choices[0].message.content]: the reply text, or the
    exception either of them raises *)
Variable llm : request -> result string.
(** [str(e)] *)
Variable describe : exc -> string.
(** the platform's [%Y], the clock and [datetime.now().isoformat()] *)
Variable pads_year : bool.
Variable clock : nat -> PyDate.date.
Variable timestamp : string.

(** Every function below returns its value together with the requests it
    sent to the language model, in order. *)

(** the [try] block of [classify_message_intent] *)
Definition classify_attempt (message_text username : string) : result pyval :=
  let* content := llm (ClassifyRequest message_text username) in
  let* classification := loads content in
  let* _ := Py.method_get classification "message_intent" VNone in
  Ok classification.

Definition classify_message_intent (message_text username : string)
  : pyval * list request :=
  (match classify_attempt message_text username with
   | Ok classification => classification
   | Raise _ => VDict default_classification
   end, [ClassifyRequest message_text username]).

Definition fallback_response (e : exc) : dict :=
  list_to_map
    [ ("response_message",
       VStr "Thanks for your message! We'll get back to you shortly 😊");
      ("response_type", VStr "acknowledgment");
      ("includes_next_steps", VBool false);
      ("follow_up_required", VBool true);
      ("escalation_needed", VBool true);
      ("internal_notes",
       VStr ("Error generating response - manual review needed: " +:+ describe e)) ].

Definition generate_contextual_response (message_text username : string)
    (classification campaign_context : pyval) : pyval * list request :=
  let request :=
    RespondRequest message_text username classification campaign_context in
  let body :=
    let* content := llm request in
    let* response_data := loads content in
    let* _ := Py.method_get response_data "response_type" VNone in
    Ok response_data in
  (match body with
   | Ok response_data => response_data
   | Raise e => VDict (fallback_response e)
   end, [request]).

(** the loop over [username_patterns] *)
Fixpoint first_handle (patterns : list string) (message : string) : option string :=
  match patterns with
  | [] => None
  | lead :: rest =>
      match search_handle lead message with
      | Some g => Some g
      | None => first_handle rest message
      end
  end.

Definition extract_influencer_name (message : string) : string * list request :=
  match first_handle username_patterns message with
  | Some username => (username, [])
  | None =>
      let request := NameRequest message in
      let body :=
        let* content := llm request in
        let username :=
          PyStr.filter (fun c => negb (Ascii.eqb c "@")) (PyStr.strip content) in
        Ok (if (negb (PyStr.is_empty username)
                && negb (String.eqb username "unknown"))%bool
            then username else "unknown") in
      (match body with
       | Ok username => username
       | Raise _ => "unknown"
       end, [request])
  end.

(** the username after [if username == "unknown": ...] *)
Definition resolve_username (text username : string) : string * list request :=
  if String.eqb username "unknown" then
    let '(extracted_username, calls) := extract_influencer_name text in
    (if negb (String.eqb extracted_username "unknown")
     then extracted_username else username, calls)
  else (username, []).

(** the rest of the [try] block of [extract_metrics_from_text]: the
    model call, the parse of the reply and the validation *)
Definition extraction_attempt (text username : string) : result dict :=
  let* content := llm (ExtractRequest text username) in
  let* extracted_data := loads content in
  let* name := Py.method_get extracted_data "influencer_name" VNone in
  match extracted_data with
  | VDict data =>
      let data :=
        if (negb (Py.truthy name) || Py.eq_str name "unknown")%bool
        then <["influencer_name" := VStr username]> data else data in
      Ok (_validate_and_clean_metrics_enhanced pads_year clock data username)
  | _ => Raise AttributeError
  end.

Definition extract_metrics_from_text (text username : string)
  : dict * list request :=
  if negb (_quick_metrics_check text) then
    (_create_empty_metrics_response_with_username username, [])
  else
    let '(username, name_calls) := resolve_username text username in
    (match extraction_attempt text username with
     | Ok extracted_data => extracted_data
     | Raise _ => _create_empty_metrics_response_with_username username
     end, name_calls ++ [ExtractRequest text username]).

Definition error_result (message_text username : string) (e : exc) : dict :=
  list_to_map
    [ ("timestamp", VStr timestamp);
      ("influencer_username", VStr username);
      ("original_message", VStr message_text);
      ("processing_status", VStr "error");
      ("error_message", VStr (describe e));
      ("response", VDict (list_to_map
         [ ("response_message",
            VStr "Thanks for your message! We'll get back to you shortly 😊");
           ("escalation_needed", VBool true);
           ("internal_notes",
            VStr ("Processing error - manual review required: " +:+ describe e)) ])) ].

Definition process_influencer_message (message_text username : string)
    (campaign_context : pyval) : dict * list request :=
  let '(classification, calls1) := classify_message_intent message_text username in
  let step2 :=
    let* contains_metrics :=
      Py.method_get classification "contains_metrics" (VBool false) in
    if Py.truthy contains_metrics then
      let '(metrics_data, calls) := extract_metrics_from_text message_text username in
      Ok (VDict metrics_data, calls)
    else Ok (VNone, []) in
  match step2 with
  | Ok (metrics_data, calls2) =>
      let '(response_data, calls3) :=
        generate_contextual_response message_text username classification
          campaign_context in
      (list_to_map
         [ ("timestamp", VStr timestamp);
           ("influencer_username", VStr username);
           ("original_message", VStr message_text);
           ("classification", classification);
           ("metrics_data", metrics_data);
           ("response", response_data);
           ("processing_status", VStr "success") ],
       calls1 ++ calls2 ++ calls3)
  | Raise e => (error_result message_text username e, calls1)
  end.

End Service.

(** ** The contract parser's fallback ([Contract_to_JSON]) *)

(** the longest prefix of [s] that ends with a closing brace *)
Fixpoint upto_last_brace (s : string) : option string :=
  match s with
  | EmptyString => None
  | String c r =>
      match upto_last_brace r with
      | Some t => Some (String c t)
      | None => if Ascii.eqb c "}" then Some (String c EmptyString) else None
      end
  end.

(** the pattern [(\{[\s\S]+\})] anchored at the start of [s]: an opening
    brace, at least one character, and everything up to the last closing
    brace after it *)
Definition match_block_here (s : string) : option string :=
  match s with
  | String "{" (String c r) =>
      match upto_last_brace r with
      | Some t => Some (String "{" (String c t))
      | None => None
      end
  | _ => None
  end.

(** [re.search(r'(\{[\s\S]+\})', text)]: group 1 of the leftmost match *)
Fixpoint search_block (text : string) : option string :=
  match match_block_here text with
  | Some g => Some g
  | None =>
      match text with
      | EmptyString => None
      | String _ r => search_block r
      end
  end.

Definition extraction_error (text : string) : pyval :=
  VDict (list_to_map
    [ ("error", VStr "Could not extract valid JSON from response");
      ("raw_response", VStr text) ]).

Section Contract.

Variable loads : string -> result pyval.

Definition extract_json_block (text : string) : pyval :=
  let body :=
    match search_block text with
    | Some block => let* v := loads block in Ok (Some v)
    | None => Ok None
    end in
  match body with
  | Ok (Some v) => v
  | _ => extraction_error text
  end.

(** The parse stage of [parse_contract_with_openai], applied to the
    content of the model's reply: the direct parse, and the brace-block
    fallback when it raises [JSONDecodeError]. *)
Definition parse_reply (content : string) : result pyval :=
  catch (loads content) [JSONDecodeError] (Ok (extract_json_block content)).

End Contract.

(** ** A JSON decoder

    A model of [json.loads] on 8-bit text, used to run the functions above
    on concrete replies.  The general theorems are stated for an arbitrary
    decoder. *)

Module Json.

Definition is_ws (c : ascii) : bool :=
  (Ascii.eqb c " " || Ascii.eqb c "009" || Ascii.eqb c "010" || Ascii.eqb c "013")%bool.

Fixpoint skip_ws (s : string) : string :=
  match s with
  | String c r => if is_ws c then skip_ws r else s
  | EmptyString => s
  end.

Definition hex_val (c : ascii) : option N :=
  let n := N.of_nat (PyStr.ord c) in
  if PyStr.is_digit c then Some (n - 48)%N
  else if (Nat.leb 97 (PyStr.ord c) && Nat.leb (PyStr.ord c) 102)%bool then Some (n - 87)%N
  else if (Nat.leb 65 (PyStr.ord c) && Nat.leb (PyStr.ord c) 70)%bool then Some (n - 55)%N
  else None.

(** the code point of four hexadecimal digits, and the rest *)
Definition hex4 (s : string) : option (N * string) :=
  match s with
  | String a (String b (String c (String d r))) =>
      match hex_val a, hex_val b, hex_val c, hex_val d with
      | Some x, Some y, Some z, Some w =>
          Some (((x * 16 + y) * 16 + z) * 16 + w, r)%N
      | _, _, _, _ => None
      end
  | _ => None
  end.

Definition byte (n : N) : ascii := ascii_of_N n.

(** the UTF-8 bytes of a code point *)
Definition utf8 (cp : N) : string :=
  (if cp <? 128 then String (byte cp) EmptyString
   else if cp <? 2048 then
     String (byte (192 + cp / 64)) (String (byte (128 + cp mod 64)) EmptyString)
   else if cp <? 65536 then
     String (byte (224 + cp / 4096))
       (String (byte (128 + (cp / 64) mod 64))
          (String (byte (128 + cp mod 64)) EmptyString))
   else
     String (byte (240 + cp / 262144))
       (String (byte (128 + (cp / 4096) mod 64))
          (String (byte (128 + (cp / 64) mod 64))
             (String (byte (128 + cp mod 64)) EmptyString))))%N.

(** a [\uXXXX] escape, after the [u]: a high surrogate followed by a low
    one makes a single code point *)
Definition unicode_escape (s : string) : option (string * string) :=
  match hex4 s with
  | Some (hi, r) =>
      if ((55296 <=? hi) && (hi <=? 56319))%N then
        match r with
        | String "\" (String "u" r') =>
            match hex4 r' with
            | Some (lo, r'') =>
                if ((56320 <=? lo) && (lo <=? 57343))%N
                then Some (utf8 (65536 + (hi - 55296) * 1024 + (lo - 56320))%N, r'')
                else Some (utf8 hi, r)
            | None => Some (utf8 hi, r)
            end
        | _ => Some (utf8 hi, r)
        end
      else Some (utf8 hi, r)
  | None => None
  end.

Definition simple_escape (c : ascii) : option ascii :=
  if Ascii.eqb c PyStr.dquote then Some PyStr.dquote
  else if Ascii.eqb c "\" then Some "\"%char
  else if Ascii.eqb c "/" then Some "/"%char
  else if Ascii.eqb c "b" then Some "008"%char
  else if Ascii.eqb c "f" then Some "012"%char
  else if Ascii.eqb c "n" then Some "010"%char
  else if Ascii.eqb c "r" then Some "013"%char
  else if Ascii.eqb c "t" then Some "009"%char
  else None.

(** [scanstring] after the opening quote (strict mode) *)
Fixpoint scanstring (fuel : nat) (s : string) : option (string * string) :=
  match fuel with
  | O => None
  | S fuel' =>
      match s with
      | EmptyString => None
      | String c r =>
          if Ascii.eqb c PyStr.dquote then Some (EmptyString, r)
          else if Ascii.eqb c "\" then
            match r with
            | String "u" r' =>
                match unicode_escape r' with
                | Some (bytes, r'') =>
                    match scanstring fuel' r'' with
                    | Some (t, rest) => Some (bytes +:+ t, rest)
                    | None => None
                    end
                | None => None
                end
            | String e r' =>
                match simple_escape e with
                | Some x =>
                    match scanstring fuel' r' with
                    | Some (t, rest) => Some (String x t, rest)
                    | None => None
                    end
                | None => None
                end
            | EmptyString => None
            end
          else if Nat.ltb (PyStr.ord c) 32 then None
          else match scanstring fuel' r with
               | Some (t, rest) => Some (String c t, rest)
               | None => None
               end
      end
  end.

(** a JSON number at the start of [s] (an optional minus, [0] or a
    non-zero digit followed by digits, an optional fraction, an optional
    exponent): the value, and the rest *)
Definition scan_number (s : string) : option (pyval * string) :=
  let '(neg, body) :=
    match s with
    | String "-" r => (true, r)
    | _ => (false, s)
    end in
  let '(digits, r1) := PyStr.span PyStr.is_digit body in
  let '(integer, r1) :=
    match digits with
    | String "0" more => (String "0" EmptyString, more +:+ r1)
    | _ => (digits, r1)
    end in
  if PyStr.is_empty integer then None
  else
    let '(frac, r2) :=
      match r1 with
      | String "." r =>
          match PyStr.span PyStr.is_digit r with
          | (String c f, rest) => (String "." (String c f), rest)
          | _ => (EmptyString, r1)
          end
      | _ => (EmptyString, r1)
      end in
    let '(exp, r3) :=
      match r2 with
      | String e r =>
          if (Ascii.eqb e "e" || Ascii.eqb e "E")%bool then
            let '(sign, r') :=
              match r with
              | String "-" r' => (String "-" EmptyString, r')
              | String "+" r' => (String "+" EmptyString, r')
              | _ => (EmptyString, r)
              end in
            match PyStr.span PyStr.is_digit r' with
            | (String c ds, rest) => (String e (sign +:+ String c ds), rest)
            | _ => (EmptyString, r2)
            end
          else (EmptyString, r2)
      | EmptyString => (EmptyString, r2)
      end in
    if (PyStr.is_empty frac && PyStr.is_empty exp)%bool then
      Some (VInt (cond_Zopp neg (PyFloat.digits_val integer)), r3)
    else
      match PyFloat.of_str ((if neg then "-" else EmptyString) +:+ integer +:+ frac +:+ exp) with
      | Ok f => Some (VFloat f, r3)
      | Raise _ => None
      end.

Definition strip_prefix (p s : string) : option string :=
  if String.prefix p s
  then Some (String.substring (String.length p) (String.length s - String.length p) s)
  else None.

(** [scan_once], the object loop and the array loop; a dictionary keeps
    the last value of a repeated key *)
Fixpoint scan_once (fuel : nat) (s : string) : option (pyval * string) :=
  match fuel with
  | O => None
  | S fuel' =>
      match s with
      | String c r =>
          if Ascii.eqb c PyStr.dquote then
            match scanstring (String.length r + 1) r with
            | Some (t, rest) => Some (VStr t, rest)
            | None => None
            end
          else if Ascii.eqb c "{" then
            match skip_ws r with
            | String "}" rest => Some (VDict ∅, rest)
            | r' => scan_members fuel' r' ∅
            end
          else if Ascii.eqb c "[" then
            match skip_ws r with
            | String "]" rest => Some (VList [], rest)
            | r' => scan_elements fuel' r' []
            end
          else
            match strip_prefix "null" s, strip_prefix "true" s, strip_prefix "false" s with
            | Some rest, _, _ => Some (VNone, rest)
            | _, Some rest, _ => Some (VBool true, rest)
            | _, _, Some rest => Some (VBool false, rest)
            | _, _, _ =>
                match scan_number s with
                | Some r => Some r
                | None =>
                    match strip_prefix "NaN" s, strip_prefix "Infinity" s,
                          strip_prefix "-Infinity" s with
                    | Some rest, _, _ => Some (VFloat S754_nan, rest)
                    | _, Some rest, _ => Some (VFloat (S754_infinity false), rest)
                    | _, _, Some rest => Some (VFloat (S754_infinity true), rest)
                    | _, _, _ => None
                    end
                end
            end
      | EmptyString => None
      end
  end
with scan_members (fuel : nat) (s : string) (acc : dict) : option (pyval * string) :=
  match fuel with
  | O => None
  | S fuel' =>
      match s with
      | String c r =>
          if Ascii.eqb c PyStr.dquote then
            match scanstring (String.length r + 1) r with
            | Some (key, r1) =>
                match skip_ws r1 with
                | String ":" r2 =>
                    match scan_once fuel' (skip_ws r2) with
                    | Some (v, r3) =>
                        let acc' := <[key := v]> acc in
                        match skip_ws r3 with
                        | String "}" rest => Some (VDict acc', rest)
                        | String "," r4 => scan_members fuel' (skip_ws r4) acc'
                        | _ => None
                        end
                    | None => None
                    end
                | _ => None
                end
            | None => None
            end
          else None
      | EmptyString => None
      end
  end
with scan_elements (fuel : nat) (s : string) (acc : list pyval) : option (pyval * string) :=
  match fuel with
  | O => None
  | S fuel' =>
      match scan_once fuel' s with
      | Some (v, r1) =>
          let acc' := acc ++ [v] in
          match skip_ws r1 with
          | String "]" rest => Some (VList acc', rest)
          | String "," r2 => scan_elements fuel' (skip_ws r2) acc'
          | _ => None
          end
      | None => None
      end
  end.

(** [json.loads(s)] *)
Definition loads (s : string) : result pyval :=
  match scan_once (String.length s + 1) (skip_ws s) with
  | Some (v, rest) =>
      match skip_ws rest with
      | EmptyString => Ok v
      | _ => Raise JSONDecodeError
      end
  | None => Raise JSONDecodeError
  end.

End Json.

(** ** The download link of a contract ([Contract_to_JSON]) *)

(** the pattern [/d/([a-zA-Z0-9_-]+)] anchored at the start of [s] *)
Definition match_file_id_here (s : string) : option string :=
  match s with
  | String "/" (String "d" (String "/" r)) =>
      match PyStr.span is_id_char r with
      | (String c g, _) => Some (String c g)
      | _ => None
      end
  | _ => None
  end.

(** [re.search(r'/d/([a-zA-Z0-9_-]+)', shared_url)]: group 1 of the
    leftmost match *)
Fixpoint search_file_id (shared_url : string) : option string :=
  match match_file_id_here shared_url with
  | Some g => Some g
  | None =>
      match shared_url with
      | EmptyString => None
      | String _ r => search_file_id r
      end
  end.

Definition download_prefix : string := "https://drive.google.com/uc?export=download&id=".

(** [convert_google_drive_url(shared_url)]; [re.search] raises a
    [TypeError] on what is no text *)
Definition convert_google_drive_url (shared_url : pyval) : result pyval :=
  match shared_url with
  | VStr url =>
      match search_file_id url with
      | Some file_id => Ok (VStr (download_prefix +:+ file_id))
      | None => Ok shared_url
      end
  | _ => Raise TypeError
  end.

(** ** The record for the warehouse ([webhook_functions.py]) *)

(** the word characters [\w], on the ASCII range *)
Definition is_word_char (c : ascii) : bool :=
  (PyStr.is_alpha c || PyStr.is_digit c || Ascii.eqb c "_")%bool.

(** [re.search(r'@(\w+)', s)]: group 1 of the leftmost match *)
Fixpoint search_at_word (s : string) : option string :=
  match s with
  | EmptyString => None
  | String c r =>
      if Ascii.eqb c "@" then
        match PyStr.span is_word_char r with
        | (String d g, _) => Some (String d g)
        | _ => search_at_word r
        end
      else search_at_word r
  end.

(** [v[:100]]: a text and a list have slices; on a number or [None] the
    subscript raises a [TypeError] (so it does on a dictionary up to
    Python 3.11; later versions raise a [KeyError] there) *)
Definition slice100 (v : pyval) : result pyval :=
  match v with
  | VStr s => Ok (VStr (String.substring 0 100 s))
  | VList l => Ok (VList (take 100 l))
  | _ => Raise TypeError
  end.

(** the dictionary literal [post_record = {...}] *)
Definition post_record_dict (post_id likes comments post_date caption : pyval) : dict :=
  list_to_map
    [ ("post_id", post_id);
      ("likes", likes);
      ("comments", comments);
      ("post_date", post_date);
      ("caption", caption) ].

(** one round of the loop over [extracted_metrics.get('recent_posts', [])];
    [collection_timestamp] is [datetime.now().isoformat()] *)
Definition post_record (collection_timestamp : string) (post : pyval) : result pyval :=
  let* url := Py.method_get post "url" (VStr EmptyString) in
  let* post_id := Py.method_get post "post_id" url in
  let* likes := Py.method_get post "likes" (VInt 0) in
  let* comments := Py.method_get post "comments" (VInt 0) in
  let* post_date :=
    Py.method_get post "post_date"
      (VStr (String.substring 0 10 collection_timestamp)) in
  let* has_caption := Py.method_get post "caption" VNone in
  let* caption :=
    if Py.truthy has_caption then
      let* caption := Py.method_get post "caption" (VStr EmptyString) in
      slice100 caption
    else Ok VNone in
  Ok (VDict (post_record_dict post_id likes comments post_date caption)).

Fixpoint post_records (collection_timestamp : string) (posts : list pyval)
  : result (list pyval) :=
  match posts with
  | [] => Ok []
  | post :: rest =>
      let* record := post_record collection_timestamp post in
      let* records := post_records collection_timestamp rest in
      Ok (record :: records)
  end.

(** [format_for_bigquery(extracted_metrics, user_info, raw_response)] *)
Definition format_for_bigquery (collection_timestamp : string)
    (extracted_metrics user_info raw_response : pyval) : result dict :=
  let* username := Py.method_get user_info "username" (VStr "unknown") in
  let* username :=
    if Py.eq_str username "unknown" then
      let* name := Py.method_get extracted_metrics "influencer_name" VNone in
      if Py.truthy name then Py.method_get extracted_metrics "influencer_name" VNone
      else Ok username
    else Ok username in
  let* username :=
    if Py.eq_str username "unknown" then
      match raw_response with
      | VStr text =>
          match search_at_word text with
          | Some handle => Ok (VStr handle)
          | None => Ok username
          end
      | _ => Raise TypeError
      end
    else Ok username in
  let* listed := Py.method_get extracted_metrics "recent_posts" (VList []) in
  let* posts := Py.iterate listed in
  let* recent_posts := post_records collection_timestamp posts in
  let* followers_count := Py.method_get extracted_metrics "followers_count" VNone in
  let* following_count := Py.method_get extracted_metrics "following_count" VNone in
  let* posts_count := Py.method_get extracted_metrics "posts_count" VNone in
  let* engagement_rate := Py.method_get extracted_metrics "engagement_rate" VNone in
  let* avg_likes := Py.method_get extracted_metrics "avg_likes_per_post" VNone in
  let* avg_comments := Py.method_get extracted_metrics "avg_comments_per_post" VNone in
  let* story_metrics := Py.method_get extracted_metrics "story_metrics" VNone in
  let* demographics := Py.method_get extracted_metrics "audience_demographics" VNone in
  let* error := Py.method_get extracted_metrics "error" VNone in
  Ok (list_to_map
    [ ("influencer_name", username);
      ("collection_date", VStr collection_timestamp);
      ("followers_count", followers_count);
      ("following_count", following_count);
      ("posts_count", posts_count);
      ("engagement_rate", engagement_rate);
      ("avg_likes_per_post", avg_likes);
      ("avg_comments_per_post", avg_comments);
      ("recent_posts", VList recent_posts);
      ("story_metrics", story_metrics);
      ("audience_demographics", demographics);
      ("processed_at", VStr collection_timestamp);
      ("data_source", VStr "telegram_bot");
      ("processing_version", VStr "1.0");
      ("error", error) ]).

(** ** The insertion into the warehouse ([bigquery_helper.py]) *)

(** the dictionary literal [post_data = {...}] *)
Definition post_data_dict (post_id likes comments post_date : pyval) : dict :=
  list_to_map
    [ ("post_id", post_id);
      ("likes", likes);
      ("comments", comments);
      ("post_date", post_date) ].

(** the loop over [structured_data.get('recent_posts', [])]: what is no
    dictionary is skipped; [clock i] is the date [datetime.now()] gives
    at the item number [i] *)
Fixpoint posts_data (pads_year : bool) (clock : nat -> PyDate.date) (i : nat)
    (posts : list pyval) : list pyval :=
  match posts with
  | [] => []
  | VDict post :: rest =>
      VDict (post_data_dict
               (Py.get post "post_id") (Py.get post "likes") (Py.get post "comments")
               (Py.get_default post "post_date"
                  (VStr (PyDate.strftime pads_year (clock i)))))
      :: posts_data pads_year clock (S i) rest
  | _ :: rest => posts_data pads_year clock (S i) rest
  end.

(** the dictionary literal [bq_row = {...}] *)
Definition bq_row_dict (influencer_name collection_date recent_posts processed_at : pyval)
  : dict :=
  list_to_map
    [ ("influencer_name", influencer_name);
      ("collection_date", collection_date);
      ("recent_posts", recent_posts);
      ("processed_at", processed_at) ].

Section Warehouse.

(** [client.insert_rows_json(client.get_table(table_id), [row])]: the
    errors it returns, or the exception either call raises *)
Variable insert_rows_json : pyval -> result pyval.
(** the platform's [%Y], the clock, and the two [datetime.now().isoformat()] *)
Variable pads_year : bool.
Variable clock : nat -> PyDate.date.
Variable collection_date processed_at : string.

(** the row the [try] block builds *)
Definition bq_row (structured_data : pyval) : result pyval :=
  let* listed := Py.method_get structured_data "recent_posts" (VList []) in
  let* posts := Py.iterate listed in
  let recent_posts := posts_data pads_year clock 0 posts in
  let* influencer_name := Py.method_get structured_data "influencer_name" VNone in
  Ok (VDict (bq_row_dict influencer_name (VStr collection_date) (VList recent_posts)
               (VStr processed_at))).

(** [insert_metrics(structured_data)]: its answer, and the rows handed to
    the client *)
Definition insert_metrics (structured_data : pyval) : bool * list pyval :=
  match bq_row structured_data with
  | Ok row =>
      (match insert_rows_json row with
       | Ok errors => negb (Py.truthy errors)
       | Raise _ => false
       end, [row])
  | Raise _ => (false, [])
  end.

End Warehouse.

(** ** The replies of the bot ([webhook_functions.py]) *)

(** What the bot does to the outside, in order. *)
Inductive event :=
| Sent (text : pyval)
| Asked (r : request)
| Stored (row : pyval).

(** A helper of the module: [None] until [set_helpers] is called, the
    text ["failed"] when its construction raised ([app.get_helpers]),
    or the helper itself. *)
Inductive helper := Unset | Failed | Ready.

(** Telegram's [User] object, as far as the bot reads it: the username
    and the first name are texts when they are present. *)
Record user := mkuser {
  user_username : option string;
  user_first_name : option string }.

Definition user_dict (u : user) : dict :=
  let named :=
    match user_first_name u with
    | Some n => {[ "first_name" := VStr n ]}
    | None => ∅
    end in
  match user_username u with
  | Some n => <["username" := VStr n]> named
  | None => named
  end.

(** the lines of a text *)
Fixpoint unlines (l : list string) : string :=
  match l with
  | [] => EmptyString
  | [line] => line
  | line :: rest => line +:+ String "010" (unlines rest)
  end.

Definition not_configured_text : string :=
  "❌ Bot is not properly configured. Please try again later.".
Definition default_reply_text : string :=
  "Thanks for your message! We'll get back to you shortly 😊".
Definition processing_text : string := "Perfect! We're processing your data now 🔄".
Definition storage_issue_text : string :=
  "Thanks for sending this! We're having a technical issue storing the data — we'll sort this out and get back to you shortly 😊".
Definition technical_issue_text : string :=
  "Thanks for your message! We're experiencing a technical issue — we'll get back to you shortly 😊".

Definition success_message
    (influencer_name post_count followers_text engagement_text quality_text : string)
  : string :=
  unlines
    [ "Everything's in — thank you so much 🙏";
      EmptyString;
      "<b>📊 Your metrics have been processed:</b>";
      "• Influencer: @" +:+ influencer_name;
      "• Posts analyzed: " +:+ post_count;
      "• Followers: " +:+ followers_text;
      "• Engagement rate: " +:+ engagement_text;
      "• Data quality: " +:+ quality_text;
      EmptyString;
      "We'll review and get back to you with any follow-up questions. Usually takes 1-2 business days for full analysis." ].

Definition welcome_message (first_name : string) : string :=
  unlines
    [ "Hello " +:+ first_name +:+ "! 👋";
      EmptyString;
      "<b>🤖 Instagram Metrics Collection</b>";
      EmptyString;
      "<b>📊 For Influencers:</b>";
      "• Just send your metrics when we reach out";
      "• Screenshots or text format both work";
      "• We'll help format everything properly";
      EmptyString;
      "<b>💡 How it works:</b>";
      "1. Send your Instagram metrics data";
      "2. Our AI processes and structures the data";
      "3. You get confirmation when complete";
      EmptyString;
      "Type /help for more information!" ].

Definition help_message : string :=
  unlines
    [ "<b>🔧 How to use this bot:</b>";
      EmptyString;
      "<b>📊 For Influencers:</b>";
      "• We'll reach out with clear requests";
      "• Send metrics in any format you prefer";
      "• Screenshots of Instagram insights work great";
      "• Don't worry about perfect formatting";
      EmptyString;
      "<b>✨ What makes this special:</b>";
      "• AI extracts data from informal responses";
      "• Agency-appropriate tone in all communications";
      "• Quality scoring for data reliability";
      "• Automatic escalation for complex issues";
      EmptyString;
      "<b>📋 Typical metrics we collect:</b>";
      "• Follower/following counts";
      "• Recent post performance";
      "• Engagement rates";
      "• Story views (if available)";
      EmptyString;
      "Need help? Just ask! 🤝" ].

(** A computation of the bot: the events so far, and a value or the
    exception that stopped it. *)
Definition action (A : Type) : Type := list event * result A.

Definition ret {A} (a : A) : action A := ([], Ok a).

Definition lift {A} (r : result A) : action A := ([], r).

Definition then_ {A B} (m : action A) (k : A -> action B) : action B :=
  match m with
  | (events, Ok a) => let '(events', r) := k a in (events ++ events', r)
  | (events, Raise e) => (events, Raise e)
  end.

Notation "'do*' x ':=' c1 'in' c2" := (then_ c1 (fun x => c2))
  (at level 10, x name, c1 at level 100, c2 at level 200).

(** [try: body except Exception: handler] *)
Definition or_else {A} (body handler : action A) : action A :=
  match body with
  | (events, Ok a) => (events, Ok a)
  | (events, Raise _) => let '(events', r) := handler in (events ++ events', r)
  end.

(** [send_telegram_message(chat_id, text)]: the post to the Telegram API
    is inside a [try] of its own, so the call returns whatever happens *)
Definition send_telegram_message (text : pyval) : action unit := ([Sent text], Ok tt).

Section Bot.

(** the services of [OpenAIHelper] *)
Variable loads : string -> result pyval.
Variable llm : request -> result string.
Variable describe : exc -> string.
Variable pads_year : bool.
Variable clock : nat -> PyDate.date.
Variable timestamp : string.
(** the client of [BigQueryHelper], its clock and timestamps *)
Variable insert_rows_json : pyval -> result pyval.
Variable warehouse_clock : nat -> PyDate.date.
Variable collection_date processed_at : string.
(** [datetime.now().isoformat()] in [format_for_bigquery] *)
Variable collection_timestamp : string.
(** [format(value, spec)], which an f-string applies to each field *)
Variable format_value : pyval -> string -> result string.

(** the branch [if success:] of [process_influencer_response] *)
Definition report_success (structured_data : dict) (metrics_data : pyval)
  : action unit :=
  do* post_count :=
    lift (match Py.get_default structured_data "recent_posts" (VList []) with
          | VList posts => Ok (VInt (Z.of_nat (length posts)))
          | VStr s => Ok (VInt (Z.of_nat (String.length s)))
          | VDict d => Ok (VInt (Z.of_nat (size d)))
          | _ => Raise TypeError
          end) in
  let influencer_name :=
    Py.get_default structured_data "influencer_name" (VStr "Unknown") in
  let followers_count := Py.get structured_data "followers_count" in
  let engagement_rate := Py.get structured_data "engagement_rate" in
  do* data_quality := lift (Py.method_get metrics_data "data_quality_score" (VInt 0)) in
  do* followers_text :=
    lift (match followers_count with
          | VNone => Ok "N/A"
          | _ => format_value followers_count ","
          end) in
  do* engagement_text :=
    lift (match engagement_rate with
          | VNone => Ok "N/A"
          | _ => let* text := format_value engagement_rate EmptyString in
                 Ok (text +:+ "%")
          end) in
  do* quality_text :=
    lift (if Py.truthy data_quality
          then let* text := format_value data_quality ".1f" in Ok (text +:+ "/1.0")
          else Ok "N/A") in
  do* name_text := lift (format_value influencer_name EmptyString) in
  do* count_text := lift (format_value post_count EmptyString) in
  send_telegram_message
    (VStr (success_message name_text count_text followers_text engagement_text
             quality_text)).

(** the [try] block of [process_influencer_response] *)
Definition respond (openai bigquery : helper) (message_text : string)
    (user_info : user) : action unit :=
  match openai with
  | Unset => send_telegram_message (VStr not_configured_text)
  | Failed => lift (Raise AttributeError)
  | Ready =>
      let '(result, calls) :=
        process_influencer_message loads llm describe pads_year clock timestamp
          message_text (default "unknown" (user_username user_info)) VNone in
      do* _ := (Asked <$> calls, Ok tt) in
      let classification := Py.get_default result "classification" (VDict ∅) in
      let metrics_data := Py.get result "metrics_data" in
      let response_data := Py.get_default result "response" (VDict ∅) in
      do* agency_response :=
        lift (Py.method_get response_data "response_message"
                (VStr default_reply_text)) in
      do* _ := send_telegram_message agency_response in
      do* escalation :=
        lift (Py.method_get response_data "escalation_needed" (VBool false)) in
      do* has_metrics :=
        lift (if Py.truthy metrics_data
              then Py.method_get metrics_data "has_metrics" (VBool false)
              else Ok metrics_data) in
      if Py.truthy has_metrics then
        do* _ := send_telegram_message (VStr processing_text) in
        do* structured_data :=
          lift (format_for_bigquery collection_timestamp metrics_data
                  (VDict (user_dict user_info)) (VStr message_text)) in
        do* success :=
          match bigquery with
          | Ready =>
              let '(answer, rows) :=
                insert_metrics insert_rows_json pads_year warehouse_clock
                  collection_date processed_at (VDict structured_data) in
              (Stored <$> rows, Ok answer)
          | _ => ret false
          end in
        if (success : bool) then report_success structured_data metrics_data
        else send_telegram_message (VStr storage_issue_text)
      else
        (* the other branches compare [classification.get('message_intent')]
           with the intents and write to the log *)
        do* intent := lift (Py.method_get classification "message_intent" VNone) in
        ret tt
  end.

(** [process_influencer_response(message_text, chat_id, user_info)]: the
    events of the call *)
Definition process_influencer_response (openai bigquery : helper)
    (message_text : string) (user_info : user) : list event :=
  (or_else (respond openai bigquery message_text user_info)
     (send_telegram_message (VStr technical_issue_text))).1.

(** [handle_admin_command(message_text, chat_id, user_info)] *)
Definition handle_admin_command (openai bigquery : helper)
    (message_text : string) (user_info : user) : list event :=
  let message_text := PyStr.strip message_text in
  if String.eqb (PyStr.lower message_text) "/start" then
    (send_telegram_message
       (VStr (welcome_message (default "there" (user_first_name user_info))))).1
  else if String.eqb (PyStr.lower message_text) "/help" then
    (send_telegram_message (VStr help_message)).1
  else process_influencer_response openai bigquery message_text user_info.

End Bot.

(** * The vocabulary of the properties *)

(** a chat service that is down, and a clock that stays on 10 June 2024 *)
Definition failing_llm : request -> result string := fun _ => Raise ServiceError.
Definition noon : nat -> PyDate.date := fun _ => PyDate.mkdate 2024 6 10.

(** [writes s w]: a run of [s] that returns leaves every key but [w] alone. *)
Definition writes (s : statement) (w : string) : Prop :=
  forall d d', s d = Ok d' -> forall k, k <> w -> d' !! k = d !! k.

(** the key each statement of the validation writes *)
Definition written_keys : list string :=
  [ "has_metrics"; "influencer_name"; "data_quality_score"; "extraction_confidence";
    "missing_data_points"; "data_source_reliability"; "recent_posts";
    "followers_count"; "following_count"; "posts_count"; "avg_likes_per_post";
    "avg_comments_per_post"; "engagement_rate"; "avg_likes_per_post";
    "avg_comments_per_post"; "engagement_rate" ].

(** a number inside [[0, 1]] *)
Definition in_unit_interval (v : pyval) : bool :=
  match v with
  | VInt z => (Z.leb 0 z && Z.leb z 1)%bool
  | VFloat f =>
      (SFleb (S754_zero false) f && SFleb f (PyFloat.nearest_of_Z 1))%bool
  | _ => false
  end.

(** the keys written after the quality defaults *)
Definition later_keys : list string :=
  [ "recent_posts"; "followers_count"; "following_count"; "posts_count";
    "avg_likes_per_post"; "avg_comments_per_post"; "engagement_rate";
    "avg_likes_per_post"; "avg_comments_per_post"; "engagement_rate" ].

(** the float 7.5 *)
Definition seven_and_a_half : spec_float := PyFloat.of_decimal false 75 (-1).

(** the aggregate metrics of a record *)
Definition aggregate_keys : list string :=
  [ "followers_count"; "following_count"; "posts_count";
    "avg_likes_per_post"; "avg_comments_per_post"; "engagement_rate" ].

(** no posts and no aggregate *)
Definition carries_no_metrics (record : dict) : Prop :=
  record !! "recent_posts" = Some (VList [])
  /\ Forall (fun k => record !! k = Some VNone) aggregate_keys.

(** a reply with [has_metrics] false and a follower count *)
Definition reply_without_metrics : string :=
  "{" +:+ PyStr.quoted "has_metrics" +:+ ": false, "
      +:+ PyStr.quoted "followers_count" +:+ ": 5000}".

(** the 256 characters *)
Definition all_ascii : list ascii := List.map ascii_of_nat (seq 0 256).

(** the sign of a float that is not a NaN *)
Definition has_sign (sx : bool) (x : spec_float) : Prop :=
  match x with
  | S754_zero s | S754_infinity s | S754_finite s _ _ => s = sx
  | S754_nan => True
  end.

(** the lowered and stripped text ends with [k] or [m] *)
Definition has_scale_suffix (s : string) : bool :=
  let value := PyStr.strip (PyStr.lower s) in
  (PyStr.endswith_char value "k" || PyStr.endswith_char value "m")%bool.

(** the number of occurrences of [c] in [s] *)
Fixpoint count_char (c : ascii) (s : string) : nat :=
  match s with
  | EmptyString => O
  | String d r => ((if Ascii.eqb d c then 1 else 0) + count_char c r)%nat
  end.

(** what follows the first decimal point *)
Fixpoint after_point (s : string) : string :=
  match s with
  | EmptyString => EmptyString
  | String c r => if Ascii.eqb c "." then r else after_point r
  end.

(** digits with at most one decimal point, and at least one digit *)
Definition unsigned_decimal (s : string) : bool :=
  (PyStr.forallb is_digit_or_dot s && PyStr.existsb PyStr.is_digit s
   && Nat.leb (count_char "." s) 1)%bool.

(** a decimal number: an optional sign and an unsigned decimal *)
Definition decimal_number (s : string) : bool :=
  unsigned_decimal (PyFloat.split_sign s).2.

(** the float a decimal number denotes: the nearest to its digits scaled
    by the number of digits after the point *)
Definition decimal_value (s : string) : spec_float :=
  let '(neg, body) := PyFloat.split_sign s in
  PyFloat.of_decimal neg (PyFloat.digits_val (PyStr.filter PyStr.is_digit body))
    (- Z.of_nat (String.length (after_point body))).

(** the factor of a suffix *)
Definition suffix_factor (c : ascii) : option Z :=
  if (Ascii.eqb c "k" || Ascii.eqb c "K")%bool then Some 1000
  else if (Ascii.eqb c "m" || Ascii.eqb c "M")%bool then Some 1000000
  else None.

(** [int(x)] where it is defined *)
Definition truncate (x : spec_float) : Z :=
  match x with
  | S754_finite s m e => cond_Zopp s (Z.shiftl (Zpos m) e)
  | _ => 0
  end.

(** a character of a decimal number *)
Definition is_number_char (c : ascii) : bool :=
  (is_digit_or_dot c || Ascii.eqb c "-" || Ascii.eqb c "+")%bool.

(** [n] zeros *)
Fixpoint zeros (n : nat) : string :=
  match n with
  | O => EmptyString
  | S n' => String "0" (zeros n')
  end.

(** the number 10^309, written out *)
Definition googol_cubed : string := String "1" (zeros 309).

(** an opening or closing brace *)
Definition is_brace (c : ascii) : bool := (Ascii.eqb c "{" || Ascii.eqb c "}")%bool.

(** a text with no brace character *)
Definition brace_free (s : string) : bool := PyStr.forallb (fun c => negb (is_brace c)) s.

(** a brace-delimited block with at least one character between its braces *)
Definition block (c : ascii) (inner : string) : string :=
  String "{" (String c (inner +:+ "}")).

(** a JSON object with metrics *)
Definition metrics_object_inner : string :=
  "has_metrics" +:+ String PyStr.dquote (": true, "
    +:+ PyStr.quoted "followers_count" +:+ ": 5000").

(** the object, and a reply that wraps it in prose *)
Definition metrics_object : string := block PyStr.dquote metrics_object_inner.

Definition wrapped_reply : string :=
  "Sure, here it is: " +:+ metrics_object +:+ " Hope this helps!".

(** no statement of the validation raises *)
Definition raises_nothing (pads_year : bool) (clock : nat -> PyDate.date)
    (data : dict) (username : string) : bool :=
  match exec (validation_body pads_year clock username) data with
  | Ok _ => true
  | Raise _ => false
  end.

(** the candidate of the specification's example *)
Definition engagement_example : dict :=
  list_to_map
    [ ("avg_likes_per_post", VInt 100);
      ("avg_comments_per_post", VInt 20);
      ("followers_count", VInt 10000) ].

(** the float 1.2 *)
Definition one_point_two : spec_float := PyFloat.of_decimal false 12 (-1).

(** a digit or a dash *)
Definition is_date_char (c : ascii) : bool := (PyStr.is_digit c || Ascii.eqb c "-")%bool.

(** what the normalizers return *)
Definition int_or_none (v : pyval) : Prop := v = VNone \/ exists n, v = VInt n.
Definition float_or_none (v : pyval) : Prop := v = VNone \/ exists f, v = VFloat f.

(** a post as the cleaning loop builds it *)
Inductive cleaned (date_ok : string -> Prop) : pyval -> Prop :=
| cleaned_intro post_id url media likes comments date views reach impressions shares
    completeness :
    Py.truthy post_id = true -> Py.truthy url = true -> In media valid_types ->
    int_or_none likes -> int_or_none comments -> date_ok date ->
    int_or_none views -> int_or_none reach -> int_or_none impressions ->
    int_or_none shares ->
    cleaned date_ok
      (VDict (cleaned_post_dict post_id url (VStr media) likes comments (VStr date)
                views reach impressions shares completeness)).

(** [d] and [d'] hold the same values under the keys of [keys] *)
Definition agree (keys : list string) (d d' : dict) : Prop :=
  forall k, In k keys -> d !! k = d' !! k.

(** whether [s] returns its dictionary unchanged depends on [keys] only *)
Definition stable_on (s : statement) (keys : list string) : Prop :=
  forall d d', agree keys d d' -> s d = Ok d -> s d' = Ok d'.

(** a dictionary [p] leaves unchanged is still left unchanged after [s] *)
Definition preserved_by (p s : statement) : Prop :=
  forall d d', p d = Ok d -> s d = Ok d' -> p d' = Ok d'.

(** every date the loop over [posts] prints has the ten characters of
    [YYYY-MM-DD] *)
Fixpoint ten_character_dates_from (pads_year : bool) (clock : nat -> PyDate.date)
    (i : nat) (posts : list pyval) : bool :=
  match posts with
  | [] => true
  | post :: rest =>
      match post with
      | VDict m =>
          Nat.eqb
            (String.length (_validate_date pads_year (clock i) (Py.get m "post_date")))
            10
      | _ => true
      end && ten_character_dates_from pads_year clock (S i) rest
  end.

(** the platform pads the year, or the dates of [data['recent_posts']] are
    printed with a year of four digits *)
Definition prints_padded_dates (pads_year : bool) (clock : nat -> PyDate.date)
    (data : dict) : bool :=
  pads_year
  || match Py.get data "recent_posts" with
     | VList posts => ten_character_dates_from pads_year clock 0 posts
     | _ => true
     end.

(** a date string that [_validate_date] returns as it is, whatever the day *)
Definition settled_date (pads_year : bool) (date : string) : Prop :=
  forall today, _validate_date pads_year today (VStr date) = date.

(** [compatible I pre body body']: the statements of [body'] answer those of
    [body] one by one.  On the result of a statement its answer changes
    nothing, an answer raises where the statement does, and what the answers
    [pre] of the earlier statements leave unchanged stays so.  [I] is what
    is known of the dictionary [body] starts from. *)
Inductive compatible :
  (dict -> Prop) -> list statement -> list statement -> list statement -> Prop :=
| compatible_nil I pre : compatible I pre [] []
| compatible_cons (I I' : dict -> Prop) pre s s' body body' :
    Forall (fun p => preserved_by p s) pre ->
    (forall d d', I d -> s d = Ok d' -> s' d' = Ok d' /\ I' d') ->
    (forall d e, s d = Raise e -> exists e', s' d = Raise e') ->
    compatible I' (pre ++ [s']) body body' ->
    compatible I pre (s :: body) (s' :: body').

(** the clock of a later run *)
Definition new_year : nat -> PyDate.date := fun _ => PyDate.mkdate 2025 1 1.

(** a candidate with suffixed counts, a post dated relatively and a post
    with a link only *)
Definition raw_record : dict :=
  list_to_map
    [ ("followers_count", VStr "12.5k");
      ("engagement_rate", VStr "3.5%");
      ("recent_posts",
        VList
          [ VDict (list_to_map
              [ ("likes", VStr "1.2k"); ("comments", VInt 40);
                ("media_type", VStr "reel"); ("post_date", VStr "yesterday") ]);
            VDict (list_to_map
              [ ("url", VStr "https://instagram.com/p/Cabc123/");
                ("likes", VInt 300); ("post_date", VStr "03/02/2024") ]) ]) ].

(** the dates of the posts of a record *)
Definition post_dates (data : dict) : list pyval :=
  match Py.get data "recent_posts" with
  | VList posts =>
      (fun p => match p with VDict m => Py.get m "post_date" | _ => VNone end) <$> posts
  | _ => []
  end.

(** the two derived averages, their keys and the post fields they read *)
Inductive averaged := Likes | Comments.

Definition average_key (a : averaged) : string :=
  match a with Likes => "avg_likes_per_post" | Comments => "avg_comments_per_post" end.

Definition post_field (a : averaged) : string :=
  match a with Likes => "likes" | Comments => "comments" end.

(** the integers the posts hold under [field], in order *)
Definition field_values (field : string) (posts : list pyval) : list Z :=
  flat_map
    (fun p =>
       match p with
       | VDict m => match Py.get m field with VInt z => [z] | _ => [] end
       | _ => []
       end)
    posts.

(** [sum(values)] *)
Definition total (values : list Z) : Z := fold_right Z.add 0 values.

(** the posts of the specification's example: a post without likes between posts
    with 100 and 200 likes *)
Definition average_example : dict :=
  {[ "recent_posts" :=
       VList [ VDict {[ "likes" := VInt 100 ]};
               VDict {[ "likes" := VNone ]};
               VDict {[ "likes" := VInt 200 ]} ] ]}.

(** the posts the validation makes of them *)
Definition average_example_posts : list pyval :=
  match _validate_and_clean_metrics_enhanced false noon average_example "bob"
          !! "recent_posts" with
  | Some (VList posts) => posts
  | _ => []
  end.

(** a text with no letter of the alphabet *)
Definition letterless (s : string) : bool :=
  PyStr.forallb (fun c => negb (PyStr.is_alpha c)) s.

(** the entries of [metrics_indicators] that are plain words *)
Definition metric_words : list string :=
  [ "likes"; "comments"; "followers"; "views"; "reach"; "impressions";
    "engagement"; "post"; "instagram.com/p/"; "analytics"; "stats" ].

(** the float 3.5 *)
Definition three_and_a_half : spec_float := PyFloat.of_decimal false 35 (-1).

(** the marks [_safe_float] drops, and the blanks around the number *)
Definition is_mark (c : ascii) : bool := (is_percent_or_comma c || Ascii.eqb c " ")%bool.

(** a statement that returns the dictionary with at most one key set *)
Definition sets_at_most_one_key (s : statement) : Prop :=
  forall d d', s d = Ok d' -> d' = d \/ exists w v, d' = <[w := v]> d.

(** a candidate with an entry the validation does not name *)
Definition record_with_story : dict :=
  {[ "followers_count" := VStr "12.5k"; "story_metrics" := VStr "1.2k views" ]}.

(** the print of a date of the calendar *)
Definition printed_date (pads_year : bool) (text : string) : Prop :=
  exists d, PyDate.valid d = true /\ text = PyDate.strftime pads_year d.

(** the statements before the loop over the posts, and after it *)
Definition defaults_body (username : string) : list statement :=
  [ set_has_metrics;
    set_influencer_name username;
    set_default "data_quality_score" half;
    set_default "extraction_confidence" half;
    set_default "missing_data_points" (VList []);
    set_default "data_source_reliability" (VStr "medium") ].

Definition default_keys : list string :=
  [ "has_metrics"; "influencer_name"; "data_quality_score"; "extraction_confidence";
    "missing_data_points"; "data_source_reliability" ].

(** a candidate whose second post is a text *)
Definition record_with_text_post : dict :=
  {[ "followers_count" := VStr "12.5k";
     "recent_posts" := VList [ VDict {[ "likes" := VInt 10 ]}; VStr "second post" ] ]}.

(** a candidate whose post has a link only *)
Definition record_with_link : dict :=
  {[ "recent_posts" :=
       VList [ VDict {[ "url" := VStr ("https://www.instagram.com" +:+ "/p/"
                                        +:+ "Cabc_123" +:+ "/?hl=en") ]} ] ]}.

(** what [format_for_bigquery] keeps of a post that holds the four
    fields and no caption *)
Definition kept_of_post (post : pyval) : pyval :=
  match post with
  | VDict m =>
      VDict (post_record_dict (Py.get m "post_id") (Py.get m "likes")
               (Py.get m "comments") (Py.get m "post_date") VNone)
  | _ => VNone
  end.

(** what [insert_metrics] stores of it *)
Definition stored_of_post (post : pyval) : pyval :=
  match post with
  | VDict m =>
      VDict (post_data_dict (Py.get m "post_id") (Py.get m "likes")
               (Py.get m "comments") (Py.get m "post_date"))
  | _ => VNone
  end.

Definition is_sent (e : event) : bool := match e with Sent _ => true | _ => false end.
Definition is_asked (e : event) : bool := match e with Asked _ => true | _ => false end.
Definition is_stored (e : event) : bool := match e with Stored _ => true | _ => false end.

(** the number of events of a kind *)
Definition count (kind : event -> bool) (events : list event) : nat :=
  length (List.filter kind events).

(** * Properties *)

(** ** The prefilter *)

(** C6: the bare text "1,250" matches the thousands-grouped pattern of the
    source, yet the prefilter answers false: both patterns are [str]
    entries and are looked up as literal substrings. *)
Theorem quick_check_misses_grouped_number : _quick_metrics_check "1,250" = false.
Proof. reflexivity. Qed.

(** The prefilter answers true exactly when one of the thirteen literal
    entries is a substring of the lowered text. *)
Lemma quick_check_literal_substrings text :
  _quick_metrics_check text = true <->
  exists s, In (IndStr s) metrics_indicators /\ PyStr.contains s (PyStr.lower text) = true.
Proof.
  unfold _quick_metrics_check. rewrite existsb_exists. split.
  - intros [i [Hin Hhit]]. destruct i as [s|m].
    + exists s. auto.
    + simpl in Hin. repeat (destruct Hin as [Hin|Hin]; [discriminate|]). destruct Hin.
  - intros [s [Hin Hc]]. exists (IndStr s). auto.
Qed.

(** ** Classification failure *)

Section ClassificationFailure.

Variable loads : string -> result pyval.
Variable llm : request -> result string.
Variable describe : exc -> string.
Variable pads_year : bool.
Variable clock : nat -> PyDate.date.
Variable timestamp : string.

Lemma classify_default message_text username e :
  classify_attempt loads llm message_text username = Raise e ->
  classify_message_intent loads llm message_text username
  = (VDict default_classification, [ClassifyRequest message_text username]).
Proof. intros H. unfold classify_message_intent. now rewrite H. Qed.

End ClassificationFailure.

(** C10: when the classification attempt raises, the classification is
    the fixed default with [contains_metrics = false], the only requests
    sent are the classification and the response ones (no extraction
    request), and [metrics_data] is [None]. *)
Theorem classification_failure_skips_extraction
    (loads : string -> result pyval) (llm : request -> result string)
    (describe : exc -> string) (pads_year : bool) (clock : nat -> PyDate.date)
    (timestamp message_text username : string) (campaign_context : pyval) (e : exc) :
  classify_attempt loads llm message_text username = Raise e ->
  (classify_message_intent loads llm message_text username).1
    = VDict default_classification
  /\ default_classification !! "contains_metrics" = Some (VBool false)
  /\ (process_influencer_message loads llm describe pads_year clock timestamp
        message_text username campaign_context).1 !! "metrics_data" = Some VNone
  /\ (process_influencer_message loads llm describe pads_year clock timestamp
        message_text username campaign_context).2
     = [ ClassifyRequest message_text username;
         RespondRequest message_text username (VDict default_classification)
           campaign_context ].
Proof.
  intros H.
  pose proof (classify_default loads llm message_text username e H) as Hc.
  unfold process_influencer_message. rewrite Hc.
  repeat split; reflexivity.
Qed.

Lemma classification_failure_skips_extraction_witness :
  (process_influencer_message Json.loads failing_llm (fun _ => "service down") false noon
     "2024-06-10T12:00:00" "got 2k likes" "bob" VNone).1 !! "metrics_data" = Some VNone.
Proof.
  apply (classification_failure_skips_extraction Json.loads failing_llm
           (fun _ => "service down") false noon "2024-06-10T12:00:00"
           "got 2k likes" "bob" VNone ServiceError).
  reflexivity.
Defined.

(** ** Running a list of statements *)

Lemma run_app body1 body2 data out :
  exec body1 data = Ok out -> run (body1 ++ body2) data = run body2 out.
Proof.
  revert data. induction body1 as [|s body1 IH]; intros data H; simpl in *.
  - now inversion H.
  - destruct (s data) as [data'|e]; simpl in H; [now apply IH | discriminate].
Qed.

Lemma run_exec body data out : exec body data = Ok out -> run body data = out.
Proof.
  intros H. rewrite <- (app_nil_r body). now rewrite (run_app _ _ _ _ H).
Qed.

(** a property of the dictionary that every statement keeps is kept by
    the run, whether or not a statement raises *)
Lemma run_invariant (P : dict -> Prop) body data :
  Forall (fun s : statement => forall d d', P d -> s d = Ok d' -> P d') body ->
  P data -> P (run body data).
Proof.
  intros Hall. revert data. induction Hall as [|s body Hs Hall IH]; intros data HP; simpl.
  - exact HP.
  - destruct (s data) as [data'|e] eqn:E; [|exact HP].
    apply IH. eapply Hs; eauto.
Qed.

(** *** What a statement writes *)

Lemma bind_ok {A B} (r : result A) (k : A -> result B) b :
  bind r k = Ok b -> exists a, r = Ok a /\ k a = Ok b.
Proof. destruct r as [a|e]; simpl; intros H; [eauto | discriminate]. Qed.

Ltac bind_inv H :=
  let a := fresh "v" in
  let H1 := fresh "E" in
  apply bind_ok in H; destruct H as [a [H1 H]].

Lemma writes_set_has_metrics : writes set_has_metrics "has_metrics".
Proof.
  intros d d' H k Hk. inversion H; subst. now rewrite lookup_insert_ne.
Qed.

Lemma writes_set_influencer_name u : writes (set_influencer_name u) "influencer_name".
Proof.
  intros d d' H k Hk. unfold set_influencer_name in H.
  destruct (_ || _)%bool; inversion H; subst; [now rewrite lookup_insert_ne | reflexivity].
Qed.

Lemma writes_set_default key dflt : writes (set_default key dflt) key.
Proof.
  intros d d' H k Hk. inversion H; subst. now rewrite lookup_insert_ne.
Qed.

Lemma writes_set_recent_posts p c u : writes (set_recent_posts p c u) "recent_posts".
Proof.
  intros d d' H k Hk. unfold set_recent_posts in H.
  destruct (_ && _)%bool.
  - bind_inv H. bind_inv H. inversion H; subst. now rewrite lookup_insert_ne.
  - inversion H; subst. now rewrite lookup_insert_ne.
Qed.

Lemma writes_set_normalized key g : writes (set_normalized key g) key.
Proof.
  intros d d' H k Hk. unfold set_normalized in H.
  bind_inv H. inversion H; subst. now rewrite lookup_insert_ne.
Qed.

Lemma writes_derive_average avg_key field : writes (derive_average avg_key field) avg_key.
Proof.
  intros d d' H k Hk. unfold derive_average in H.
  bind_inv H. destruct (negb _); [now inversion H|].
  bind_inv H. destruct (Py.truthy _); [now inversion H|].
  bind_inv H. bind_inv H. destruct v2; [now inversion H|].
  bind_inv H. bind_inv H. bind_inv H. inversion H; subst. now rewrite lookup_insert_ne.
Qed.

Lemma writes_derive_engagement_rate : writes derive_engagement_rate "engagement_rate".
Proof.
  intros d d' H k Hk. unfold derive_engagement_rate in H.
  bind_inv H. destruct (negb _); [now inversion H|].
  bind_inv H. destruct (negb _); [now inversion H|].
  bind_inv H. destruct (negb _); [now inversion H|].
  bind_inv H. destruct (Py.truthy _); [now inversion H|].
  bind_inv H. bind_inv H. bind_inv H. bind_inv H. inversion H; subst.
  now rewrite lookup_insert_ne.
Qed.

Lemma validation_body_writes p c u :
  Forall2 writes (validation_body p c u) written_keys.
Proof.
  unfold validation_body, written_keys.
  repeat constructor;
    auto using writes_set_has_metrics, writes_set_influencer_name, writes_set_default,
      writes_set_recent_posts, writes_set_normalized, writes_derive_average,
      writes_derive_engagement_rate.
Qed.

(** a run of statements that do not write [k] leaves [k] alone *)
Lemma run_frame body keys k data :
  Forall2 writes body keys -> k ∉ keys -> run body data !! k = data !! k.
Proof.
  intros Hw Hk.
  apply (run_invariant (fun d => d !! k = data !! k)); [|reflexivity].
  induction Hw as [|s w body keys Hs Hw IH]; constructor.
  - intros d d' Hd E. rewrite <- Hd. apply (Hs d d' E). intros ->. apply Hk. left.
  - apply IH. intros Hin. apply Hk. now right.
Qed.

Lemma exec_frame body keys k data out :
  Forall2 writes body keys -> k ∉ keys -> exec body data = Ok out -> out !! k = data !! k.
Proof.
  intros Hw Hk E. rewrite <- (run_exec _ _ _ E). eapply run_frame; eauto.
Qed.

Lemma run_cons_ok (s : statement) rest d d' :
  s d = Ok d' -> run (s :: rest) d = run rest d'.
Proof. intros H. simpl. now rewrite H. Qed.

(** ** Quality fields *)

Lemma quality_default_kept p c u (d : dict) key :
  key ∈ ["data_quality_score"; "extraction_confidence"; "data_source_reliability"] ->
  run [ set_default "data_quality_score" half;
        set_default "extraction_confidence" half;
        set_default "missing_data_points" (VList []);
        set_default "data_source_reliability" (VStr "medium");
        set_recent_posts p c u;
        set_normalized "followers_count" _safe_int_enhanced;
        set_normalized "following_count" _safe_int_enhanced;
        set_normalized "posts_count" _safe_int_enhanced;
        set_normalized "avg_likes_per_post" _safe_int_enhanced;
        set_normalized "avg_comments_per_post" _safe_int_enhanced;
        set_normalized "engagement_rate" _safe_float;
        derive_average "avg_likes_per_post" "likes";
        derive_average "avg_comments_per_post" "comments";
        derive_engagement_rate ] d !! key
  = Some (Py.get_default d key
            (if String.eqb key "data_source_reliability" then VStr "medium" else half)).
Proof.
  intros Hkey.
  do 4 (erewrite run_cons_ok by reflexivity).
  erewrite (run_frame _ later_keys).
  - unfold Py.get_default.
    repeat (apply elem_of_cons in Hkey; destruct Hkey as [->|Hkey]);
      [ .. | now apply elem_of_nil in Hkey ];
      simplify_map_eq; reflexivity.
  - unfold later_keys.
    repeat constructor;
      auto using writes_set_recent_posts, writes_set_normalized, writes_derive_average,
        writes_derive_engagement_rate.
  - unfold later_keys. intros Hin.
    repeat (apply elem_of_cons in Hkey; destruct Hkey as [->|Hkey]);
      [ .. | now apply elem_of_nil in Hkey ];
      repeat (apply elem_of_cons in Hin; destruct Hin as [Hin|Hin]; [discriminate|]);
      now apply elem_of_nil in Hin.
Qed.

(** C8 (as amended): validation keeps a supplied [data_quality_score],
    [extraction_confidence] and [data_source_reliability] as it is (no
    clamping); a key that is missing gets 0.5, 0.5 and "medium". *)
Theorem quality_fields_kept_or_defaulted
    (pads_year : bool) (clock : nat -> PyDate.date) (data : dict) (username : string) :
  let out := _validate_and_clean_metrics_enhanced pads_year clock data username in
  out !! "data_quality_score" = Some (Py.get_default data "data_quality_score" half)
  /\ out !! "extraction_confidence" = Some (Py.get_default data "extraction_confidence" half)
  /\ out !! "data_source_reliability"
     = Some (Py.get_default data "data_source_reliability" (VStr "medium")).
Proof.
  cbv zeta. unfold _validate_and_clean_metrics_enhanced, validation_body.
  erewrite run_cons_ok by reflexivity.
  assert (Hname : exists d2,
             set_influencer_name username
               (<["has_metrics" := VBool (Py.truthy (Py.get_default data "has_metrics" (VBool false)))]> data)
             = Ok d2
             /\ forall k, k <> "has_metrics" -> k <> "influencer_name" -> d2 !! k = data !! k).
  { unfold set_influencer_name. destruct (_ || _)%bool; eexists; split; try reflexivity;
      intros k H1 H2; simplify_map_eq; reflexivity. }
  destruct Hname as [d2 [E2 Hd2]].
  erewrite run_cons_ok by exact E2.
  rewrite !(quality_default_kept pads_year clock username d2) by set_solver.
  unfold Py.get_default. rewrite !Hd2 by discriminate. simpl. auto.
Qed.

(** C8, counterexample: a supplied score of 7.5 comes out as 7.5, which
    is not in [[0, 1]]. *)
Lemma quality_score_not_clamped :
  _validate_and_clean_metrics_enhanced false noon
    (list_to_map [("data_quality_score", VFloat seven_and_a_half)]) "bob"
    !! "data_quality_score" = Some (VFloat seven_and_a_half)
  /\ in_unit_interval (VFloat seven_and_a_half) = false.
Proof. split; vm_compute; reflexivity. Qed.

(** ** The empty record *)

Lemma empty_response_carries_no_metrics username :
  _create_empty_metrics_response_with_username username !! "has_metrics" = Some (VBool false)
  /\ carries_no_metrics (_create_empty_metrics_response_with_username username).
Proof. split; [reflexivity|]. split; [reflexivity|]. repeat constructor. Qed.

(** C5 (as amended): when the prefilter finds no signal, or the
    extraction attempt (model call, parse of the reply, validation)
    raises, [extract_metrics_from_text] returns a record with
    [has_metrics = false], no posts and every aggregate [None]. *)
Theorem empty_record_on_short_circuit_or_failure
    (loads : string -> result pyval) (llm : request -> result string)
    (pads_year : bool) (clock : nat -> PyDate.date) (text username : string) :
  (_quick_metrics_check text = false
   \/ exists e, extraction_attempt loads llm pads_year clock text
                  (resolve_username llm text username).1 = Raise e) ->
  let out := (extract_metrics_from_text loads llm pads_year clock text username).1 in
  out !! "has_metrics" = Some (VBool false) /\ carries_no_metrics out.
Proof.
  intros H. cbv zeta. unfold extract_metrics_from_text.
  destruct (_quick_metrics_check text) eqn:Hq; simpl.
  - destruct H as [H|[e H]]; [discriminate|].
    destruct (resolve_username llm text username) as [name calls]. simpl in *.
    rewrite H. apply empty_response_carries_no_metrics.
  - apply empty_response_carries_no_metrics.
Qed.

Lemma empty_record_on_short_circuit_or_failure_witness :
  _quick_metrics_check "see you tomorrow" = false
  /\ (extract_metrics_from_text Json.loads failing_llm false noon "see you tomorrow" "bob").1
       !! "has_metrics" = Some (VBool false).
Proof.
  split; [reflexivity|].
  apply (empty_record_on_short_circuit_or_failure Json.loads failing_llm false noon
           "see you tomorrow" "bob").
  left. reflexivity.
Defined.

(** C5, counterexample: the model answers [has_metrics = false] together
    with a follower count; the record returned has [has_metrics = false]
    and [followers_count = 5000]. *)
Lemma has_metrics_false_with_followers :
  let out :=
    (extract_metrics_from_text Json.loads (fun _ => Ok reply_without_metrics) false noon
       "about 5000 followers" "bob").1 in
  out !! "has_metrics" = Some (VBool false)
  /\ out !! "followers_count" = Some (VInt 5000).
Proof. cbv zeta. split; vm_compute; reflexivity. Qed.

(** ** Characters and strings *)

(** a decidable property of characters holds when it holds of the 256 of them *)
Lemma ascii_forall (P : ascii -> bool) :
  List.forallb P all_ascii = true -> forall c, P c = true.
Proof.
  intros H c. rewrite forallb_forall in H. apply H.
  unfold all_ascii. rewrite <- (ascii_nat_embedding c).
  apply in_map, in_seq. pose proof (nat_ascii_bounded c). lia.
Qed.

Ltac by_cases_on_ascii c :=
  revert c;
  match goal with
  | |- forall c, ?a = true -> ?b = ?v =>
      let H := fresh in
      assert (H : forall c, implb a (Bool.eqb b v) = true)
        by (apply ascii_forall; vm_compute; reflexivity);
      let c := fresh "c" in
      let Ha := fresh in
      intros c Ha; specialize (H c); rewrite Ha in H; simpl in H;
      now apply Bool.eqb_prop in H
  end.

Lemma digit_not_space c : PyStr.is_digit c = true -> PyStr.is_space c = false.
Proof. by_cases_on_ascii c. Qed.
Lemma digit_not_upper c : PyStr.is_digit c = true -> PyStr.is_upper c = false.
Proof. by_cases_on_ascii c. Qed.
Lemma digit_not_underscore c : PyStr.is_digit c = true -> PyFloat.is_underscore c = false.
Proof. by_cases_on_ascii c. Qed.
Lemma digit_or_dot_not_space c : is_digit_or_dot c = true -> PyStr.is_space c = false.
Proof. by_cases_on_ascii c. Qed.
Lemma digit_or_dot_not_upper c : is_digit_or_dot c = true -> PyStr.is_upper c = false.
Proof. by_cases_on_ascii c. Qed.
Lemma digit_or_dot_not_underscore c :
  is_digit_or_dot c = true -> PyFloat.is_underscore c = false.
Proof. by_cases_on_ascii c. Qed.
Lemma digit_is_digit_or_dot c : PyStr.is_digit c = true -> is_digit_or_dot c = true.
Proof. by_cases_on_ascii c. Qed.
Lemma digit_val_nonneg c : PyStr.is_digit c = true -> 0 <= PyFloat.digit_val c.
Proof.
  unfold PyStr.is_digit, PyFloat.digit_val. intros H.
  apply andb_prop in H as [H _]. apply Nat.leb_le in H. lia.
Qed.

Lemma forallb_impl (p q : ascii -> bool) s :
  (forall c, p c = true -> q c = true) ->
  PyStr.forallb p s = true -> PyStr.forallb q s = true.
Proof.
  intros Hpq. induction s as [|c s IH]; simpl; [easy|].
  intros H. apply andb_prop in H as [Hc Hs]. now rewrite (Hpq c Hc), IH.
Qed.

Lemma forallb_app p a b :
  PyStr.forallb p (a +:+ b) = (PyStr.forallb p a && PyStr.forallb p b)%bool.
Proof. induction a as [|c a IH]; simpl; [easy|]. now rewrite IH, andb_assoc. Qed.

Lemma existsb_false_forallb p s :
  PyStr.existsb p s = false <-> PyStr.forallb (fun c => negb (p c)) s = true.
Proof.
  induction s as [|c s IH]; simpl; [easy|].
  rewrite orb_false_iff, andb_true_iff, negb_true_iff, IH. easy.
Qed.

Lemma filter_forallb p s : PyStr.forallb p (PyStr.filter p s) = true.
Proof.
  induction s as [|c s IH]; simpl; [easy|].
  destruct (p c) eqn:E; simpl; [now rewrite E|easy].
Qed.

Lemma filter_id p s : PyStr.forallb p s = true -> PyStr.filter p s = s.
Proof.
  induction s as [|c s IH]; simpl; [easy|].
  intros H. apply andb_prop in H as [Hc Hs]. now rewrite Hc, IH.
Qed.

Lemma filter_app p a b : PyStr.filter p (a +:+ b) = PyStr.filter p a +:+ PyStr.filter p b.
Proof.
  induction a as [|c a IH]; simpl; [easy|]. destruct (p c); simpl; now rewrite IH.
Qed.

Lemma lower_id s :
  PyStr.forallb (fun c => negb (PyStr.is_upper c)) s = true -> PyStr.lower s = s.
Proof.
  induction s as [|c s IH]; simpl; [easy|].
  intros H. apply andb_prop in H as [Hc Hs]. apply negb_true_iff in Hc.
  unfold PyStr.lower_char. now rewrite Hc, IH.
Qed.

Lemma lower_app a b : PyStr.lower (a +:+ b) = PyStr.lower a +:+ PyStr.lower b.
Proof. induction a as [|c a IH]; simpl; [easy|]. now rewrite IH. Qed.

Lemma rstrip_id s :
  PyStr.forallb (fun c => negb (PyStr.is_space c)) s = true -> PyStr.rstrip s = s.
Proof.
  induction s as [|c s IH]; simpl; [easy|].
  intros H. apply andb_prop in H as [Hc Hs]. apply negb_true_iff in Hc.
  rewrite (IH Hs), Hc. now destruct s.
Qed.

Lemma lstrip_id s :
  PyStr.forallb (fun c => negb (PyStr.is_space c)) s = true -> PyStr.lstrip s = s.
Proof.
  destruct s as [|c s]; simpl; [easy|].
  intros H. apply andb_prop in H as [Hc Hs]. apply negb_true_iff in Hc. now rewrite Hc.
Qed.

Lemma strip_id s :
  PyStr.forallb (fun c => negb (PyStr.is_space c)) s = true -> PyStr.strip s = s.
Proof. intros H. unfold PyStr.strip. now rewrite (lstrip_id s H), rstrip_id. Qed.

Lemma last_char_app s c : PyStr.last_char (s +:+ String c EmptyString) = Some c.
Proof.
  induction s as [|d s IH]; simpl; [easy|].
  rewrite IH. now destruct s.
Qed.

Lemma drop_last_app s c : PyStr.drop_last (s +:+ String c EmptyString) = s.
Proof.
  induction s as [|d s IH]; simpl; [easy|].
  rewrite IH. now destruct s.
Qed.

(** [c in s] for a one-character string *)
Lemma contains_char c s :
  PyStr.contains (String c EmptyString) s = PyStr.existsb (Ascii.eqb c) s.
Proof.
  induction s as [|d s IH]; [reflexivity|].
  cbn [PyStr.contains PyStr.existsb String.prefix]. rewrite IH.
  destruct (ascii_dec c d) as [->|Hne].
  - rewrite Ascii.eqb_refl. now destruct s.
  - apply Ascii.eqb_neq in Hne. now rewrite Hne.
Qed.

Lemma span_all p s : PyStr.forallb p s = true -> PyStr.span p s = (s, EmptyString).
Proof.
  induction s as [|c s IH]; simpl; [easy|].
  intros H. apply andb_prop in H as [Hc Hs]. now rewrite Hc, (IH Hs).
Qed.

Lemma span_app p a c b :
  PyStr.forallb p a = true -> p c = false ->
  PyStr.span p (a +:+ String c b) = (a, String c b).
Proof.
  intros Ha Hc. induction a as [|d a IH]; simpl.
  - now rewrite Hc.
  - simpl in Ha. apply andb_prop in Ha as [Hd Ha]. now rewrite Hd, (IH Ha).
Qed.

(** [span] splits the string, its first part satisfies [p] and the second
    does not start with a character that does *)
Lemma span_spec p s :
  let '(a, b) := PyStr.span p s in
  s = a +:+ b /\ PyStr.forallb p a = true
  /\ match b with String c _ => p c = false | EmptyString => True end.
Proof.
  induction s as [|c s IH]; simpl; [easy|].
  destruct (p c) eqn:E.
  - destruct (PyStr.span p s) as [a b]. destruct IH as [-> [Ha Hb]].
    simpl. now rewrite E, Ha.
  - simpl. easy.
Qed.

Lemma digits_val_acc_nonneg s acc :
  PyStr.forallb PyStr.is_digit s = true -> 0 <= acc -> 0 <= PyFloat.digits_val_acc acc s.
Proof.
  revert acc. induction s as [|c s IH]; simpl; intros acc H Hacc; [easy|].
  apply andb_prop in H as [Hc Hs]. apply IH; [easy|].
  pose proof (digit_val_nonneg c Hc). lia.
Qed.

Lemma digits_val_nonneg s :
  PyStr.forallb PyStr.is_digit s = true -> 0 <= PyFloat.digits_val s.
Proof. intros H. now apply digits_val_acc_nonneg. Qed.

Lemma append_cons c a b : String c a +:+ b = String c (a +:+ b).
Proof. reflexivity. Qed.

Lemma append_nil_l b : EmptyString +:+ b = b.
Proof. reflexivity. Qed.

Lemma append_nil_r s : s +:+ EmptyString = s.
Proof. induction s as [|c s IH]; [easy|]. now rewrite append_cons, IH. Qed.

Lemma append_assoc a b c : (a +:+ b) +:+ c = a +:+ (b +:+ c).
Proof. induction a as [|d a IH]; [easy|]. now rewrite !append_cons, IH. Qed.

Lemma length_append a b :
  String.length (a +:+ b) = (String.length a + String.length b)%nat.
Proof.
  induction a as [|d a IH]; [easy|]. rewrite append_cons. simpl. now rewrite IH.
Qed.

(** ** Signs of floats *)

Lemma binary_round_aux_sign sx mx ex lx :
  has_sign sx (binary_round_aux PyFloat.prec PyFloat.emax sx mx ex lx).
Proof.
  unfold binary_round_aux.
  destruct (shr_fexp _ _ mx ex lx) as [mrs' e'].
  destruct (shr_fexp _ _ _ e' loc_Exact) as [mrs'' e''].
  destruct (shr_m mrs''); simpl; auto.
  destruct (Z.leb _ _); simpl; auto.
Qed.

Lemma of_decimal_sign neg m e10 : has_sign neg (PyFloat.of_decimal neg m e10).
Proof.
  unfold PyFloat.of_decimal. destruct m as [|p|p]; simpl; auto.
  destruct (Z.leb 0 e10).
  - unfold binary_round. destruct (shl_align _ _ _) as [mz ez].
    apply binary_round_aux_sign.
  - unfold SFdiv. destruct (SFdiv_core_binary _ _ _ _ _ _) as [[mz ez] lz].
    rewrite Bool.xorb_false_r. apply binary_round_aux_sign.
Qed.

(** a float that is not negative truncates to an integer that is not *)
Lemma to_int_nonneg x :
  has_sign false x ->
  (exists n, 0 <= n /\ PyFloat.to_int x = Ok n)
  \/ PyFloat.to_int x = Raise OverflowError
  \/ PyFloat.to_int x = Raise ValueError.
Proof.
  destruct x as [s|s| |s m e]; simpl; intros H; subst; auto.
  - left. exists 0. split; [lia|reflexivity].
  - left. eexists. split; [|reflexivity]. simpl. apply Z.shiftl_nonneg. lia.
Qed.

(** ** Parsing unsigned text *)

Lemma unsigned_text_facts t :
  PyStr.forallb is_digit_or_dot t = true ->
  PyStr.strip t = t
  /\ PyFloat.without_underscores t = Some t
  /\ PyFloat.split_sign t = (false, t)
  /\ PyStr.lower t = t.
Proof.
  intros H. repeat split.
  - apply strip_id. eapply forallb_impl; [|exact H].
    intros c Hc. now rewrite (digit_or_dot_not_space c Hc).
  - unfold PyFloat.without_underscores.
    replace (PyStr.existsb PyFloat.is_underscore t) with false; [reflexivity|].
    symmetry. apply existsb_false_forallb. eapply forallb_impl; [|exact H].
    intros c Hc. now rewrite (digit_or_dot_not_underscore c Hc).
  - destruct t as [|c t]; [reflexivity|]. simpl in H. apply andb_prop in H as [Hc _].
    unfold PyFloat.split_sign.
    destruct (ascii_dec c "-") as [->|H1]; [discriminate|].
    destruct (ascii_dec c "+") as [->|H2]; [discriminate|].
    destruct c as [[] [] [] [] [] [] [] []]; try reflexivity; congruence.
  - apply lower_id. eapply forallb_impl; [|exact H].
    intros c Hc. now rewrite (digit_or_dot_not_upper c Hc).
Qed.

(** [float(t)] for a text of digits and points: a [ValueError], or the
    float nearest to a decimal that is not negative *)
Lemma of_str_unsigned t :
  PyStr.forallb is_digit_or_dot t = true ->
  PyFloat.of_str t = Raise ValueError
  \/ exists m e10, PyFloat.parse_decimal t = Some (m, e10)
                   /\ PyFloat.of_str t = Ok (PyFloat.of_decimal false m e10).
Proof.
  intros H. destruct (unsigned_text_facts t H) as [Hs [Hu [Hg Hl]]].
  unfold PyFloat.of_str. rewrite Hs, Hu, Hg, Hl.
  assert (Hword : forall w, (w = "inf" \/ w = "infinity" \/ w = "nan") ->
                            String.eqb t w = false).
  { intros w Hw. apply String.eqb_neq. intros ->.
    destruct Hw as [->|[->| ->]]; discriminate. }
  rewrite !Hword by auto. simpl.
  destruct (PyFloat.parse_decimal t) as [[m e10]|]; [right; eauto | left; reflexivity].
Qed.

(** [int(t)] for a non-empty text of digits *)
Lemma int_of_str_digits t :
  PyStr.forallb PyStr.is_digit t = true -> t <> EmptyString ->
  Py.int_of_str t = Ok (PyFloat.digits_val t).
Proof.
  intros H Hne.
  assert (H' : PyStr.forallb is_digit_or_dot t = true).
  { eapply forallb_impl; [|exact H]. apply digit_is_digit_or_dot. }
  destruct (unsigned_text_facts t H') as [Hs [Hu [Hg _]]].
  unfold Py.int_of_str. rewrite Hs, Hu, Hg, H.
  destruct t; [congruence|reflexivity].
Qed.

(** a text of digits and points with no point in it is a text of digits *)
Lemma no_dot_digits t :
  PyStr.forallb is_digit_or_dot t = true ->
  PyStr.contains "." t = false ->
  PyStr.forallb PyStr.is_digit t = true.
Proof.
  rewrite contains_char.
  induction t as [|c t IH]; cbn [PyStr.existsb PyStr.forallb]; [easy|].
  intros H Hd. apply andb_prop in H as [Hc Ht]. apply orb_false_iff in Hd as [Hcd Htd].
  rewrite (IH Ht Htd), andb_true_r.
  unfold is_digit_or_dot in Hc. apply orb_prop in Hc as [Hc|Hc]; [exact Hc|].
  apply Ascii.eqb_eq in Hc. subst c. now rewrite Ascii.eqb_refl in Hcd.
Qed.

(** ** Signs after normalization *)

(** C4 (as amended): a string without a [k]/[m] suffix is normalized to
    [None] or to an integer that is not negative, unless its digits
    overflow the float range ([OverflowError]): the sign characters are
    dropped with every other non-digit before the parse. *)
Theorem unsuffixed_string_never_negative (s : string) :
  has_scale_suffix s = false ->
  _safe_int_enhanced (VStr s) = Ok VNone
  \/ (exists n, 0 <= n /\ _safe_int_enhanced (VStr s) = Ok (VInt n))
  \/ _safe_int_enhanced (VStr s) = Raise OverflowError.
Proof.
  unfold has_scale_suffix. cbv zeta. intros H.
  apply orb_false_iff in H as [Hk Hm].
  unfold _safe_int_enhanced. rewrite Hk, Hm.
  set (clean := PyStr.filter is_digit_or_dot (PyStr.strip (PyStr.lower s))).
  assert (Hclean : PyStr.forallb is_digit_or_dot clean = true) by apply filter_forallb.
  destruct (PyStr.contains "." clean) eqn:Hdot.
  - destruct (of_str_unsigned clean Hclean) as [E|[m [e10 [_ E]]]]; rewrite E; simpl.
    + now left.
    + destruct (to_int_nonneg _ (of_decimal_sign false m e10)) as [[n [Hn En]]|[En|En]];
        rewrite En; simpl; eauto.
  - destruct (PyStr.is_empty clean) eqn:Hempty; [now left|].
    rewrite int_of_str_digits.
    + simpl. right. left. eexists. split; [|reflexivity].
      apply digits_val_nonneg. now apply no_dot_digits.
    + now apply no_dot_digits.
    + intros E. now rewrite E in Hempty.
Qed.

Lemma unsuffixed_string_never_negative_witness :
  has_scale_suffix "-42" = false
  /\ (_safe_int_enhanced (VStr "-42") = Ok VNone
      \/ (exists n, 0 <= n /\ _safe_int_enhanced (VStr "-42") = Ok (VInt n))
      \/ _safe_int_enhanced (VStr "-42") = Raise OverflowError).
Proof.
  split; [reflexivity|].
  apply (unsuffixed_string_never_negative "-42"). reflexivity.
Defined.

(** C4, counterexample: the integer -42 is normalized to -42, not to
    [None]; the string "-42" is normalized to 42 and "-2k" to -2000. *)
Lemma negative_values_not_rejected :
  _safe_int_enhanced (VInt (-42)) = Ok (VInt (-42))
  /\ _safe_int_enhanced (VStr "-42") = Ok (VInt 42)
  /\ _safe_int_enhanced (VStr "-2k") = Ok (VInt (-2000))
  /\ _safe_float (VInt (-42)) = Ok (VFloat (PyFloat.nearest_of_Z (-42))).
Proof. repeat split; vm_compute; reflexivity. Qed.

(** a number that is already an [int] passes unchanged, whatever its sign *)
Lemma safe_int_of_int z : _safe_int_enhanced (VInt z) = Ok (VInt z).
Proof. reflexivity. Qed.

(** ** Suffixed numbers *)

Lemma to_int_finite x : PyFloat.is_finite x = true -> PyFloat.to_int x = Ok (truncate x).
Proof. destruct x; simpl; intros H; try discriminate; reflexivity. Qed.

Lemma count_char_app c a b :
  count_char c (a +:+ b) = (count_char c a + count_char c b)%nat.
Proof.
  induction a as [|d a IH]; [reflexivity|].
  rewrite append_cons. simpl. rewrite IH. lia.
Qed.

Lemma count_char_digits s :
  PyStr.forallb PyStr.is_digit s = true -> count_char "." s = O.
Proof.
  induction s as [|d s IH]; [reflexivity|]. cbn [PyStr.forallb count_char].
  intros H. apply andb_prop in H as [Hd Hs]. rewrite (IH Hs).
  destruct (Ascii.eqb_spec d "."); [subst; discriminate | reflexivity].
Qed.

Lemma no_point_digits s :
  PyStr.forallb is_digit_or_dot s = true -> count_char "." s = O ->
  PyStr.forallb PyStr.is_digit s = true.
Proof.
  induction s as [|d s IH]; [reflexivity|]. cbn [PyStr.forallb count_char].
  intros H Hc. apply andb_prop in H as [Hd Hs].
  destruct (Ascii.eqb_spec d "."); [discriminate|].
  rewrite (IH Hs) by lia. rewrite andb_true_r.
  unfold is_digit_or_dot in Hd. apply orb_prop in Hd as [Hd|Hd]; [exact Hd|].
  apply Ascii.eqb_eq in Hd. congruence.
Qed.

Lemma after_point_digits a r :
  PyStr.forallb PyStr.is_digit a = true -> after_point (a +:+ String "." r) = r.
Proof.
  induction a as [|d a IH]; [reflexivity|]. rewrite append_cons.
  cbn [PyStr.forallb after_point]. intros H. apply andb_prop in H as [Hd Ha].
  destruct (Ascii.eqb_spec d "."); [subst; discriminate | now apply IH].
Qed.

Lemma after_point_none a :
  PyStr.forallb PyStr.is_digit a = true -> after_point a = EmptyString.
Proof.
  induction a as [|d a IH]; [reflexivity|].
  cbn [PyStr.forallb after_point]. intros H. apply andb_prop in H as [Hd Ha].
  destruct (Ascii.eqb_spec d "."); [subst; discriminate | now apply IH].
Qed.

Lemma existsb_app p a b :
  PyStr.existsb p (a +:+ b) = (PyStr.existsb p a || PyStr.existsb p b)%bool.
Proof.
  induction a as [|d a IH]; [reflexivity|]. rewrite append_cons. simpl.
  now rewrite IH, orb_assoc.
Qed.

Lemma existsb_nonempty p s : PyStr.existsb p s = true -> PyStr.is_empty s = false.
Proof. destruct s; [discriminate | reflexivity]. Qed.

Lemma forallb_existsb_empty p s :
  PyStr.forallb p s = true -> PyStr.existsb p s = false -> s = EmptyString.
Proof.
  destruct s as [|c s]; [reflexivity|]. simpl. intros H1 H2.
  apply andb_prop in H1 as [H1 _]. apply orb_false_iff in H2 as [H2 _]. congruence.
Qed.

(** the parse of an unsigned decimal: its digits, scaled by the number of
    digits after the point *)
Lemma parse_unsigned_decimal body :
  unsigned_decimal body = true ->
  PyFloat.parse_decimal body
  = Some (PyFloat.digits_val (PyStr.filter PyStr.is_digit body),
          - Z.of_nat (String.length (after_point body))).
Proof.
  unfold unsigned_decimal. intros H.
  apply andb_prop in H as [H Hcount]. apply andb_prop in H as [Hall Hex].
  apply Nat.leb_le in Hcount.
  unfold PyFloat.parse_decimal.
  pose proof (span_spec PyStr.is_digit body) as Hspan.
  destruct (PyStr.span PyStr.is_digit body) as [ip r1].
  destruct Hspan as [-> [Hip Hr1]].
  rewrite forallb_app in Hall. apply andb_prop in Hall as [_ Hr1all].
  rewrite count_char_app, (count_char_digits ip Hip) in Hcount.
  rewrite existsb_app in Hex.
  rewrite filter_app, (filter_id _ ip Hip).
  destruct r1 as [|c r].
  - rewrite orb_false_r in Hex. rewrite (existsb_nonempty _ _ Hex). simpl.
    rewrite !append_nil_r. rewrite (after_point_none ip Hip). reflexivity.
  - cbn [PyStr.forallb] in Hr1all. apply andb_prop in Hr1all as [Hc Hrall].
    assert (c = "."%char) as ->.
    { unfold is_digit_or_dot in Hc. rewrite Hr1 in Hc. now apply Ascii.eqb_eq in Hc. }
    cbn [count_char] in Hcount. rewrite Ascii.eqb_refl in Hcount.
    assert (Hr : PyStr.forallb PyStr.is_digit r = true)
      by (apply no_point_digits; [exact Hrall | lia]).
    rewrite (span_all _ r Hr). rewrite (after_point_digits ip r Hip).
    cbn [PyStr.filter PyStr.existsb] in *. simpl (PyStr.is_digit "."). cbn iota.
    simpl (PyStr.is_digit ".") in Hex. cbn [orb] in Hex.
    rewrite (filter_id _ r Hr).
    destruct (PyStr.is_empty ip && PyStr.is_empty r)%bool eqn:Hempty; [|reflexivity].
    apply andb_prop in Hempty as [H1 H2].
    destruct ip; [|discriminate]. destruct r; [|discriminate]. discriminate.
Qed.

Lemma number_char_not_space c : is_number_char c = true -> PyStr.is_space c = false.
Proof. by_cases_on_ascii c. Qed.
Lemma number_char_not_upper c : is_number_char c = true -> PyStr.is_upper c = false.
Proof. by_cases_on_ascii c. Qed.
Lemma number_char_not_underscore c :
  is_number_char c = true -> PyFloat.is_underscore c = false.
Proof. by_cases_on_ascii c. Qed.
Lemma digit_or_dot_number_char c : is_digit_or_dot c = true -> is_number_char c = true.
Proof. by_cases_on_ascii c. Qed.

Lemma decimal_number_chars s :
  decimal_number s = true -> PyStr.forallb is_number_char s = true.
Proof.
  unfold decimal_number, unsigned_decimal. intros H.
  apply andb_prop in H as [H _]. apply andb_prop in H as [H _].
  assert (Hbody : PyStr.forallb is_number_char (PyFloat.split_sign s).2 = true)
    by (eapply forallb_impl; [apply digit_or_dot_number_char | exact H]).
  destruct s as [|c s]; [reflexivity|].
  unfold PyFloat.split_sign in Hbody.
  destruct (ascii_dec c "-") as [->|H1]; [exact Hbody|].
  destruct (ascii_dec c "+") as [->|H2]; [exact Hbody|].
  destruct c as [[] [] [] [] [] [] [] []]; try exact Hbody; congruence.
Qed.

(** [float(s)] for a decimal number *)
Lemma of_str_decimal_number s :
  decimal_number s = true -> PyFloat.of_str s = Ok (decimal_value s).
Proof.
  intros H. pose proof (decimal_number_chars s H) as Hchars.
  unfold PyFloat.of_str, decimal_value.
  rewrite strip_id
    by (eapply forallb_impl; [|exact Hchars];
        intros c Hc; now rewrite (number_char_not_space c Hc)).
  unfold PyFloat.without_underscores.
  replace (PyStr.existsb PyFloat.is_underscore s) with false
    by (symmetry; apply existsb_false_forallb; eapply forallb_impl; [|exact Hchars];
        intros c Hc; now rewrite (number_char_not_underscore c Hc)).
  unfold decimal_number in H.
  destruct (PyFloat.split_sign s) as [neg body]. simpl in H.
  assert (Hall : PyStr.forallb is_digit_or_dot body = true).
  { unfold unsigned_decimal in H. apply andb_prop in H as [H _].
    now apply andb_prop in H as [H _]. }
  destruct (unsigned_text_facts body Hall) as [_ [_ [_ Hl]]]. rewrite Hl.
  assert (Hword : forall w, (w = "inf" \/ w = "infinity" \/ w = "nan") ->
                            String.eqb body w = false).
  { intros w Hw. apply String.eqb_neq. intros ->.
    destruct Hw as [->|[->| ->]]; discriminate. }
  rewrite !Hword by auto. simpl.
  now rewrite (parse_unsigned_decimal body H).
Qed.

Lemma suffix_cases c k :
  suffix_factor c = Some k ->
  (PyStr.lower_char c = "k"%char /\ k = 1000)
  \/ (PyStr.lower_char c = "m"%char /\ k = 1000000).
Proof.
  unfold suffix_factor.
  destruct (Ascii.eqb_spec c "k"); [subst; inversion 1; now left|].
  destruct (Ascii.eqb_spec c "K"); [subst; inversion 1; now left|].
  destruct (Ascii.eqb_spec c "m"); [subst; inversion 1; now right|].
  destruct (Ascii.eqb_spec c "M"); [subst; inversion 1; now right|].
  discriminate.
Qed.

(** the lowered and stripped text of a decimal number with its suffix *)
Lemma suffixed_value s c :
  decimal_number s = true -> PyStr.is_space (PyStr.lower_char c) = false ->
  PyStr.strip (PyStr.lower (s +:+ String c EmptyString))
  = s +:+ String (PyStr.lower_char c) EmptyString.
Proof.
  intros H Hc. pose proof (decimal_number_chars s H) as Hchars.
  rewrite lower_app. cbn [PyStr.lower].
  rewrite (lower_id s)
    by (eapply forallb_impl; [|exact Hchars];
        intros d Hd; now rewrite (number_char_not_upper d Hd)).
  apply strip_id. rewrite forallb_app. cbn [PyStr.forallb]. rewrite Hc. simpl.
  rewrite andb_true_r. eapply forallb_impl; [|exact Hchars].
  intros d Hd. now rewrite (number_char_not_space d Hd).
Qed.

(** C1 (as amended): for a decimal number followed by [k]/[K] or [m]/[M]
    whose float times 1,000 or 1,000,000 is finite, the normalizer
    returns that product truncated to an integer. *)
Theorem suffixed_number_scaled (s : string) (c : ascii) (k : Z) :
  decimal_number s = true ->
  suffix_factor c = Some k ->
  PyFloat.is_finite (PyFloat.mul (decimal_value s) (PyFloat.nearest_of_Z k)) = true ->
  _safe_int_enhanced (VStr (s +:+ String c EmptyString))
  = Ok (VInt (truncate (PyFloat.mul (decimal_value s) (PyFloat.nearest_of_Z k)))).
Proof.
  intros Hs Hc Hfin.
  unfold _safe_int_enhanced.
  destruct (suffix_cases c k Hc) as [[Hl ->]|[Hl ->]];
    rewrite (suffixed_value s c Hs) by (now rewrite Hl);
    unfold PyStr.endswith_char; rewrite last_char_app, drop_last_app, Hl;
    cbn [Ascii.eqb Bool.eqb];
    rewrite (of_str_decimal_number s Hs); cbn [bind];
    unfold scale_and_truncate; rewrite (to_int_finite _ Hfin); reflexivity.
Qed.

Lemma suffixed_number_scaled_witness :
  decimal_number "1.2" = true
  /\ suffix_factor "M" = Some 1000000
  /\ _safe_int_enhanced (VStr "1.2M") = Ok (VInt 1200000).
Proof.
  split; [reflexivity|]. split; [reflexivity|].
  apply (suffixed_number_scaled "1.2" "M" 1000000); reflexivity.
Defined.

(** the examples of the specification *)
Lemma suffixed_examples :
  _safe_int_enhanced (VStr "2k") = Ok (VInt 2000)
  /\ _safe_int_enhanced (VStr "45K") = Ok (VInt 45000)
  /\ _safe_int_enhanced (VStr "1.2M") = Ok (VInt 1200000).
Proof. repeat split; vm_compute; reflexivity. Qed.

(** when the product is infinite the call raises *)
Lemma suffixed_number_overflow (s : string) (c : ascii) (k : Z) (sign : bool) :
  decimal_number s = true ->
  suffix_factor c = Some k ->
  PyFloat.mul (decimal_value s) (PyFloat.nearest_of_Z k) = S754_infinity sign ->
  _safe_int_enhanced (VStr (s +:+ String c EmptyString)) = Raise OverflowError.
Proof.
  intros Hs Hc Hinf.
  unfold _safe_int_enhanced.
  destruct (suffix_cases c k Hc) as [[Hl ->]|[Hl ->]];
    rewrite (suffixed_value s c Hs) by (now rewrite Hl);
    unfold PyStr.endswith_char; rewrite last_char_app, drop_last_app, Hl;
    cbn [Ascii.eqb Bool.eqb];
    rewrite (of_str_decimal_number s Hs); cbn [bind];
    unfold scale_and_truncate; rewrite Hinf; reflexivity.
Qed.

(** C1: for the decimal number 10^309 followed by [k] the float is
    infinite and [int] raises [OverflowError]; the handler names
    [ValueError] and [TypeError] only, so the exception leaves the call,
    which returns no integer. *)
Lemma suffixed_number_too_large :
  decimal_number googol_cubed = true
  /\ _safe_int_enhanced (VStr (googol_cubed +:+ "k")) = Raise OverflowError.
Proof. split; vm_compute; reflexivity. Qed.

(** the other float [int] refuses is caught: for [nan] before the suffix
    [int] raises [ValueError] and the call returns [None] *)
Lemma suffixed_not_a_number_caught : _safe_int_enhanced (VStr "nank") = Ok VNone.
Proof. vm_compute. reflexivity. Qed.

(** ** The brace-block fallback *)

Lemma upto_last_brace_none post : brace_free post = true -> upto_last_brace post = None.
Proof.
  unfold brace_free. induction post as [|d post IH]; [reflexivity|].
  cbn [PyStr.forallb upto_last_brace]. intros H. apply andb_prop in H as [Hd Hpost].
  rewrite (IH Hpost). apply negb_true_iff in Hd. unfold is_brace in Hd.
  apply orb_false_iff in Hd as [_ Hd]. now rewrite Hd.
Qed.

Lemma upto_last_brace_app inner post :
  brace_free post = true ->
  upto_last_brace (inner +:+ "}" +:+ post) = Some (inner +:+ "}").
Proof.
  intros Hpost. induction inner as [|d inner IH].
  - rewrite append_nil_l. change ("}" +:+ post) with (String "}" post).
    cbn [upto_last_brace]. now rewrite (upto_last_brace_none post Hpost).
  - rewrite !(append_cons d inner). cbn [upto_last_brace]. now rewrite IH.
Qed.

Lemma match_block_here_other d r : d <> "{"%char -> match_block_here (String d r) = None.
Proof.
  intros Hd. destruct d as [[] [] [] [] [] [] [] []]; try reflexivity. congruence.
Qed.

Lemma search_block_wrapped pre c inner post :
  brace_free pre = true -> brace_free post = true ->
  search_block (pre +:+ block c inner +:+ post) = Some (block c inner).
Proof.
  intros Hpre Hpost. unfold block.
  induction pre as [|d pre IH].
  - rewrite append_nil_l.
    change (String "{" (String c (inner +:+ "}")) +:+ post)
      with (String "{" (String c ((inner +:+ "}") +:+ post))).
    rewrite append_assoc. cbn [search_block match_block_here].
    now rewrite (upto_last_brace_app inner post Hpost).
  - unfold brace_free in Hpre. cbn [PyStr.forallb] in Hpre.
    apply andb_prop in Hpre as [Hd Hpre].
    rewrite (append_cons d pre). cbn [search_block].
    rewrite match_block_here_other.
    + now apply IH.
    + intros ->. discriminate.
Qed.

(** C7 (as amended): let a reply wrap a brace-delimited JSON object, with
    at least one character between its braces, in prose without braces,
    and let the direct parse of the reply fail.  The contract parser's
    parse stage then yields the value of the bare object.  The metrics
    extractor has no such fallback: given the same reply it returns the
    empty record. *)
Theorem wrapped_object_recovered_by_contract_parser_only
    (loads : string -> result pyval) (pre post inner : string) (c : ascii) (v : pyval)
    (llm : request -> result string) (pads_year : bool) (clock : nat -> PyDate.date)
    (text username : string) :
  let reply := pre +:+ block c inner +:+ post in
  brace_free pre = true ->
  brace_free post = true ->
  loads reply = Raise JSONDecodeError ->
  loads (block c inner) = Ok v ->
  parse_reply loads reply = Ok v
  /\ parse_reply loads (block c inner) = Ok v
  /\ (_quick_metrics_check text = true ->
      llm (ExtractRequest text (resolve_username llm text username).1) = Ok reply ->
      (extract_metrics_from_text loads llm pads_year clock text username).1
      = _create_empty_metrics_response_with_username
          (resolve_username llm text username).1).
Proof.
  cbv zeta. intros Hpre Hpost Hfail Hobj. repeat split.
  - unfold parse_reply, extract_json_block. rewrite Hfail. cbn.
    rewrite (search_block_wrapped pre c inner post Hpre Hpost), Hobj. reflexivity.
  - unfold parse_reply. now rewrite Hobj.
  - intros Hq Hllm. unfold extract_metrics_from_text. rewrite Hq. cbn [negb].
    destruct (resolve_username llm text username) as [name calls]. simpl in *.
    unfold extraction_attempt. rewrite Hllm. cbn [bind]. rewrite Hfail. reflexivity.
Qed.

Lemma wrapped_object_recovered_by_contract_parser_only_witness :
  Json.loads wrapped_reply = Raise JSONDecodeError
  /\ (exists v, Json.loads metrics_object = Ok v
                /\ parse_reply Json.loads wrapped_reply = Ok v).
Proof.
  split; [vm_compute; reflexivity|].
  eexists. split; [vm_compute; reflexivity|].
  apply (wrapped_object_recovered_by_contract_parser_only Json.loads
           "Sure, here it is: " " Hope this helps!" metrics_object_inner PyStr.dquote _
           failing_llm false noon "5000 followers" "bob");
    vm_compute; reflexivity.
Defined.

(** C7, counterexample: in the metrics extractor the bare object yields a
    record with [has_metrics = true] and 5000 followers, the same object
    wrapped in prose yields the empty record. *)
Lemma wrapped_reply_dropped_by_metrics_extractor :
  let bare :=
    (extract_metrics_from_text Json.loads (fun _ => Ok metrics_object) false noon
       "5000 followers" "bob").1 in
  let wrapped :=
    (extract_metrics_from_text Json.loads (fun _ => Ok wrapped_reply) false noon
       "5000 followers" "bob").1 in
  bare !! "has_metrics" = Some (VBool true)
  /\ bare !! "followers_count" = Some (VInt 5000)
  /\ wrapped !! "has_metrics" = Some (VBool false)
  /\ wrapped !! "followers_count" = Some VNone.
Proof. cbv zeta. repeat split; vm_compute; reflexivity. Qed.

(** the empty object is not recovered: the pattern asks for a character
    between the braces *)
Lemma wrapped_empty_object_not_recovered :
  Json.loads "{}" = Ok (VDict ∅)
  /\ parse_reply Json.loads "Sure: {} ok" = Ok (extraction_error "Sure: {} ok").
Proof. split; vm_compute; reflexivity. Qed.

(** ** The statements of a validation that raises nothing *)

Lemma raises_nothing_exec p c d u :
  raises_nothing p c d u = true ->
  exec (validation_body p c u) d = Ok (_validate_and_clean_metrics_enhanced p c d u).
Proof.
  unfold raises_nothing, _validate_and_clean_metrics_enhanced.
  destruct (exec _ d) as [out|e] eqn:E; [|discriminate].
  intros _. now rewrite (run_exec _ _ _ E).
Qed.

Lemma exec_cons_inv (s : statement) rest d out :
  exec (s :: rest) d = Ok out -> exists d', s d = Ok d' /\ exec rest d' = Ok out.
Proof. simpl. intros H. now apply bind_ok in H. Qed.

Ltac exec_step H E d' :=
  apply exec_cons_inv in H; destruct H as [d' [E H]].

(** one frame step: the lookup of a key a statement does not write *)
Ltac frame E :=
  first
    [ rewrite (writes_set_has_metrics _ _ E) by discriminate
    | rewrite (writes_set_influencer_name _ _ _ E) by discriminate
    | rewrite (writes_set_default _ _ _ _ E) by discriminate
    | rewrite (writes_set_recent_posts _ _ _ _ _ E) by discriminate
    | rewrite (writes_set_normalized _ _ _ _ E) by discriminate
    | rewrite (writes_derive_average _ _ _ _ E) by discriminate
    | rewrite (writes_derive_engagement_rate _ _ E) by discriminate ].

Lemma set_normalized_lookup key g d d' :
  set_normalized key g d = Ok d' -> exists v, g (Py.get d key) = Ok v /\ d' !! key = Some v.
Proof.
  unfold set_normalized. intros H. bind_inv H. inversion H; subst.
  exists v. split; [assumption|]. apply lookup_insert_eq.
Qed.

(** a derivation whose target is already set to a number that is not zero
    changes nothing *)
Lemma derive_average_present avg_key field d d' n :
  derive_average avg_key field d = Ok d' ->
  d !! avg_key = Some (VInt n) -> n <> 0 -> d' = d.
Proof.
  unfold derive_average. intros H Hk Hn.
  bind_inv H. destruct (negb _); [now inversion H|].
  unfold Py.getitem in H. rewrite Hk in H. cbn [bind Py.truthy] in H.
  apply Z.eqb_neq in Hn. rewrite Hn in H. now inversion H.
Qed.

Lemma of_int_100 : PyFloat.of_int 100 = Ok (PyFloat.nearest_of_Z 100).
Proof. vm_compute. reflexivity. Qed.

(** the engagement-rate statement when every operand is a number that is
    not zero and the rate is [None] *)
Lemma derive_engagement_rate_computes d d' a c f :
  derive_engagement_rate d = Ok d' ->
  d !! "avg_likes_per_post" = Some (VInt a) -> a <> 0 ->
  d !! "avg_comments_per_post" = Some (VInt c) -> c <> 0 ->
  d !! "followers_count" = Some (VInt f) -> f <> 0 ->
  d !! "engagement_rate" = Some VNone ->
  exists q, PyFloat.int_truediv (a + c) f = Ok q
            /\ d' = <["engagement_rate" :=
                       VFloat (PyFloat.round2 (PyFloat.mul q (PyFloat.nearest_of_Z 100)))]> d.
Proof.
  unfold derive_engagement_rate, Py.getitem.
  intros H Ha Hna Hc Hnc Hf Hnf He.
  rewrite Ha, Hc, Hf, He in H. cbn [bind Py.truthy negb] in H.
  apply Z.eqb_neq in Hna, Hnc, Hnf. rewrite Hna, Hnc, Hnf in H. cbn [negb bind] in H.
  unfold Py.add, Py.truediv in H. cbn [bind Py.as_number] in H.
  destruct (PyFloat.int_truediv (a + c) f) as [q|e] eqn:Eq; [|discriminate].
  cbn [bind] in H. unfold Py.mul in H. cbn [bind Py.as_number Py.to_float] in H.
  rewrite of_int_100 in H. cbn [bind Py.round2] in H. inversion H; subst.
  exists q. split; reflexivity.
Qed.

(** C2 (as amended): when no statement of the validation raises, the
    engagement rate of the candidate is absent, and its average likes,
    average comments and follower count are integers that are not zero,
    the engagement rate of the result is
    [round(((avg_likes + avg_comments) / followers) * 100, 2)]. *)
Theorem engagement_rate_derived
    (pads_year : bool) (clock : nat -> PyDate.date) (data : dict) (username : string)
    (avg_likes avg_comments followers : Z) :
  raises_nothing pads_year clock data username = true ->
  Py.get data "engagement_rate" = VNone ->
  Py.get data "avg_likes_per_post" = VInt avg_likes -> avg_likes <> 0 ->
  Py.get data "avg_comments_per_post" = VInt avg_comments -> avg_comments <> 0 ->
  Py.get data "followers_count" = VInt followers -> followers <> 0 ->
  exists ratio,
    PyFloat.int_truediv (avg_likes + avg_comments) followers = Ok ratio
    /\ _validate_and_clean_metrics_enhanced pads_year clock data username
         !! "engagement_rate"
       = Some (VFloat (PyFloat.round2 (PyFloat.mul ratio (PyFloat.nearest_of_Z 100)))).
Proof.
  intros Hrun He Ha Hna Hc Hnc Hf Hnf.
  apply raises_nothing_exec in Hrun.
  set (out := _validate_and_clean_metrics_enhanced pads_year clock data username) in *.
  clearbody out. unfold validation_body in Hrun.
  exec_step Hrun E1 d1. exec_step Hrun E2 d2. exec_step Hrun E3 d3.
  exec_step Hrun E4 d4. exec_step Hrun E5 d5. exec_step Hrun E6 d6.
  exec_step Hrun E7 d7. exec_step Hrun E8 d8. exec_step Hrun E9 d9.
  exec_step Hrun E10 d10. exec_step Hrun E11 d11. exec_step Hrun E12 d12.
  exec_step Hrun E13 d13. exec_step Hrun E14 d14. exec_step Hrun E15 d15.
  exec_step Hrun E16 d16. inversion Hrun; subst d16; clear Hrun.
  (* the followers count *)
  destruct (set_normalized_lookup _ _ _ _ E8) as [vf [Nf Lf]].
  assert (Hd7 : Py.get d7 "followers_count" = VInt followers).
  { unfold Py.get in *. frame E7. frame E6. frame E5. frame E4. frame E3. frame E2.
    frame E1. exact Hf. }
  rewrite Hd7 in Nf. inversion Nf; subst vf; clear Nf.
  (* the average likes *)
  destruct (set_normalized_lookup _ _ _ _ E11) as [va [Na La]].
  assert (Hd10 : Py.get d10 "avg_likes_per_post" = VInt avg_likes).
  { unfold Py.get in *. frame E10. frame E9. frame E8. frame E7. frame E6. frame E5.
    frame E4. frame E3. frame E2. frame E1. exact Ha. }
  rewrite Hd10 in Na. inversion Na; subst va; clear Na.
  (* the average comments *)
  destruct (set_normalized_lookup _ _ _ _ E12) as [vc [Nc Lc]].
  assert (Hd11 : Py.get d11 "avg_comments_per_post" = VInt avg_comments).
  { unfold Py.get in *. frame E11. frame E10. frame E9. frame E8. frame E7. frame E6.
    frame E5. frame E4. frame E3. frame E2. frame E1. exact Hc. }
  rewrite Hd11 in Nc. inversion Nc; subst vc; clear Nc.
  (* the engagement rate before the derivations *)
  destruct (set_normalized_lookup _ _ _ _ E13) as [ve [Ne Le]].
  assert (Hd12 : Py.get d12 "engagement_rate" = VNone).
  { unfold Py.get in *. frame E12. frame E11. frame E10. frame E9. frame E8. frame E7.
    frame E6. frame E5. frame E4. frame E3. frame E2. frame E1. exact He. }
  rewrite Hd12 in Ne. inversion Ne; subst ve; clear Ne.
  (* the state the derivations start from *)
  assert (La13 : d13 !! "avg_likes_per_post" = Some (VInt avg_likes))
    by (frame E13; frame E12; exact La).
  assert (Lc13 : d13 !! "avg_comments_per_post" = Some (VInt avg_comments))
    by (frame E13; exact Lc).
  assert (Lf13 : d13 !! "followers_count" = Some (VInt followers))
    by (frame E13; frame E12; frame E11; frame E10; frame E9; exact Lf).
  pose proof (derive_average_present _ _ _ _ _ E14 La13 Hna) as ->.
  pose proof (derive_average_present _ _ _ _ _ E15 Lc13 Hnc) as ->.
  destruct (derive_engagement_rate_computes _ _ _ _ _ E16 La13 Hna Lc13 Hnc Lf13 Hnf Le)
    as [q [Hq ->]].
  exists q. split; [exact Hq|]. apply lookup_insert_eq.
Qed.

Lemma engagement_rate_derived_witness :
  raises_nothing false noon engagement_example "bob" = true
  /\ exists ratio,
      PyFloat.int_truediv (100 + 20) 10000 = Ok ratio
      /\ _validate_and_clean_metrics_enhanced false noon engagement_example "bob"
           !! "engagement_rate"
         = Some (VFloat (PyFloat.round2 (PyFloat.mul ratio (PyFloat.nearest_of_Z 100)))).
Proof.
  split; [vm_compute; reflexivity|].
  apply (engagement_rate_derived false noon engagement_example "bob" 100 20 10000);
    first [ discriminate | vm_compute; reflexivity ].
Defined.

(** the specification's example: 100 likes, 20 comments and 10000 followers
    give 1.2 *)
Lemma engagement_example_value :
  _validate_and_clean_metrics_enhanced false noon engagement_example "bob"
    !! "engagement_rate" = Some (VFloat one_point_two).
Proof. vm_compute. reflexivity. Qed.

(** C2: with zero average likes, 20 comments and 10000 followers (all
    present, followers positive) the engagement rate stays [None], where
    the formula gives 0.2: the guard tests the truth value of each
    operand, and zero is false. *)
Lemma engagement_rate_skipped_for_zero_likes :
  let data : dict :=
    list_to_map
      [ ("avg_likes_per_post", VInt 0);
        ("avg_comments_per_post", VInt 20);
        ("followers_count", VInt 10000) ] in
  raises_nothing false noon data "bob" = true
  /\ _validate_and_clean_metrics_enhanced false noon data "bob"
       !! "engagement_rate" = Some VNone.
Proof. cbv zeta. split; vm_compute; reflexivity. Qed.

(** ** Dates *)

(** *** Ordinals *)

Lemma days_before_year_succ y :
  1 <= y ->
  PyDate.days_before_year (y + 1) = PyDate.days_before_year y + PyDate.days_in_year y.
Proof.
  intros Hy. unfold PyDate.days_before_year, PyDate.days_in_year, PyDate.is_leap.
  replace (y + 1 - 1) with y by lia.
  destruct (Z.eqb_spec (y mod 4) 0); destruct (Z.eqb_spec (y mod 100) 0);
    destruct (Z.eqb_spec (y mod 400) 0); cbn [andb orb negb];
    Z.div_mod_to_equations; lia.
Qed.

Lemma days_in_year_pos y : 365 <= PyDate.days_in_year y <= 366.
Proof. unfold PyDate.days_in_year. destruct (PyDate.is_leap y); lia. Qed.

Lemma find_year_spec fuel y n :
  1 <= y -> 1 <= n ->
  n <= PyDate.days_before_year (y + Z.of_nat fuel + 1) - PyDate.days_before_year y ->
  let '(y', r) := PyDate.find_year fuel y n in
  y <= y' <= y + Z.of_nat fuel /\ 1 <= r <= PyDate.days_in_year y'.
Proof.
  revert y n. induction fuel as [|fuel IH]; intros y n Hy Hn Hmax.
  - cbn [PyDate.find_year]. replace (y + Z.of_nat 0 + 1) with (y + 1) in Hmax by lia.
    rewrite days_before_year_succ in Hmax by lia. lia.
  - cbn [PyDate.find_year]. destruct (Z.leb_spec n (PyDate.days_in_year y)).
    + lia.
    + specialize (IH (y + 1) (n - PyDate.days_in_year y)).
      destruct (PyDate.find_year fuel (y + 1) (n - PyDate.days_in_year y)) as [y' r].
      replace (y + 1 + Z.of_nat fuel + 1) with (y + Z.of_nat (S fuel) + 1) in IH by lia.
      rewrite (days_before_year_succ y) in IH by lia.
      destruct IH as [IH1 IH2]; lia.
Qed.

Lemma find_month_spec y r :
  1 <= r <= PyDate.days_in_year y ->
  let '(m, d) := PyDate.find_month 11 y 1 r in
  1 <= m <= 12 /\ 1 <= d <= PyDate.days_in_month y m.
Proof.
  unfold PyDate.days_in_year. intros Hr.
  cbv [PyDate.find_month Z.add Pos.add Pos.succ Pos.add_carry PyDate.days_in_month].
  destruct (PyDate.is_leap y);
    repeat match goal with
           | |- context [Z.leb ?a ?b] => destruct (Z.leb_spec a b); [lia|]
           end; lia.
Qed.

(** a date made from an ordinal is a date of the calendar *)
Lemma of_ordinal_valid n d : PyDate.of_ordinal n = Some d -> PyDate.valid d = true.
Proof.
  unfold PyDate.of_ordinal.
  destruct (Z.leb 1 n && Z.leb n PyDate.max_ordinal)%bool eqn:Hrange; [|discriminate].
  apply andb_prop in Hrange as [H1 H2]. apply Z.leb_le in H1, H2.
  pose proof (find_year_spec (Z.to_nat 9998) 1 n) as Hy.
  destruct (PyDate.find_year (Z.to_nat 9998) 1 n) as [y r].
  assert (Hmax : n <= PyDate.days_before_year (1 + Z.of_nat (Z.to_nat 9998) + 1)
                       - PyDate.days_before_year 1).
  { replace (1 + Z.of_nat (Z.to_nat 9998) + 1) with 10000 by lia.
    unfold PyDate.max_ordinal in H2. vm_compute (PyDate.days_before_year 10000).
    vm_compute (PyDate.days_before_year 1). lia. }
  specialize (Hy ltac:(lia) H1 Hmax). destruct Hy as [Hy Hr].
  pose proof (find_month_spec y r Hr) as Hm.
  destruct (PyDate.find_month 11 y 1 r) as [m dd].
  intros E. inversion E; subst. unfold PyDate.valid. cbn [PyDate.year PyDate.month PyDate.day].
  repeat (apply andb_true_intro; split); apply Z.leb_le; lia.
Qed.

Lemma minus_days_valid d n d' : PyDate.minus_days d n = Ok d' -> PyDate.valid d' = true.
Proof.
  unfold PyDate.minus_days. destruct (PyDate.of_ordinal _) as [x|] eqn:E; [|discriminate].
  intros H. inversion H; subst. now apply of_ordinal_valid in E.
Qed.

Lemma strptime_valid s fmt d : PyDate.strptime s fmt = Ok d -> PyDate.valid d = true.
Proof.
  unfold PyDate.strptime. destruct (PyDate.regex_match _ _ _) as [[f r]|]; [|discriminate].
  destruct r; [|discriminate].
  destruct (PyDate.valid _ && _)%bool eqn:E; [|discriminate].
  intros H. inversion H; subst. now apply andb_prop in E as [E _].
Qed.

Lemma try_patterns_valid s patterns d :
  try_patterns s patterns = Some d -> PyDate.valid d = true.
Proof.
  induction patterns as [|p patterns IH]; [discriminate|]. cbn [try_patterns].
  destruct (PyDate.strptime s p) as [x|e] eqn:E; [|exact IH].
  intros H. inversion H; subst. now apply strptime_valid in E.
Qed.

Lemma resolve_date_valid today raw d :
  PyDate.valid today = true -> resolve_date today raw = Ok d -> PyDate.valid d = true.
Proof.
  intros Htoday. unfold resolve_date. destruct raw as [| | | |s| |]; try discriminate.
  assert (Hfall : match try_patterns s date_patterns with
                  | Some d0 => Ok d0
                  | None => Ok today
                  end = Ok d -> PyDate.valid d = true).
  { destruct (try_patterns s date_patterns) as [d0|] eqn:E; intros H; inversion H; subst;
      [now apply try_patterns_valid in E | exact Htoday]. }
  assert (Hminus : forall n,
            (let* rel := (let* d0 := PyDate.minus_days today n in Ok (Some d0)) in
             match rel with
             | Some d0 => Ok d0
             | None =>
                 match try_patterns s date_patterns with
                 | Some d0 => Ok d0
                 | None => Ok today
                 end
             end) = Ok d -> PyDate.valid d = true).
  { intros n. destruct (PyDate.minus_days today n) as [d0|e] eqn:E; cbn [bind];
      [|discriminate]. intros H. inversion H; subst. now apply minus_days_valid in E. }
  unfold relative_date.
  destruct (_ || _)%bool; [|exact Hfall].
  destruct (PyStr.contains "yesterday" _); [apply Hminus|].
  destruct (PyStr.contains "day" _).
  { destruct (first_digits s) as [ds|]; [|exact Hfall].
    destruct (Py.int_of_str ds) as [days|e]; cbn [bind]; [apply Hminus | discriminate]. }
  destruct (PyStr.contains "week" _); [|exact Hfall].
  destruct (first_digits s) as [ds|]; [|exact Hfall].
  destruct (Py.int_of_str ds) as [weeks|e]; cbn [bind]; [apply Hminus | discriminate].
Qed.

(** the date [_validate_date] prints *)
Lemma validate_date_prints pads today raw :
  PyDate.valid today = true ->
  exists d, PyDate.valid d = true /\ _validate_date pads today raw = PyDate.strftime pads d.
Proof.
  intros Htoday. unfold _validate_date.
  destruct (negb (Py.truthy raw)); [eauto|].
  destruct (resolve_date today raw) as [d|e] eqn:E; [|eauto].
  exists d. split; [now apply (resolve_date_valid today raw) | reflexivity].
Qed.

(** *** Printing a date and reading it back *)

Lemma ord_chr n : (n < 256)%nat -> PyStr.ord (PyStr.chr n) = n.
Proof. apply nat_ascii_embedding. Qed.

Lemma digit_char_is_digit d : PyStr.is_digit (PyDate.digit_char d) = true.
Proof.
  unfold PyStr.is_digit, PyDate.digit_char.
  pose proof (Z.mod_pos_bound d 10 ltac:(lia)).
  rewrite ord_chr by lia.
  apply andb_true_intro. split; apply Nat.leb_le; lia.
Qed.

Lemma digit_val_digit_char d : PyFloat.digit_val (PyDate.digit_char d) = d mod 10.
Proof.
  unfold PyFloat.digit_val, PyDate.digit_char.
  pose proof (Z.mod_pos_bound d 10 ltac:(lia)).
  rewrite ord_chr by lia. lia.
Qed.

Lemma pad2_value n : 0 <= n <= 99 -> PyFloat.digits_val (PyDate.pad2 n) = n.
Proof.
  intros Hn. unfold PyDate.pad2, PyFloat.digits_val. cbn [PyFloat.digits_val_acc].
  rewrite !digit_val_digit_char. Z.div_mod_to_equations. lia.
Qed.

Lemma pad4_value n : 0 <= n <= 9999 -> PyFloat.digits_val (PyDate.pad4 n) = n.
Proof.
  intros Hn. unfold PyDate.pad4, PyDate.pad2, PyFloat.digits_val.
  cbn [PyFloat.digits_val_acc].
  rewrite !digit_val_digit_char. Z.div_mod_to_equations. lia.
Qed.

Lemma substring_all s : String.substring 0 (String.length s) s = s.
Proof. induction s as [|c s IH]; [reflexivity|]. simpl. now rewrite IH. Qed.

Lemma substring_prefix a b : String.substring 0 (String.length a) (a +:+ b) = a.
Proof.
  induction a as [|c a IH]; [now destruct b|].
  rewrite append_cons. simpl. now rewrite IH.
Qed.

Lemma substring_suffix a b :
  String.substring (String.length a) (String.length b) (a +:+ b) = b.
Proof.
  induction a as [|c a IH]; [apply substring_all|].
  rewrite append_cons. simpl. exact IH.
Qed.

(** [take_number] on a run of [n] digits followed by [rest] *)
Lemma take_number_app n lo hi head rest :
  String.length head = n -> PyStr.forallb PyStr.is_digit head = true ->
  PyDate.take_number n lo hi (head +:+ rest)
  = if (Z.leb lo (PyFloat.digits_val head) && Z.leb (PyFloat.digits_val head) hi)%bool
    then Some (PyFloat.digits_val head, rest) else None.
Proof.
  intros Hlen Hdig. unfold PyDate.take_number. subst n.
  rewrite substring_prefix, length_append.
  replace (String.length head + String.length rest - String.length head)%nat
    with (String.length rest) by lia.
  rewrite substring_suffix, Nat.eqb_refl, Hdig. reflexivity.
Qed.

Lemma pad2_digits n : PyStr.forallb PyStr.is_digit (PyDate.pad2 n) = true.
Proof. unfold PyDate.pad2. cbn [PyStr.forallb]. now rewrite !digit_char_is_digit. Qed.

Lemma pad4_digits n : PyStr.forallb PyStr.is_digit (PyDate.pad4 n) = true.
Proof.
  unfold PyDate.pad4. cbn [PyStr.forallb]. now rewrite !digit_char_is_digit, pad2_digits.
Qed.

(** [take_number] on four, and on two, printed digits *)
Lemma take_number_pad4 n lo hi rest :
  0 <= n <= 9999 ->
  PyDate.take_number 4 lo hi (PyDate.pad4 n +:+ rest)
  = if (Z.leb lo n && Z.leb n hi)%bool then Some (n, rest) else None.
Proof.
  intros Hn. rewrite take_number_app by (reflexivity || apply pad4_digits).
  now rewrite (pad4_value n Hn).
Qed.

Lemma take_number_pad2 n lo hi rest :
  0 <= n <= 99 ->
  PyDate.take_number 2 lo hi (PyDate.pad2 n +:+ rest)
  = if (Z.leb lo n && Z.leb n hi)%bool then Some (n, rest) else None.
Proof.
  intros Hn. rewrite take_number_app by (reflexivity || apply pad2_digits).
  now rewrite (pad2_value n Hn).
Qed.

(** the month and the day of a date, printed, are read back *)
Lemma regex_match_day f dd :
  1 <= dd <= 31 ->
  PyDate.regex_match [PyDate.DDay] f (PyDate.pad2 dd)
  = Some (PyDate.set_field PyDate.DDay dd f, EmptyString).
Proof.
  intros Hd. rewrite <- (append_nil_r (PyDate.pad2 dd)).
  cbn [PyDate.regex_match PyDate.alternatives PyDate.first_some].
  rewrite !take_number_pad2 by lia.
  destruct (Z.leb_spec 30 dd); destruct (Z.leb_spec dd 31); cbn [andb]; try lia;
    try reflexivity.
  destruct (Z.leb_spec 10 dd); destruct (Z.leb_spec dd 29); cbn [andb]; try lia;
    try reflexivity.
  destruct (Z.leb_spec 1 dd); destruct (Z.leb_spec dd 9); cbn [andb]; try lia;
    reflexivity.
Qed.

Lemma regex_match_month_day f m dd :
  1 <= m <= 12 -> 1 <= dd <= 31 ->
  PyDate.regex_match [PyDate.DMonth; PyDate.DLit "-"; PyDate.DDay] f
    (PyDate.pad2 m +:+ String "-" (PyDate.pad2 dd))
  = Some (PyDate.set_field PyDate.DDay dd (PyDate.set_field PyDate.DMonth m f),
          EmptyString).
Proof.
  intros Hm Hd.
  change (PyDate.regex_match [PyDate.DMonth; PyDate.DLit "-"; PyDate.DDay] f
            (PyDate.pad2 m +:+ String "-" (PyDate.pad2 dd)))
    with (PyDate.first_some
            (fun alt => match alt (PyDate.pad2 m +:+ String "-" (PyDate.pad2 dd)) with
                        | Some (v, r) =>
                            PyDate.regex_match [PyDate.DLit "-"; PyDate.DDay]
                              (PyDate.set_field PyDate.DMonth v f) r
                        | None => None
                        end)
            (PyDate.alternatives PyDate.DMonth)).
  cbn [PyDate.alternatives PyDate.first_some].
  rewrite !take_number_pad2 by lia.
  assert (Htail : forall g,
             PyDate.regex_match [PyDate.DLit "-"; PyDate.DDay] g
               (String "-" (PyDate.pad2 dd))
             = Some (PyDate.set_field PyDate.DDay dd g, EmptyString)).
  { intros g.
    change (PyDate.regex_match [PyDate.DLit "-"; PyDate.DDay] g (String "-" (PyDate.pad2 dd)))
      with (PyDate.regex_match [PyDate.DDay] g (PyDate.pad2 dd)).
    now apply regex_match_day. }
  destruct (Z.leb_spec 10 m); destruct (Z.leb_spec m 12); cbn [andb]; try lia.
  - now rewrite Htail.
  - destruct (Z.leb_spec 1 m); destruct (Z.leb_spec m 9); cbn [andb]; try lia.
    now rewrite Htail.
Qed.

Lemma days_in_month_le y m : PyDate.days_in_month y m <= 31.
Proof.
  unfold PyDate.days_in_month.
  destruct (PyDate.is_leap y); destruct m as [|p|p]; try lia;
    do 5 (try (destruct p as [p|p|]; simpl; try lia)).
Qed.

Lemma regex_match_year fmt f s :
  PyDate.regex_match (PyDate.DYear :: fmt) f s
  = match PyDate.take_number 4 0 9999 s with
    | Some (v, r) => PyDate.regex_match fmt (PyDate.set_field PyDate.DYear v f) r
    | None => None
    end.
Proof.
  cbn [PyDate.regex_match PyDate.alternatives PyDate.first_some].
  destruct (PyDate.take_number 4 0 9999 s) as [[v r]|]; [|reflexivity].
  now destruct (PyDate.regex_match fmt _ r).
Qed.

(** a date printed with a four-digit year is read back by the first format *)
Lemma strptime_printed d :
  PyDate.valid d = true ->
  PyDate.strptime (PyDate.strftime true d) PyDate.fmt_ymd = Ok d.
Proof.
  intros Hv. pose proof Hv as Hv'. unfold PyDate.valid in Hv'.
  repeat (apply andb_prop in Hv' as [Hv' ?]).
  repeat match goal with H : Z.leb _ _ = true |- _ => apply Z.leb_le in H end.
  apply Z.leb_le in Hv'.
  pose proof (days_in_month_le (PyDate.year d) (PyDate.month d)) as Hdim.
  unfold PyDate.strptime, PyDate.strftime, PyDate.year_text, PyDate.fmt_ymd.
  rewrite regex_match_year.
  rewrite take_number_pad4 by lia.
  replace (Z.leb 0 (PyDate.year d) && Z.leb (PyDate.year d) 9999)%bool with true
    by (symmetry; apply andb_true_intro; split; apply Z.leb_le; lia).
  change (PyDate.regex_match
            [PyDate.DLit "-"; PyDate.DMonth; PyDate.DLit "-"; PyDate.DDay]
            (PyDate.set_field PyDate.DYear (PyDate.year d) PyDate.no_fields)
            (String "-" (PyDate.pad2 (PyDate.month d)
                         +:+ String "-" (PyDate.pad2 (PyDate.day d)))))
    with (PyDate.regex_match [PyDate.DMonth; PyDate.DLit "-"; PyDate.DDay]
            (PyDate.set_field PyDate.DYear (PyDate.year d) PyDate.no_fields)
            (PyDate.pad2 (PyDate.month d) +:+ String "-" (PyDate.pad2 (PyDate.day d)))).
  rewrite regex_match_month_day by lia.
  cbn [PyDate.set_field PyDate.no_fields PyDate.f_year PyDate.f_month PyDate.f_day
       PyDate.f_hour PyDate.f_minute PyDate.f_second].
  destruct d as [y m dd]. cbn [PyDate.year PyDate.month PyDate.day] in *.
  rewrite Hv. reflexivity.
Qed.

(** *** Years of four digits *)

(** a year printed without padding has four digits only when the padded
    print is the same, checked on every year of the calendar *)
Lemma unpadded_years_checked :
  List.forallb
    (fun n => implb (Nat.eqb (String.length (Py.str_of_nat n)) 4)
                    (String.eqb (Py.str_of_nat n) (PyDate.pad4 (Z.of_nat n))))
    (seq 1 (Z.to_nat 9999)) = true.
Proof. vm_compute. reflexivity. Qed.

Lemma unpadded_year_text y :
  1 <= y <= 9999 ->
  String.length (PyDate.year_text false y) = 4%nat ->
  PyDate.year_text false y = PyDate.year_text true y.
Proof.
  intros Hy Hlen. unfold PyDate.year_text in *.
  pose proof unpadded_years_checked as H. rewrite forallb_forall in H.
  specialize (H (Z.to_nat y)). rewrite Z2Nat.id in H by lia.
  assert (Hin : In (Z.to_nat y) (seq 1 (Z.to_nat 9999))) by (apply in_seq; lia).
  specialize (H Hin). rewrite Hlen in H. cbn [Nat.eqb implb] in H.
  now apply String.eqb_eq in H.
Qed.

Lemma strftime_length pads d :
  String.length (PyDate.strftime pads d)
  = (String.length (PyDate.year_text pads (PyDate.year d)) + 6)%nat.
Proof. unfold PyDate.strftime. rewrite length_append. reflexivity. Qed.

(** a date of the calendar printed in ten characters is printed with its
    year padded *)
Lemma strftime_ten_characters pads d :
  PyDate.valid d = true ->
  pads = true \/ String.length (PyDate.strftime pads d) = 10%nat ->
  PyDate.strftime pads d = PyDate.strftime true d.
Proof.
  intros Hv [->|Hlen]; [reflexivity|]. destruct pads; [reflexivity|].
  rewrite strftime_length in Hlen.
  unfold PyDate.valid in Hv. repeat (apply andb_prop in Hv as [Hv ?]).
  repeat match goal with H : Z.leb _ _ = true |- _ => apply Z.leb_le in H end.
  apply Z.leb_le in Hv.
  unfold PyDate.strftime. rewrite unpadded_year_text; [reflexivity | lia | lia].
Qed.

(** *** A printed date holds no word of a relative date *)

Lemma date_char_not_upper c : is_date_char c = true -> PyStr.is_upper c = false.
Proof. by_cases_on_ascii c. Qed.
Lemma date_char_not_a c : is_date_char c = true -> Ascii.eqb "a" c = false.
Proof. by_cases_on_ascii c. Qed.
Lemma date_char_not_y c : is_date_char c = true -> Ascii.eqb "y" c = false.
Proof. by_cases_on_ascii c. Qed.
Lemma digit_is_date_char c : PyStr.is_digit c = true -> is_date_char c = true.
Proof. by_cases_on_ascii c. Qed.

Lemma strftime_date_chars d : PyStr.forallb is_date_char (PyDate.strftime true d) = true.
Proof.
  unfold PyDate.strftime, PyDate.year_text.
  rewrite forallb_app. cbn [PyStr.forallb]. rewrite forallb_app. cbn [PyStr.forallb].
  rewrite !(forallb_impl _ _ _ digit_is_date_char (pad2_digits _)).
  rewrite (forallb_impl _ _ _ digit_is_date_char (pad4_digits _)). reflexivity.
Qed.

(** a text that holds [sub] holds the first character of [sub] *)
Lemma contains_first_char c sub s :
  PyStr.contains (String c sub) s = true -> PyStr.existsb (Ascii.eqb c) s = true.
Proof.
  induction s as [|d s IH]; cbn [PyStr.contains PyStr.existsb String.prefix].
  - discriminate.
  - destruct (ascii_dec c d) as [->|Hne].
    + rewrite Ascii.eqb_refl. reflexivity.
    + apply Ascii.eqb_neq in Hne. rewrite Hne. cbn [orb].
      destruct (ascii_dec c d); [subst; now rewrite Ascii.eqb_refl in Hne|]. exact IH.
Qed.

Lemma contains_absent c sub s :
  PyStr.forallb (fun d => negb (Ascii.eqb c d)) s = true ->
  PyStr.contains (String c sub) s = false.
Proof.
  intros H. destruct (PyStr.contains (String c sub) s) eqn:E; [|reflexivity].
  apply contains_first_char in E. apply existsb_false_forallb in H. congruence.
Qed.

(** a printed date is no relative date *)
Lemma relative_date_printed today d :
  relative_date today (PyDate.strftime true d) = Ok None.
Proof.
  pose proof (strftime_date_chars d) as Hc.
  unfold relative_date.
  rewrite (lower_id (PyDate.strftime true d))
    by (eapply forallb_impl; [|exact Hc];
        intros c H; now rewrite (date_char_not_upper c H)).
  rewrite (contains_absent "a" "go")
    by (eapply forallb_impl; [|exact Hc];
        intros c H; now rewrite (date_char_not_a c H)).
  rewrite (contains_absent "y" "esterday")
    by (eapply forallb_impl; [|exact Hc];
        intros c H; now rewrite (date_char_not_y c H)).
  reflexivity.
Qed.

(** a printed date is resolved to itself, whatever the clock shows *)
Lemma resolve_date_printed today d :
  PyDate.valid d = true ->
  resolve_date today (VStr (PyDate.strftime true d)) = Ok d.
Proof.
  intros Hv. unfold resolve_date. rewrite relative_date_printed. cbn [bind].
  unfold date_patterns. cbn [try_patterns]. now rewrite (strptime_printed d Hv).
Qed.

Lemma strftime_truthy pads d : Py.truthy (VStr (PyDate.strftime pads d)) = true.
Proof.
  unfold PyDate.strftime. cbn [Py.truthy].
  destruct (PyDate.year_text pads (PyDate.year d)); reflexivity.
Qed.

(** the date a first pass prints is kept by a second pass, when it shows
    a four-digit year *)
Lemma validate_date_stable pads today1 today2 raw :
  PyDate.valid today1 = true ->
  pads = true \/ String.length (_validate_date pads today1 raw) = 10%nat ->
  _validate_date pads today2 (VStr (_validate_date pads today1 raw))
  = _validate_date pads today1 raw.
Proof.
  intros Hv Hlen.
  destruct (validate_date_prints pads today1 raw Hv) as [d [Hd E]].
  rewrite E in *.
  unfold _validate_date at 1. rewrite strftime_truthy. cbn [negb].
  rewrite (strftime_ten_characters pads d Hd Hlen) at 1.
  now rewrite (resolve_date_printed today2 d Hd).
Qed.

(** ** What the normalizers return *)

Lemma catch_returns {A} (body : result A) classes (dflt v : A) :
  catch body classes (Ok dflt) = Ok v -> body = Ok v \/ v = dflt.
Proof.
  unfold catch. destruct body as [a|e]; [auto|].
  destruct (List.existsb _ _); [|discriminate]. intros H. inversion H. auto.
Qed.

Lemma bind_int_returns (r : result Z) v :
  (let* n := r in Ok (VInt n)) = Ok v -> int_or_none v.
Proof. destruct r; cbn [bind]; intros H; inversion H. right. eauto. Qed.

Lemma safe_int_returns v v' : _safe_int_enhanced v = Ok v' -> int_or_none v'.
Proof.
  unfold _safe_int_enhanced.
  destruct v as [|b|z|f|s|l|d]; try (intros H; inversion H; now left);
    intros H; apply catch_returns in H as [H| ->]; try (now left);
    try (now apply bind_int_returns in H).
  destruct (PyStr.endswith_char _ "k").
  { bind_inv H. now apply bind_int_returns in H. }
  destruct (PyStr.endswith_char _ "m").
  { bind_inv H. now apply bind_int_returns in H. }
  destruct (PyStr.contains _ _).
  { bind_inv H. now apply bind_int_returns in H. }
  destruct (PyStr.is_empty _); [inversion H; now left|].
  now apply bind_int_returns in H.
Qed.

Lemma safe_int_fixed v : int_or_none v -> _safe_int_enhanced v = Ok v.
Proof. intros [->|[n ->]]; reflexivity. Qed.

Lemma safe_float_returns v v' : _safe_float v = Ok v' -> float_or_none v'.
Proof.
  unfold _safe_float.
  destruct v as [|b|z|f|s|l|d]; try (intros H; inversion H; now left);
    intros H; apply catch_returns in H as [H| ->]; try (now left).
  - inversion H. right. eauto.
  - cbn [bind Py.float] in H. bind_inv H. inversion H. right. eauto.
  - inversion H. right. eauto.
  - destruct (PyStr.is_empty _); [inversion H; now left|].
    bind_inv H. inversion H. right. eauto.
Qed.

Lemma safe_float_fixed v : float_or_none v -> _safe_float v = Ok v.
Proof. intros [->|[f ->]]; reflexivity. Qed.

Lemma validate_media_type_returns v m :
  _validate_media_type v = Ok m -> In m valid_types.
Proof.
  unfold _validate_media_type.
  destruct (negb (Py.truthy v)); [intros H; inversion H; simpl; auto|].
  destruct v as [| | | |s| |]; try discriminate.
  destruct (List.existsb _ valid_types) eqn:E.
  - intros H. inversion H; subst. apply existsb_exists in E as [x [Hx Hs]].
    apply String.eqb_eq in Hs. now subst.
  - destruct (assoc (PyStr.lower s) type_mapping) as [t|] eqn:Ea.
    + intros H. inversion H; subst. revert Ea. unfold type_mapping. cbn [assoc].
      repeat (destruct (String.eqb _ _);
              [intros Ht; inversion Ht; subst; simpl; tauto|]).
      discriminate.
    + intros H. inversion H. simpl. auto.
Qed.

Lemma validate_media_type_fixed m :
  In m valid_types -> _validate_media_type (VStr m) = Ok m.
Proof.
  unfold valid_types. simpl.
  intros [<-|[<-|[<-|[<-|[]]]]]; reflexivity.
Qed.

(** ** Cleaned posts *)

Lemma cleaned_post_lookups a b c d e f g h i j k :
  let m := cleaned_post_dict a b c d e f g h i j k in
  m !! "post_id" = Some a /\ m !! "url" = Some b /\ m !! "media_type" = Some c
  /\ m !! "likes" = Some d /\ m !! "comments" = Some e /\ m !! "post_date" = Some f
  /\ m !! "views" = Some g /\ m !! "reach" = Some h /\ m !! "impressions" = Some i
  /\ m !! "shares" = Some j /\ m !! "completeness_score" = Some k.
Proof. cbv zeta. repeat split; reflexivity. Qed.

Lemma or_truthy a b : Py.truthy b = true -> Py.truthy (Py.or a b) = true.
Proof. unfold Py.or. intros H. destruct (Py.truthy a) eqn:E; [exact E | exact H]. Qed.

Lemma method_get_dict v k dflt r :
  Py.method_get v k dflt = Ok r -> exists m, v = VDict m /\ r = Py.get_default m k dflt.
Proof. destruct v; try discriminate. intros H. inversion H. eauto. Qed.

Lemma append_truthy a b : Py.truthy (VStr (String a b)) = true.
Proof. reflexivity. Qed.

(** the cleaning of a post returns a cleaned post, whose date is the one
    [_validate_date] prints for the post's own date *)
Lemma clean_post_cleaned pads today u i p p' :
  clean_post pads today u i p = Ok p' ->
  exists m, p = VDict m
    /\ cleaned (fun date => date = _validate_date pads today (Py.get m "post_date")) p'.
Proof.
  unfold clean_post. intros H.
  bind_inv H. destruct (method_get_dict _ _ _ _ E) as [m [-> ->]]. exists m.
  split; [reflexivity|]. cbn [Py.method_get bind] in H.
  bind_inv H. bind_inv H. bind_inv H. bind_inv H. bind_inv H. bind_inv H. bind_inv H.
  bind_inv H. inversion H; subst; clear H.
  constructor;
    try (eapply safe_int_returns; eassumption);
    try (eapply validate_media_type_returns; eassumption);
    try reflexivity;
    apply or_truthy; reflexivity.
Qed.

(** a cleaned post whose date is kept by [_validate_date] is kept by the
    cleaning *)
Lemma clean_post_fixed pads today u i p :
  cleaned (fun date => _validate_date pads today (VStr date) = date) p ->
  clean_post pads today u i p = Ok p.
Proof.
  intros Hc. destruct Hc as [post_id url media likes comments date views reach
    impressions shares completeness Hid Hurl Hmedia Hl Hc Hd Hv Hr Hi Hs].
  unfold clean_post. cbn [Py.method_get bind]. unfold Py.get_default.
  destruct (cleaned_post_lookups post_id url (VStr media) likes comments (VStr date)
              views reach impressions shares completeness)
    as (L1 & L2 & L3 & L4 & L5 & L6 & L7 & L8 & L9 & L10 & L11).
  cbv zeta in *.
  rewrite L1, L2, L3, L4, L5, L6, L7, L8, L9, L10, L11. cbn [from_option id].
  rewrite Hid. cbn [negb andb bind].
  rewrite (validate_media_type_fixed media Hmedia). cbn [bind].
  rewrite !safe_int_fixed by assumption. cbn [bind].
  rewrite Hd. unfold Py.or. rewrite Hid, Hurl. reflexivity.
Qed.

Lemma cleaned_impl (P Q : string -> Prop) p :
  (forall date, P date -> Q date) -> cleaned P p -> cleaned Q p.
Proof. intros HPQ H. destruct H. constructor; auto. Qed.

(** ** Statements that change nothing *)

Lemma preserved_by_frame p s keys w :
  stable_on p keys -> writes s w -> ~ In w keys -> preserved_by p s.
Proof.
  intros Hl Hw Hn d d' Hp Hs. apply (Hl d d'); [|exact Hp].
  intros k Hk. symmetry. apply (Hw d d' Hs). intros ->. contradiction.
Qed.

Lemma insert_unchanged (d : dict) k v : <[k := v]> d = d -> d !! k = Some v.
Proof. intros H. rewrite <- H. apply lookup_insert_eq. Qed.

Lemma ok_insert_unchanged (d : dict) k v : Ok (<[k := v]> d) = Ok d -> d !! k = Some v.
Proof. intros H. inversion H as [H1]. rewrite H1. now apply insert_unchanged. Qed.

Lemma ok_insert_id (d : dict) k v : d !! k = Some v -> Ok (<[k := v]> d) = Ok d.
Proof. intros H. now rewrite insert_id. Qed.

Lemma stable_on_set_has_metrics : stable_on set_has_metrics ["has_metrics"].
Proof.
  intros d d' Ha H. unfold set_has_metrics, Py.get_default in *.
  rewrite <- (Ha "has_metrics") by (simpl; auto).
  apply ok_insert_id. rewrite <- (Ha "has_metrics") by (simpl; auto).
  now apply ok_insert_unchanged.
Qed.

Lemma stable_on_set_influencer_name u :
  stable_on (set_influencer_name u) ["influencer_name"].
Proof.
  intros d d' Ha H. unfold set_influencer_name, Py.get in *.
  rewrite <- (Ha "influencer_name") by (simpl; auto).
  destruct (_ || _)%bool; [|reflexivity].
  apply ok_insert_id. rewrite <- (Ha "influencer_name") by (simpl; auto).
  now apply ok_insert_unchanged.
Qed.

Lemma stable_on_set_default key dflt : stable_on (set_default key dflt) [key].
Proof.
  intros d d' Ha H. unfold set_default, Py.get_default in *.
  rewrite <- (Ha key) by (simpl; auto).
  apply ok_insert_id. rewrite <- (Ha key) by (simpl; auto).
  now apply ok_insert_unchanged.
Qed.

Lemma stable_on_set_normalized key g : stable_on (set_normalized key g) [key].
Proof.
  intros d d' Ha H. unfold set_normalized, Py.get in *.
  rewrite <- (Ha key) by (simpl; auto).
  destruct (g _) as [v|e]; cbn [bind] in *; [|discriminate].
  apply ok_insert_id. rewrite <- (Ha key) by (simpl; auto).
  now apply ok_insert_unchanged.
Qed.

Lemma stable_on_set_recent_posts p c u :
  stable_on (set_recent_posts p c u) ["recent_posts"].
Proof.
  intros d d' Ha H. unfold set_recent_posts, Py.get, Py.has_key in *.
  rewrite <- (Ha "recent_posts") by (simpl; auto).
  destruct (_ && _)%bool.
  - destruct (Py.iterate _) as [posts|e]; cbn [bind] in *; [|discriminate].
    destruct (clean_posts_from _ _ _ _ _) as [cl|e]; cbn [bind] in *; [|discriminate].
    apply ok_insert_id. rewrite <- (Ha "recent_posts") by (simpl; auto).
    now apply ok_insert_unchanged.
  - apply ok_insert_id. rewrite <- (Ha "recent_posts") by (simpl; auto).
    now apply ok_insert_unchanged.
Qed.

Lemma stable_on_derive_average avg_key field :
  stable_on (derive_average avg_key field) ["recent_posts"; avg_key].
Proof.
  intros d d' Ha H. unfold derive_average, Py.getitem in *.
  rewrite <- (Ha "recent_posts") by (simpl; auto).
  destruct (d !! "recent_posts") as [posts|]; cbn [bind] in *; [|discriminate].
  destruct (negb (Py.truthy posts)); [reflexivity|].
  rewrite <- (Ha avg_key) by (simpl; auto).
  destruct (d !! avg_key) as [avg|] eqn:Eavg; cbn [bind] in *; [|discriminate].
  destruct (Py.truthy avg); [reflexivity|].
  destruct (Py.iterate posts) as [items|e]; cbn [bind] in *; [|discriminate].
  destruct (collect_field field items) as [values|e]; cbn [bind] in *; [|discriminate].
  destruct values as [|x values]; [reflexivity|].
  destruct (Py.sum _) as [total|e]; cbn [bind] in *; [|discriminate].
  destruct (Py.truediv _ _) as [mean|e]; cbn [bind] in *; [|discriminate].
  destruct (Py.int mean) as [n|e]; cbn [bind] in *; [|discriminate].
  apply ok_insert_id. rewrite <- (Ha avg_key) by (simpl; auto).
  rewrite Eavg. apply ok_insert_unchanged in H. congruence.
Qed.

Lemma stable_on_derive_engagement_rate :
  stable_on derive_engagement_rate
    ["avg_likes_per_post"; "avg_comments_per_post"; "followers_count"; "engagement_rate"].
Proof.
  intros d d' Ha H. unfold derive_engagement_rate, Py.getitem in *.
  rewrite <- (Ha "avg_likes_per_post") by (simpl; auto).
  destruct (d !! "avg_likes_per_post") as [a|]; cbn [bind] in *; [|discriminate].
  destruct (negb (Py.truthy a)); [reflexivity|].
  rewrite <- (Ha "avg_comments_per_post") by (simpl; auto).
  destruct (d !! "avg_comments_per_post") as [c|]; cbn [bind] in *; [|discriminate].
  destruct (negb (Py.truthy c)); [reflexivity|].
  rewrite <- (Ha "followers_count") by (simpl; auto 10).
  destruct (d !! "followers_count") as [f|]; cbn [bind] in *; [|discriminate].
  destruct (negb (Py.truthy f)); [reflexivity|].
  rewrite <- (Ha "engagement_rate") by (simpl; auto 10).
  destruct (d !! "engagement_rate") as [r|] eqn:Er; cbn [bind] in *; [|discriminate].
  destruct (Py.truthy r); [reflexivity|].
  destruct (Py.add a c) as [total|e]; cbn [bind] in *; [|discriminate].
  destruct (Py.truediv total f) as [ratio|e]; cbn [bind] in *; [|discriminate].
  destruct (Py.mul ratio _) as [engagement|e]; cbn [bind] in *; [|discriminate].
  destruct (Py.round2 engagement) as [rounded|e]; cbn [bind] in *; [|discriminate].
  apply ok_insert_id. rewrite <- (Ha "engagement_rate") by (simpl; auto 10).
  rewrite Er. apply ok_insert_unchanged in H. congruence.
Qed.

(** *** A statement run on its own result *)

Lemma rerun_set_has_metrics d d' :
  set_has_metrics d = Ok d' -> set_has_metrics d' = Ok d'.
Proof.
  unfold set_has_metrics. intros H. inversion H; subst. unfold Py.get_default at 1.
  rewrite lookup_insert_eq. cbn [from_option id Py.truthy].
  now rewrite insert_insert_eq.
Qed.

Lemma rerun_set_influencer_name u d d' :
  set_influencer_name u d = Ok d' -> set_influencer_name u d' = Ok d'.
Proof.
  intros H. unfold set_influencer_name in H.
  match type of H with (if ?c then _ else _) = _ => destruct c eqn:E end.
  - inversion H; subst. clear E H. unfold set_influencer_name, Py.get.
    rewrite lookup_insert_eq. cbn [from_option id].
    destruct (_ || _)%bool; [|reflexivity]. now rewrite insert_insert_eq.
  - inversion H; subst. unfold set_influencer_name. now rewrite E.
Qed.

Lemma rerun_set_default key dflt d d' :
  set_default key dflt d = Ok d' -> set_default key dflt d' = Ok d'.
Proof.
  unfold set_default. intros H. inversion H; subst. unfold Py.get_default at 1.
  rewrite lookup_insert_eq. cbn [from_option id]. now rewrite insert_insert_eq.
Qed.

Lemma rerun_set_normalized key g d d' :
  (forall x v, g x = Ok v -> g v = Ok v) ->
  set_normalized key g d = Ok d' -> set_normalized key g d' = Ok d'.
Proof.
  intros Hg. unfold set_normalized. intros H. bind_inv H. inversion H; subst.
  unfold Py.get at 1. rewrite lookup_insert_eq. cbn [from_option id].
  rewrite (Hg _ _ E). cbn [bind]. now rewrite insert_insert_eq.
Qed.

Lemma safe_int_idempotent x v : _safe_int_enhanced x = Ok v -> _safe_int_enhanced v = Ok v.
Proof. intros H. apply safe_int_fixed. now apply safe_int_returns in H. Qed.

Lemma safe_float_idempotent x v : _safe_float x = Ok v -> _safe_float v = Ok v.
Proof. intros H. apply safe_float_fixed. now apply safe_float_returns in H. Qed.

Lemma getitem_insert_ne (d : dict) k w v :
  k <> w -> Py.getitem (VDict (<[w := v]> d)) k = Py.getitem (VDict d) k.
Proof. intros H. unfold Py.getitem. now rewrite lookup_insert_ne. Qed.

Lemma getitem_insert_eq (d : dict) w v : Py.getitem (VDict (<[w := v]> d)) w = Ok v.
Proof. unfold Py.getitem. now rewrite lookup_insert_eq. Qed.

Lemma rerun_derive_average avg_key field d d' :
  avg_key <> "recent_posts" ->
  derive_average avg_key field d = Ok d' -> derive_average avg_key field d' = Ok d'.
Proof.
  intros Hkey H. pose proof H as H0. unfold derive_average in H.
  apply bind_ok in H as (posts & Eposts & H).
  destruct (negb (Py.truthy posts)) eqn:Hp; [now inversion H; subst|].
  apply bind_ok in H as (avg & Eavg & H).
  destruct (Py.truthy avg) eqn:Ha; [now inversion H; subst|].
  apply bind_ok in H as (items & Eitems & H).
  apply bind_ok in H as (values & Evalues & H).
  destruct values as [|x values]; [now inversion H; subst|].
  apply bind_ok in H as (total & Etotal & H).
  apply bind_ok in H as (mean & Emean & H).
  apply bind_ok in H as (n & En & H).
  inversion H; subst; clear H H0.
  unfold derive_average.
  rewrite getitem_insert_ne by congruence. rewrite Eposts. cbn [bind]. rewrite Hp.
  rewrite getitem_insert_eq. cbn [bind].
  destruct (Py.truthy (VInt n)); [reflexivity|].
  rewrite Eitems. cbn [bind]. rewrite Evalues. cbn [bind]. rewrite Etotal. cbn [bind].
  rewrite Emean. cbn [bind]. rewrite En. cbn [bind]. now rewrite insert_insert_eq.
Qed.

Lemma rerun_derive_engagement_rate d d' :
  derive_engagement_rate d = Ok d' -> derive_engagement_rate d' = Ok d'.
Proof.
  intros H. pose proof H as H0. unfold derive_engagement_rate in H.
  apply bind_ok in H as (a & Ea & H).
  destruct (negb (Py.truthy a)) eqn:Ha; [now inversion H; subst|].
  apply bind_ok in H as (c & Ec & H).
  destruct (negb (Py.truthy c)) eqn:Hc; [now inversion H; subst|].
  apply bind_ok in H as (f & Ef & H).
  destruct (negb (Py.truthy f)) eqn:Hf; [now inversion H; subst|].
  apply bind_ok in H as (r & Er & H).
  destruct (Py.truthy r) eqn:Hr; [now inversion H; subst|].
  apply bind_ok in H as (total & Etotal & H).
  apply bind_ok in H as (ratio & Eratio & H).
  apply bind_ok in H as (engagement & Eengagement & H).
  apply bind_ok in H as (rounded & Erounded & H).
  inversion H; subst; clear H H0.
  unfold derive_engagement_rate.
  rewrite !getitem_insert_ne by discriminate. rewrite getitem_insert_eq.
  rewrite Ea. cbn [bind]. rewrite Ha. rewrite Ec. cbn [bind]. rewrite Hc.
  rewrite Ef. cbn [bind]. rewrite Hf.
  destruct (Py.truthy rounded); [reflexivity|].
  rewrite Etotal. cbn [bind]. rewrite Eratio. cbn [bind]. rewrite Eengagement. cbn [bind].
  rewrite Erounded. cbn [bind]. now rewrite insert_insert_eq.
Qed.

(** *** The derivations against the normalizations of the same key *)

Lemma derive_average_writes_int avg_key field d d' :
  derive_average avg_key field d = Ok d' ->
  d' = d \/ exists n, d' = <[avg_key := VInt n]> d.
Proof.
  unfold derive_average. intros H.
  bind_inv H. destruct (negb _); [inversion H; auto|].
  bind_inv H. destruct (Py.truthy _); [inversion H; auto|].
  bind_inv H. bind_inv H. destruct v2; [inversion H; auto|].
  bind_inv H. bind_inv H. bind_inv H. inversion H; subst. eauto.
Qed.

Lemma truediv_float a b v : Py.truediv a b = Ok v -> exists q, v = VFloat q.
Proof.
  unfold Py.truediv. intros H. bind_inv H. bind_inv H.
  destruct v0, v1; repeat bind_inv H; inversion H; eauto.
Qed.

Lemma mul_float q b v : Py.mul (VFloat q) b = Ok v -> exists r, v = VFloat r.
Proof.
  unfold Py.mul. cbn [Py.as_number bind]. intros H. bind_inv H.
  destruct v0; repeat bind_inv H; inversion H; eauto.
Qed.

Lemma derive_engagement_rate_writes_float d d' :
  derive_engagement_rate d = Ok d' ->
  d' = d \/ exists f, d' = <["engagement_rate" := VFloat f]> d.
Proof.
  unfold derive_engagement_rate. intros H.
  bind_inv H. destruct (negb _); [inversion H; auto|].
  bind_inv H. destruct (negb _); [inversion H; auto|].
  bind_inv H. destruct (negb _); [inversion H; auto|].
  bind_inv H. destruct (Py.truthy _); [inversion H; auto|].
  apply bind_ok in H as (total & Etotal & H).
  apply bind_ok in H as (ratio & Eratio & H).
  apply bind_ok in H as (engagement & Eengagement & H).
  apply bind_ok in H as (rounded & Erounded & H).
  inversion H; subst.
  destruct (truediv_float _ _ _ Eratio) as [q ->].
  destruct (mul_float _ _ _ Eengagement) as [r ->].
  cbn [Py.round2] in Erounded. inversion Erounded; subst. eauto.
Qed.

Lemma normalized_after_write key g d v :
  g v = Ok v -> set_normalized key g d = Ok d ->
  set_normalized key g (<[key := v]> d) = Ok (<[key := v]> d).
Proof.
  intros Hg _. unfold set_normalized, Py.get. rewrite lookup_insert_eq.
  cbn [from_option id]. rewrite Hg. cbn [bind]. now rewrite insert_insert_eq.
Qed.

Lemma preserved_normalized_average avg_key field :
  preserved_by (set_normalized avg_key _safe_int_enhanced) (derive_average avg_key field).
Proof.
  intros d d' Hp Hs. destruct (derive_average_writes_int _ _ _ _ Hs) as [->|[n ->]];
    [exact Hp | now apply normalized_after_write].
Qed.

Lemma preserved_normalized_engagement :
  preserved_by (set_normalized "engagement_rate" _safe_float) derive_engagement_rate.
Proof.
  intros d d' Hp Hs. destruct (derive_engagement_rate_writes_float _ _ Hs) as [->|[f ->]];
    [exact Hp | now apply normalized_after_write].
Qed.

(** ** Cleaning the posts a second time *)

Lemma clean_posts_from_settled pads clock u posts :
  (forall i, PyDate.valid (clock i) = true) ->
  forall i cl,
  pads || ten_character_dates_from pads clock i posts = true ->
  clean_posts_from pads clock u i posts = Ok cl ->
  Forall (cleaned (settled_date pads)) cl.
Proof.
  intros Hv. induction posts as [|p posts IH]; intros i cl Hd H; cbn [clean_posts_from] in H.
  - inversion H. constructor.
  - apply bind_ok in H as (p' & Ep & H). apply bind_ok in H as (cl' & Ecl & H).
    inversion H; subst; clear H.
    destruct (clean_post_cleaned _ _ _ _ _ _ Ep) as (m & -> & Hc).
    cbn [ten_character_dates_from] in Hd.
    constructor.
    + eapply cleaned_impl; [|exact Hc]. intros date -> today.
      apply validate_date_stable; [apply Hv|].
      destruct pads; [now left|right]. cbn [orb] in Hd.
      apply andb_prop in Hd as [Hd _]. now apply Nat.eqb_eq in Hd.
    + apply (IH (S i)); [|exact Ecl]. destruct pads; [reflexivity|].
      cbn [orb] in *. now apply andb_prop in Hd as [_ Hd].
Qed.

Lemma clean_posts_from_fixed pads clock u cl :
  Forall (cleaned (settled_date pads)) cl ->
  forall i, clean_posts_from pads clock u i cl = Ok cl.
Proof.
  induction 1 as [|p cl Hp _ IH]; intros i; cbn [clean_posts_from]; [reflexivity|].
  rewrite (clean_post_fixed pads (clock i) u i p).
  - cbn [bind]. now rewrite IH.
  - eapply cleaned_impl; [|exact Hp]. intros date Hd. apply Hd.
Qed.

(** whether [clean_post] raises does not depend on the day *)
Lemma clean_post_raises_any_day pads today1 today2 u i p e :
  clean_post pads today1 u i p = Raise e -> clean_post pads today2 u i p = Raise e.
Proof.
  unfold clean_post.
  repeat match goal with
  | |- bind ?r _ = _ -> bind ?r _ = _ => destruct r; cbn [bind]; [|exact (fun H => H)]
  end.
  discriminate.
Qed.

Lemma clean_post_returns_any_day pads today1 today2 u i p p' :
  clean_post pads today1 u i p = Ok p' -> exists q, clean_post pads today2 u i p = Ok q.
Proof.
  unfold clean_post.
  repeat match goal with
  | |- bind ?r _ = _ -> exists q, bind ?r _ = _ => destruct r; cbn [bind]; [|discriminate]
  end.
  eauto.
Qed.

Lemma clean_posts_from_raises_any_clock pads clock1 clock2 u posts :
  forall i e, clean_posts_from pads clock1 u i posts = Raise e ->
  exists e', clean_posts_from pads clock2 u i posts = Raise e'.
Proof.
  induction posts as [|p posts IH]; intros i e H; cbn [clean_posts_from] in *; [discriminate|].
  destruct (clean_post pads (clock1 i) u i p) as [p'|e1] eqn:E1; cbn [bind] in H.
  - destruct (clean_post_returns_any_day _ _ (clock2 i) _ _ _ _ E1) as [q ->]. cbn [bind].
    destruct (clean_posts_from pads clock1 u (S i) posts) as [cl|e2] eqn:E2;
      cbn [bind] in H; [discriminate|].
    destruct (IH _ _ E2) as [e' ->]. cbn [bind]. eauto.
  - rewrite (clean_post_raises_any_day _ _ (clock2 i) _ _ _ _ E1). cbn [bind]. eauto.
Qed.

(** a loop over a string or over the keys of a dictionary cleans nothing:
    [post.get] raises on the first of them *)
Lemma clean_posts_from_strings pads clock u i (l : list string) cl :
  clean_posts_from pads clock u i (VStr <$> l) = Ok cl -> cl = [].
Proof.
  destruct l as [|s l]; cbn; intros H; [now inversion H | discriminate].
Qed.

Lemma chars_strings s : exists l, Py.chars s = VStr <$> l.
Proof.
  induction s as [|c s [l IH]]; [now exists []|].
  exists (String c EmptyString :: l). cbn. now rewrite IH.
Qed.

Lemma rerun_set_recent_posts pads clock1 clock2 u d d' :
  (forall i, PyDate.valid (clock1 i) = true) ->
  prints_padded_dates pads clock1 d = true ->
  set_recent_posts pads clock1 u d = Ok d' ->
  set_recent_posts pads clock2 u d' = Ok d'.
Proof.
  intros Hv Hd H. unfold set_recent_posts in H.
  assert (Hfix : forall cl, Forall (cleaned (settled_date pads)) cl ->
            set_recent_posts pads clock2 u (<["recent_posts" := VList cl]> d)
            = Ok (<["recent_posts" := VList cl]> d)).
  { intros cl Hcl. unfold set_recent_posts, Py.has_key, Py.get.
    rewrite lookup_insert_eq. cbn [from_option id Py.iterate bind].
    rewrite bool_decide_eq_true_2 by eauto. cbn [andb].
    destruct (Py.truthy (VList cl)) eqn:Et.
    - rewrite (clean_posts_from_fixed _ _ _ _ Hcl). cbn [bind].
      now rewrite insert_insert_eq.
    - destruct cl; [|discriminate]. now rewrite insert_insert_eq. }
  match type of H with (if ?c then _ else _) = _ => destruct c end.
  - apply bind_ok in H as (posts & Eposts & H). apply bind_ok in H as (cl & Ecl & H).
    inversion H; subst; clear H. apply Hfix.
    unfold prints_padded_dates in Hd.
    destruct (Py.get d "recent_posts") as [| | | |s|l|m]; try discriminate;
      cbn [Py.iterate] in Eposts; inversion Eposts; subst; clear Eposts.
    + destruct (chars_strings s) as [l El]. rewrite El in Ecl.
      apply clean_posts_from_strings in Ecl as ->. constructor.
    + eapply clean_posts_from_settled; eauto.
    + apply clean_posts_from_strings in Ecl as ->. constructor.
  - inversion H; subst. apply Hfix. constructor.
Qed.

Lemma set_recent_posts_raises_any_clock pads clock1 clock2 u d e :
  set_recent_posts pads clock1 u d = Raise e ->
  exists e', set_recent_posts pads clock2 u d = Raise e'.
Proof.
  unfold set_recent_posts. destruct (_ && _)%bool; [|discriminate].
  destruct (Py.iterate _) as [posts|e1]; cbn [bind]; [|eauto].
  destruct (clean_posts_from pads clock1 u 0 posts) as [cl|e2] eqn:E; cbn [bind];
    [discriminate|].
  intros _. destruct (clean_posts_from_raises_any_clock _ _ clock2 _ _ _ _ E) as [e' ->].
  cbn [bind]. eauto.
Qed.

(** ** Running a body on its own result *)

Lemma run_unchanged pre rest d :
  Forall (fun p : statement => p d = Ok d) pre -> run (pre ++ rest) d = run rest d.
Proof.
  induction 1 as [|p pre Hp _ IH]; [reflexivity|]. cbn [app run]. now rewrite Hp.
Qed.

Lemma run_twice I pre body body' :
  compatible I pre body body' ->
  forall d, I d -> Forall (fun p : statement => p d = Ok d) pre ->
  run (pre ++ body') (run body d) = run body d.
Proof.
  induction 1 as [I pre|I I' pre s s' body body' Hpre Hok Hraise _ IH]; intros d HI Hd.
  - cbn [run]. rewrite run_unchanged by exact Hd. reflexivity.
  - cbn [run]. destruct (s d) as [d1|e] eqn:E.
    + destruct (Hok d d1 HI E) as [Hs' HI'].
      change (pre ++ s' :: body') with (pre ++ [s'] ++ body'). rewrite app_assoc.
      apply IH; [exact HI'|]. apply Forall_app. split.
      * rewrite Forall_forall in Hpre, Hd |- *. intros p Hp.
        apply (Hpre p Hp d d1); [apply Hd, Hp | exact E].
      * constructor; [exact Hs' | constructor].
    + rewrite run_unchanged by exact Hd. cbn [run].
      destruct (Hraise d e E) as [e' ->]. reflexivity.
Qed.

Lemma prints_padded_dates_frame pads clock s w d d' :
  writes s w -> w <> "recent_posts" ->
  prints_padded_dates pads clock d = true -> s d = Ok d' ->
  prints_padded_dates pads clock d' = true.
Proof.
  intros Hw Hne Hd Hs. unfold prints_padded_dates, Py.get in *.
  rewrite (Hw d d' Hs) by congruence. exact Hd.
Qed.

Ltac preserved :=
  first
    [ apply preserved_normalized_average
    | apply preserved_normalized_engagement
    | eapply preserved_by_frame;
      [ first [ apply stable_on_set_has_metrics | apply stable_on_set_influencer_name
              | apply stable_on_set_default | apply stable_on_set_normalized
              | apply stable_on_set_recent_posts | apply stable_on_derive_average
              | apply stable_on_derive_engagement_rate ]
      | first [ apply writes_set_has_metrics | apply writes_set_influencer_name
              | apply writes_set_default | apply writes_set_normalized
              | apply writes_set_recent_posts | apply writes_derive_average
              | apply writes_derive_engagement_rate ]
      | cbn; intuition discriminate ] ].

Lemma validation_body_compatible pads clock1 clock2 u :
  (forall i, PyDate.valid (clock1 i) = true) ->
  compatible (fun d => prints_padded_dates pads clock1 d = true) []
    (validation_body pads clock1 u) (validation_body pads clock2 u).
Proof.
  intros Hv. unfold validation_body.
  (* the statements before the loop keep [recent_posts] *)
  apply compatible_cons with (I' := fun d => prints_padded_dates pads clock1 d = true);
    [ repeat constructor; preserved
    | intros d d' HI Hs; split;
      [ revert Hs; apply rerun_set_has_metrics
      | refine (prints_padded_dates_frame _ _ _ _ _ _ (writes_set_has_metrics) _ HI Hs);
        discriminate ]
    | eauto | ].
  apply compatible_cons with (I' := fun d => prints_padded_dates pads clock1 d = true);
    [ repeat constructor; preserved
    | intros d d' HI Hs; split;
      [ revert Hs; apply rerun_set_influencer_name
      | refine (prints_padded_dates_frame _ _ _ _ _ _ (writes_set_influencer_name _) _ HI Hs);
        discriminate ]
    | eauto | ].
  do 4 (apply compatible_cons with (I' := fun d => prints_padded_dates pads clock1 d = true);
    [ repeat constructor; preserved
    | intros d d' HI Hs; split;
      [ revert Hs; apply rerun_set_default
      | refine (prints_padded_dates_frame _ _ _ _ _ _ (writes_set_default _ _) _ HI Hs);
        discriminate ]
    | eauto | ]).
  (* the loop *)
  apply compatible_cons with (I' := fun _ => True);
    [ repeat constructor; preserved
    | intros d d' HI Hs; split; [revert Hs; now apply (rerun_set_recent_posts pads clock1) | exact I]
    | intros d e; apply set_recent_posts_raises_any_clock | ].
  (* the normalizations *)
  do 5 (apply compatible_cons with (I' := fun _ => True);
    [ repeat constructor; preserved
    | intros d d' _ Hs; split;
      [ revert Hs; apply rerun_set_normalized, safe_int_idempotent | exact I]
    | eauto | ]).
  apply compatible_cons with (I' := fun _ => True);
    [ repeat constructor; preserved
    | intros d d' _ Hs; split;
      [ revert Hs; apply rerun_set_normalized, safe_float_idempotent | exact I]
    | eauto | ].
  (* the derivations *)
  do 2 (apply compatible_cons with (I' := fun _ => True);
    [ repeat constructor; preserved
    | intros d d' _ Hs; split;
      [ revert Hs; apply rerun_derive_average; discriminate | exact I]
    | eauto | ]).
  apply compatible_cons with (I' := fun _ => True);
    [ repeat constructor; preserved
    | intros d d' _ Hs; split; [ revert Hs; apply rerun_derive_engagement_rate | exact I]
    | eauto | ].
  apply compatible_nil.
Qed.

(** C9, as amended: a second validation of a validated record changes
    nothing, on whatever days the two validations run, as long as the dates
    the first one prints have a year of four digits (they always have where
    the platform pads the year) *)
Theorem validation_idempotent pads clock1 clock2 data username :
  (forall i, PyDate.valid (clock1 i) = true) ->
  prints_padded_dates pads clock1 data = true ->
  _validate_and_clean_metrics_enhanced pads clock2
    (_validate_and_clean_metrics_enhanced pads clock1 data username) username
  = _validate_and_clean_metrics_enhanced pads clock1 data username.
Proof.
  intros Hv Hd. unfold _validate_and_clean_metrics_enhanced.
  apply (run_twice _ [] _ _ (validation_body_compatible pads clock1 clock2 username Hv));
    [exact Hd | constructor].
Qed.

(** C9, witness: [raw_record], validated at noon and again at the new
    year *)
Lemma validation_idempotent_witness :
  (forall i, PyDate.valid (noon i) = true)
  /\ prints_padded_dates false noon raw_record = true
  /\ _validate_and_clean_metrics_enhanced false new_year
       (_validate_and_clean_metrics_enhanced false noon raw_record "alice") "alice"
     = _validate_and_clean_metrics_enhanced false noon raw_record "alice".
Proof.
  split; [intros i; reflexivity|]. split; [vm_compute; reflexivity|].
  apply (validation_idempotent false noon new_year raw_record "alice");
    [intros i; reflexivity | vm_compute; reflexivity].
Defined.

(** C9: where the platform does not pad the year, a post dated
    [0999-02-03] is printed [999-02-03] by the first validation; none of
    the patterns of [_validate_date] reads that print, so the second
    validation replaces it with the day it runs: the output of the
    validation is not a fixed point of it. *)
Lemma validation_rewrites_unpadded_year :
  let data : dict :=
    {[ "recent_posts" := VList [VDict {[ "post_date" := VStr "0999-02-03" ]}] ]} in
  post_dates (_validate_and_clean_metrics_enhanced false noon data "alice")
  = [VStr "999-02-03"]
  /\ post_dates
       (_validate_and_clean_metrics_enhanced false noon
          (_validate_and_clean_metrics_enhanced false noon data "alice") "alice")
     = [VStr "2024-06-10"].
Proof. vm_compute. split; reflexivity. Qed.

(** ** The derived averages *)

Lemma posts_cleaned pads clock u d d' :
  set_recent_posts pads clock u d = Ok d' ->
  exists cl, d' !! "recent_posts" = Some (VList cl) /\ Forall (cleaned (fun _ => True)) cl.
Proof.
  unfold set_recent_posts. intros H.
  match type of H with (if ?c then _ else _) = _ => destruct c end.
  - apply bind_ok in H as (posts & Eposts & H). apply bind_ok in H as (cl & Ecl & H).
    inversion H; subst; clear H. exists cl. split; [apply lookup_insert_eq|].
    clear Eposts. revert cl Ecl. generalize 0%nat.
    induction posts as [|p posts IH]; intros i cl H; cbn [clean_posts_from] in H.
    + inversion H. constructor.
    + apply bind_ok in H as (p' & Ep & H). apply bind_ok in H as (cl' & Ecl & H).
      inversion H; subst; clear H.
      destruct (clean_post_cleaned _ _ _ _ _ _ Ep) as (m & _ & Hc).
      constructor; [|now apply (IH (S i))].
      eapply cleaned_impl; [|exact Hc]. intros; exact I.
  - inversion H; subst. exists []. split; [apply lookup_insert_eq | constructor].
Qed.

Lemma collect_field_cleaned a cl :
  Forall (cleaned (fun _ => True)) cl ->
  collect_field (post_field a) cl = Ok (VInt <$> field_values (post_field a) cl).
Proof.
  induction 1 as [|p cl Hp _ IH]; [reflexivity|].
  cbn [collect_field field_values flat_map]. fold (field_values (post_field a) cl).
  rewrite IH. destruct Hp as [post_id url media likes comments date views reach
    impressions shares completeness _ _ _ Hl Hc _ _ _ _ _].
  destruct (cleaned_post_lookups post_id url (VStr media) likes comments (VStr date)
              views reach impressions shares completeness)
    as (_ & _ & _ & L4 & L5 & _).
  cbv zeta in *. unfold Py.getitem, Py.get.
  destruct a; cbn [post_field].
  - rewrite L4. cbn [bind from_option id].
    destruct Hl as [->|[n ->]]; reflexivity.
  - rewrite L5. cbn [bind from_option id].
    destruct Hc as [->|[n ->]]; reflexivity.
Qed.

Lemma sum_from_ints acc values :
  Py.sum_from (VInt acc) (VInt <$> values) = Ok (VInt (acc + total values)).
Proof.
  revert acc. induction values as [|z values IH]; intros acc; cbn.
  - now rewrite Z.add_0_r.
  - rewrite IH. do 2 f_equal. unfold total. lia.
Qed.

Lemma sum_ints values : Py.sum (VInt <$> values) = Ok (VInt (total values)).
Proof. unfold Py.sum. now rewrite sum_from_ints. Qed.

(** the derivation of an average that is [None], over cleaned posts of
    which one at least holds an integer *)
Lemma derive_average_computes a d d' cl :
  derive_average (average_key a) (post_field a) d = Ok d' ->
  d !! "recent_posts" = Some (VList cl) ->
  Forall (cleaned (fun _ => True)) cl ->
  d !! average_key a = Some VNone ->
  field_values (post_field a) cl <> [] ->
  exists mean n,
    PyFloat.int_truediv (total (field_values (post_field a) cl))
      (Z.of_nat (length (field_values (post_field a) cl))) = Ok mean
    /\ PyFloat.to_int mean = Ok n
    /\ d' = <[average_key a := VInt n]> d.
Proof.
  unfold derive_average, Py.getitem. intros H Hp Hcl Ha Hne.
  rewrite Hp, Ha in H. cbn [bind Py.truthy Py.iterate] in H.
  assert (Ht : Py.truthy (VList cl) = true).
  { destruct cl; [now destruct Hne | reflexivity]. }
  cbn [Py.truthy] in Ht. rewrite Ht in H. cbn [negb] in H.
  rewrite (collect_field_cleaned a cl Hcl) in H. cbn [bind] in H.
  assert (Hm : forall (x y : result dict),
            match VInt <$> field_values (post_field a) cl with [] => x | _ :: _ => y end = y)
    by (destruct (field_values (post_field a) cl); [contradiction | reflexivity]).
  rewrite Hm in H. clear Hm.
  rewrite sum_ints in H. cbn [bind] in H. unfold Py.len, Py.truediv in H.
  cbn [Py.as_number bind] in H. rewrite length_fmap in H.
  destruct (PyFloat.int_truediv _ _) as [mean|e] eqn:Em; [|discriminate].
  cbn [bind Py.int] in H.
  destruct (PyFloat.to_int mean) as [n|e] eqn:En; [|discriminate].
  cbn [bind] in H. inversion H; subst. exists mean, n. auto.
Qed.

Lemma safe_int_none : _safe_int_enhanced VNone = Ok VNone.
Proof. reflexivity. Qed.

(** C3, as amended: when no statement of the validation raises and the
    candidate has no average likes (no average comments), the validated
    record holds the truncated mean [int(sum / len)] of the likes (the
    comments) of its posts, the posts without one left out, as soon as one
    post has one. *)
Theorem average_derived
    (pads_year : bool) (clock : nat -> PyDate.date) (data : dict) (username : string)
    (a : averaged) (posts : list pyval) :
  raises_nothing pads_year clock data username = true ->
  Py.get data (average_key a) = VNone ->
  _validate_and_clean_metrics_enhanced pads_year clock data username !! "recent_posts"
  = Some (VList posts) ->
  field_values (post_field a) posts <> [] ->
  exists mean n,
    PyFloat.int_truediv (total (field_values (post_field a) posts))
      (Z.of_nat (length (field_values (post_field a) posts))) = Ok mean
    /\ PyFloat.to_int mean = Ok n
    /\ _validate_and_clean_metrics_enhanced pads_year clock data username
         !! average_key a = Some (VInt n).
Proof.
  intros Hrun Ha Hposts Hne.
  apply raises_nothing_exec in Hrun.
  set (out := _validate_and_clean_metrics_enhanced pads_year clock data username) in *.
  clearbody out. unfold validation_body in Hrun.
  exec_step Hrun E1 d1. exec_step Hrun E2 d2. exec_step Hrun E3 d3.
  exec_step Hrun E4 d4. exec_step Hrun E5 d5. exec_step Hrun E6 d6.
  exec_step Hrun E7 d7. exec_step Hrun E8 d8. exec_step Hrun E9 d9.
  exec_step Hrun E10 d10. exec_step Hrun E11 d11. exec_step Hrun E12 d12.
  exec_step Hrun E13 d13. exec_step Hrun E14 d14. exec_step Hrun E15 d15.
  exec_step Hrun E16 d16. inversion Hrun; subst d16; clear Hrun.
  (* the posts are those the loop cleaned *)
  destruct (posts_cleaned _ _ _ _ _ E7) as (cl & Lp & Hcl).
  assert (cl = posts) as ->.
  { revert Hposts. frame E16. frame E15. frame E14. frame E13. frame E12. frame E11.
    frame E10. frame E9. frame E8. rewrite Lp. now intros [= ->]. }
  assert (Lp13 : d13 !! "recent_posts" = Some (VList posts)).
  { frame E13. frame E12. frame E11. frame E10. frame E9. frame E8. exact Lp. }
  destruct a; cbn [average_key post_field] in *.
  - (* the average likes *)
    destruct (set_normalized_lookup _ _ _ _ E11) as [v [Nv Lv]].
    assert (Hd10 : Py.get d10 "avg_likes_per_post" = VNone).
    { unfold Py.get in *. frame E10. frame E9. frame E8. frame E7. frame E6. frame E5.
      frame E4. frame E3. frame E2. frame E1. exact Ha. }
    rewrite Hd10, safe_int_none in Nv. inversion Nv; subst v; clear Nv.
    assert (La13 : d13 !! "avg_likes_per_post" = Some VNone)
      by (frame E13; frame E12; exact Lv).
    destruct (derive_average_computes Likes _ _ _ E14 Lp13 Hcl La13 Hne)
      as (mean & n & Hm & Hn & ->).
    exists mean, n. repeat split; [exact Hm | exact Hn |].
    frame E16. frame E15. apply lookup_insert_eq.
  - (* the average comments *)
    destruct (set_normalized_lookup _ _ _ _ E12) as [v [Nv Lv]].
    assert (Hd11 : Py.get d11 "avg_comments_per_post" = VNone).
    { unfold Py.get in *. frame E11. frame E10. frame E9. frame E8. frame E7. frame E6.
      frame E5. frame E4. frame E3. frame E2. frame E1. exact Ha. }
    rewrite Hd11, safe_int_none in Nv. inversion Nv; subst v; clear Nv.
    assert (Lc14 : d14 !! "avg_comments_per_post" = Some VNone)
      by (frame E14; frame E13; exact Lv).
    assert (Lp14 : d14 !! "recent_posts" = Some (VList posts))
      by (frame E14; exact Lp13).
    destruct (derive_average_computes Comments _ _ _ E15 Lp14 Hcl Lc14 Hne)
      as (mean & n & Hm & Hn & ->).
    exists mean, n. repeat split; [exact Hm | exact Hn |].
    frame E16. apply lookup_insert_eq.
Qed.

(** C3, witness: the average likes of the example *)
Lemma average_derived_witness :
  raises_nothing false noon average_example "bob" = true
  /\ field_values "likes" average_example_posts = [100; 200]
  /\ exists mean n,
      PyFloat.int_truediv (total (field_values "likes" average_example_posts))
        (Z.of_nat (length (field_values "likes" average_example_posts))) = Ok mean
      /\ PyFloat.to_int mean = Ok n
      /\ _validate_and_clean_metrics_enhanced false noon average_example "bob"
           !! "avg_likes_per_post" = Some (VInt n).
Proof.
  split; [vm_compute; reflexivity|]. split; [vm_compute; reflexivity|].
  apply (average_derived false noon average_example "bob" Likes average_example_posts);
    first [ vm_compute; reflexivity | vm_compute; discriminate ].
Defined.

(** the specification's example: the average of 100, nothing and 200 is 150 *)
Lemma average_example_value :
  _validate_and_clean_metrics_enhanced false noon average_example "bob"
    !! "avg_likes_per_post" = Some (VInt 150).
Proof. vm_compute. reflexivity. Qed.

(** C3, counterexample: posts with 1 and 2 likes get the average 1, which
    is not their arithmetic mean ([2 * 1] is not [1 + 2]): [int] truncates
    the quotient 1.5. *)
Lemma average_truncated :
  let data : dict :=
    {[ "recent_posts" :=
         VList [ VDict {[ "likes" := VInt 1 ]}; VDict {[ "likes" := VInt 2 ]} ] ]} in
  raises_nothing false noon data "bob" = true
  /\ Py.get data "avg_likes_per_post" = VNone
  /\ _validate_and_clean_metrics_enhanced false noon data "bob"
       !! "avg_likes_per_post" = Some (VInt 1)
  /\ Z.eqb (2 * 1) (1 + 2) = false.
Proof. vm_compute. repeat split; reflexivity. Qed.

(** * Further properties of the helper *)

(** ** What the prefilter reads *)

Lemma prefix_forallb p sub s :
  String.prefix sub s = true -> PyStr.forallb p s = true -> PyStr.forallb p sub = true.
Proof.
  revert s. induction sub as [|a sub IH]; intros s Hp Hs; [reflexivity|].
  destruct s as [|b s]; [discriminate|]. cbn [String.prefix] in Hp.
  destruct (ascii_dec a b) as [->|]; [|discriminate].
  cbn [PyStr.forallb] in *. apply andb_prop in Hs as [Hb Hs].
  now rewrite Hb, (IH s Hp Hs).
Qed.

Lemma contains_forallb p sub s :
  PyStr.contains sub s = true -> PyStr.forallb p s = true -> PyStr.forallb p sub = true.
Proof.
  induction s as [|c s IH]; cbn [PyStr.contains]; intros Hc Hs.
  - destruct (String.prefix sub EmptyString) eqn:E; [|discriminate].
    now apply (prefix_forallb p sub EmptyString).
  - destruct (String.prefix sub (String c s)) eqn:E.
    + now apply (prefix_forallb p sub (String c s)).
    + cbn [PyStr.forallb] in Hs. apply andb_prop in Hs as [_ Hs]. now apply IH.
Qed.

Lemma alpha_not_upper c : negb (PyStr.is_alpha c) = true -> negb (PyStr.is_upper c) = true.
Proof. by_cases_on_ascii c. Qed.

Lemma prefix_append sub b : String.prefix sub (sub +:+ b) = true.
Proof.
  induction sub as [|a sub IH]; [now destruct b|].
  rewrite append_cons. cbn [String.prefix]. now destruct (ascii_dec a a).
Qed.

Lemma contains_append a sub b : PyStr.contains sub (a +:+ sub +:+ b) = true.
Proof.
  induction a as [|c a IH].
  - rewrite append_nil_l.
    destruct (sub +:+ b) eqn:E; cbn [PyStr.contains]; rewrite <- E;
      now rewrite prefix_append.
  - rewrite append_cons. cbn [PyStr.contains]. rewrite IH.
    now destruct (String.prefix sub _).
Qed.

(** X1: the prefilter never flags a text that holds no letter: every entry
    of its list, the two patterns included, is looked up as a literal text
    with letters in it.  Counts, percentages and dates alone are not seen. *)
Theorem quick_check_needs_a_letter (text : string) :
  letterless text = true -> _quick_metrics_check text = false.
Proof.
  intros Hl. destruct (_quick_metrics_check text) eqn:E; [|reflexivity].
  apply quick_check_literal_substrings in E as [s [Hin Hc]].
  rewrite lower_id in Hc
    by (eapply forallb_impl; [apply alpha_not_upper | exact Hl]).
  pose proof (contains_forallb _ _ _ Hc Hl) as Hs.
  simpl in Hin.
  repeat (destruct Hin as [Hin|Hin];
          [inversion Hin; subst s; vm_compute in Hs; discriminate|]).
  destruct Hin.
Qed.

Lemma quick_check_needs_a_letter_witness :
  letterless "12,500 / 3.5% (2024-06-10)" = true
  /\ _quick_metrics_check "12,500 / 3.5% (2024-06-10)" = false.
Proof.
  split; [reflexivity|].
  apply (quick_check_needs_a_letter "12,500 / 3.5% (2024-06-10)"). reflexivity.
Defined.

(** X2: the prefilter flags every text in which one of its eleven words
    occurs, in whatever letter case and whatever surrounds it. *)
Theorem quick_check_finds_word_any_case (before word after : string) :
  In (PyStr.lower word) metric_words ->
  _quick_metrics_check (before +:+ word +:+ after) = true.
Proof.
  intros Hin. apply quick_check_literal_substrings.
  exists (PyStr.lower word). split.
  - simpl in Hin |- *.
    repeat (destruct Hin as [Hin|Hin]; [rewrite <- Hin; auto 20|]). destruct Hin.
  - rewrite !lower_app. apply contains_append.
Qed.

Lemma quick_check_finds_word_any_case_witness :
  In (PyStr.lower "FOLLOWERS") metric_words
  /\ _quick_metrics_check ("I have 12k " +:+ "FOLLOWERS" +:+ " now") = true.
Proof.
  split; [simpl; auto 20|].
  apply (quick_check_finds_word_any_case "I have 12k " "FOLLOWERS" " now").
  simpl. auto 20.
Defined.

(** ** The range of the normalizers *)

Lemma catch_raises {A} (body : result A) classes (dflt : A) e :
  catch body classes (Ok dflt) = Raise e ->
  body = Raise e /\ List.existsb (exc_isinstance e) classes = false.
Proof.
  unfold catch. destruct body as [a|e']; [discriminate|].
  destruct (List.existsb _ classes) eqn:E; [discriminate|].
  intros H. inversion H; subst. auto.
Qed.

Lemma of_str_raises s e : PyFloat.of_str s = Raise e -> e = ValueError.
Proof.
  unfold PyFloat.of_str.
  destruct (PyFloat.without_underscores _); [|now inversion 1].
  destruct (PyFloat.split_sign _) as [neg body].
  destruct (_ || _)%bool; [discriminate|].
  destruct (String.eqb _ _); [discriminate|].
  destruct (PyFloat.parse_decimal body) as [[m e10]|]; [discriminate | now inversion 1].
Qed.

Lemma to_int_raises f e :
  PyFloat.to_int f = Raise e -> e = ValueError \/ e = OverflowError.
Proof. destruct f; simpl; inversion 1; auto. Qed.

Lemma int_of_str_raises s e : Py.int_of_str s = Raise e -> e = ValueError.
Proof.
  unfold Py.int_of_str. destruct (PyFloat.without_underscores _); [|now inversion 1].
  destruct (PyFloat.split_sign _). destruct (_ && _)%bool; [discriminate | now inversion 1].
Qed.

Lemma of_int_raises z e : PyFloat.of_int z = Raise e -> e = OverflowError.
Proof. unfold PyFloat.of_int. destruct (PyFloat.nearest_of_Z z); now inversion 1. Qed.

Ltac raise_cases H :=
  repeat match type of H with
  | bind ?r _ = Raise _ =>
      let E := fresh "E" in destruct r eqn:E; cbn [bind] in H
  | (if ?c then _ else _) = Raise _ => destruct c
  | Ok _ = Raise _ => discriminate H
  | Raise _ = Raise _ => inversion H; subst; clear H
  end.

(** X3: [_safe_int_enhanced] returns [None] or an [int], whatever it is
    given, and the only exception that leaves it is [OverflowError]. *)
Theorem safe_int_range (value : pyval) :
  match _safe_int_enhanced value with
  | Ok v => int_or_none v
  | Raise e => e = OverflowError
  end.
Proof.
  destruct (_safe_int_enhanced value) as [v|e] eqn:E;
    [now apply (safe_int_returns value)|].
  unfold _safe_int_enhanced in E.
  destruct value as [| b | z | f | s | l | d]; try discriminate;
    apply catch_raises in E as [E Hc].
  - cbn [Py.int] in E. destruct (PyFloat.to_int f) eqn:Ef; cbn [bind] in E;
      [discriminate|]. inversion E; subst.
    destruct (to_int_raises _ _ Ef) as [->| ->]; [discriminate | reflexivity].
  - unfold scale_and_truncate in E.
    raise_cases E;
      repeat match goal with
      | H : PyFloat.of_str _ = Raise _ |- _ => apply of_str_raises in H; subst
      | H : Py.int_of_str _ = Raise _ |- _ => apply int_of_str_raises in H; subst
      | H : PyFloat.to_int _ = Raise _ |- _ =>
          apply to_int_raises in H; destruct H; subst
      end;
      first [discriminate | reflexivity].
Qed.

(** X4: [_safe_float] returns [None] or a [float], whatever it is given,
    and the only exception that leaves it is [OverflowError] (an [int]
    beyond the range of a [float]). *)
Theorem safe_float_range (value : pyval) :
  match _safe_float value with
  | Ok v => float_or_none v
  | Raise e => e = OverflowError /\ exists z, value = VInt z
  end.
Proof.
  destruct (_safe_float value) as [v|e] eqn:E;
    [now apply (safe_float_returns value)|].
  unfold _safe_float in E.
  destruct value as [| b | z | f | s | l | d]; try discriminate;
    apply catch_raises in E as [E Hc].
  - cbn [Py.float] in E. destruct (PyFloat.of_int z) eqn:Ez; cbn [bind] in E;
      [discriminate|]. inversion E; subst.
    apply of_int_raises in Ez. subst. eauto.
  - raise_cases E.
    match goal with H : PyFloat.of_str _ = Raise _ |- _ => apply of_str_raises in H end.
    subst. discriminate.
Qed.

(** ** Counts written with separators *)

Lemma filter_lower p s :
  (forall c, p (PyStr.lower_char c) = p c) ->
  (forall c, p c = true -> PyStr.lower_char c = c) ->
  PyStr.filter p (PyStr.lower s) = PyStr.filter p s.
Proof.
  intros H1 H2. induction s as [|c s IH]; [reflexivity|].
  cbn [PyStr.lower PyStr.filter]. rewrite H1, IH.
  destruct (p c) eqn:E; [now rewrite (H2 c E) | reflexivity].
Qed.

Lemma filter_lstrip p s :
  (forall c, PyStr.is_space c = true -> p c = false) ->
  PyStr.filter p (PyStr.lstrip s) = PyStr.filter p s.
Proof.
  intros H. induction s as [|c s IH]; [reflexivity|].
  cbn [PyStr.lstrip]. destruct (PyStr.is_space c) eqn:E; [|reflexivity].
  cbn [PyStr.filter]. now rewrite (H c E).
Qed.

Lemma filter_rstrip p s :
  (forall c, PyStr.is_space c = true -> p c = false) ->
  PyStr.filter p (PyStr.rstrip s) = PyStr.filter p s.
Proof.
  intros H. induction s as [|c s IH]; [reflexivity|].
  cbn [PyStr.rstrip]. destruct (PyStr.rstrip s) as [|d r] eqn:E.
  - cbn [PyStr.filter] in IH. cbn [PyStr.filter]. rewrite <- IH.
    destruct (PyStr.is_space c) eqn:Ec; [now rewrite (H c Ec) | reflexivity].
  - cbn [PyStr.filter]. cbn [PyStr.filter] in IH. now rewrite IH.
Qed.

Lemma filter_strip p s :
  (forall c, PyStr.is_space c = true -> p c = false) ->
  PyStr.filter p (PyStr.strip s) = PyStr.filter p s.
Proof.
  intros H. unfold PyStr.strip. now rewrite filter_rstrip, filter_lstrip.
Qed.

Lemma digit_or_dot_lower c : is_digit_or_dot (PyStr.lower_char c) = is_digit_or_dot c.
Proof.
  apply Bool.eqb_prop. revert c. apply ascii_forall with
    (P := fun c => Bool.eqb (is_digit_or_dot (PyStr.lower_char c)) (is_digit_or_dot c)).
  vm_compute. reflexivity.
Qed.

Lemma digit_or_dot_lowered c : is_digit_or_dot c = true -> PyStr.lower_char c = c.
Proof.
  intros H. unfold PyStr.lower_char. now rewrite (digit_or_dot_not_upper c H).
Qed.

Lemma space_not_digit_or_dot c : PyStr.is_space c = true -> is_digit_or_dot c = false.
Proof. by_cases_on_ascii c. Qed.

Lemma filter_digits_no_point s :
  PyStr.contains "." s = false ->
  PyStr.filter is_digit_or_dot s = PyStr.filter PyStr.is_digit s.
Proof.
  rewrite contains_char. induction s as [|c s IH]; [reflexivity|].
  cbn [PyStr.existsb PyStr.filter]. intros H. apply orb_false_iff in H as [Hc Hs].
  rewrite (IH Hs). unfold is_digit_or_dot.
  rewrite Ascii.eqb_sym in Hc. now rewrite Hc, orb_false_r.
Qed.

Lemma digits_no_point s :
  PyStr.forallb PyStr.is_digit s = true -> PyStr.contains "." s = false.
Proof.
  rewrite contains_char. intros H. apply existsb_false_forallb.
  eapply forallb_impl; [|exact H]. intros c. by_cases_on_ascii c.
Qed.

(** X5: a text with no decimal point and no [k]/[m] suffix is read as the
    integer its digits spell, every other character being dropped
    (separators, signs, words), and as [None] when it holds no digit.
    The bound is the longest text of digits [int] accepts by default. *)
Theorem safe_int_reads_digits (s : string) :
  has_scale_suffix s = false ->
  PyStr.contains "." s = false ->
  (String.length (PyStr.filter PyStr.is_digit s) <= 4300)%nat ->
  _safe_int_enhanced (VStr s)
  = Ok (if PyStr.is_empty (PyStr.filter PyStr.is_digit s) then VNone
        else VInt (PyFloat.digits_val (PyStr.filter PyStr.is_digit s))).
Proof.
  unfold has_scale_suffix. cbv zeta. intros H Hdot _.
  apply orb_false_iff in H as [Hk Hm].
  unfold _safe_int_enhanced. rewrite Hk, Hm.
  rewrite (filter_strip _ _ space_not_digit_or_dot).
  rewrite (filter_lower _ _ digit_or_dot_lower digit_or_dot_lowered).
  rewrite (filter_digits_no_point s Hdot).
  set (digits := PyStr.filter PyStr.is_digit s).
  assert (Hd : PyStr.forallb PyStr.is_digit digits = true) by apply filter_forallb.
  rewrite (digits_no_point digits Hd).
  destruct (PyStr.is_empty digits) eqn:He; [reflexivity|].
  rewrite (int_of_str_digits digits Hd) by (intros E; now rewrite E in He).
  reflexivity.
Qed.

Lemma safe_int_reads_digits_witness :
  has_scale_suffix "1,250 likes" = false
  /\ PyStr.contains "." "1,250 likes" = false
  /\ _safe_int_enhanced (VStr "1,250 likes") = Ok (VInt 1250).
Proof.
  split; [reflexivity|]. split; [reflexivity|].
  apply (safe_int_reads_digits "1,250 likes"); [reflexivity | reflexivity | simpl; lia].
Defined.

(** ** Normalizing twice *)

(** X6: what [_safe_int_enhanced] returns, it returns unchanged when
    given it again: a scaled count is never scaled twice. *)
Theorem safe_int_enhanced_idempotent (value v : pyval) :
  _safe_int_enhanced value = Ok v -> _safe_int_enhanced v = Ok v.
Proof. intros H. apply safe_int_fixed. now apply (safe_int_returns value). Qed.

Lemma safe_int_enhanced_idempotent_witness :
  _safe_int_enhanced (VStr "12.5k") = Ok (VInt 12500)
  /\ _safe_int_enhanced (VInt 12500) = Ok (VInt 12500).
Proof.
  split; [vm_compute; reflexivity|].
  apply (safe_int_enhanced_idempotent (VStr "12.5k")). vm_compute. reflexivity.
Defined.

(** X7: what [_safe_float] returns, it returns unchanged when given it
    again. *)
Theorem safe_float_idempotent_on_results (value v : pyval) :
  _safe_float value = Ok v -> _safe_float v = Ok v.
Proof. intros H. apply safe_float_fixed. now apply (safe_float_returns value). Qed.

Lemma safe_float_idempotent_on_results_witness :
  _safe_float (VStr "3.5%") = Ok (VFloat three_and_a_half)
  /\ _safe_float (VFloat three_and_a_half) = Ok (VFloat three_and_a_half).
Proof.
  split; [vm_compute; reflexivity|].
  apply (safe_float_idempotent_on_results (VStr "3.5%")). vm_compute. reflexivity.
Defined.

(** ** Percentages *)

Lemma number_char_not_percent_or_comma c :
  is_number_char c = true -> negb (is_percent_or_comma c) = true.
Proof. by_cases_on_ascii c. Qed.

Lemma filter_marks s :
  PyStr.forallb is_mark s = true ->
  PyStr.forallb PyStr.is_space (PyStr.filter (fun c => negb (is_percent_or_comma c)) s)
  = true.
Proof.
  induction s as [|c s IH]; [reflexivity|]. cbn [PyStr.forallb PyStr.filter].
  intros H. apply andb_prop in H as [Hc Hs].
  destruct (is_percent_or_comma c) eqn:E; cbn [negb]; [now apply IH|].
  cbn [PyStr.forallb]. rewrite (IH Hs), andb_true_r.
  unfold is_mark in Hc. rewrite E in Hc. apply Ascii.eqb_eq in Hc. now subst.
Qed.

Lemma lstrip_spaces_app a b :
  PyStr.forallb PyStr.is_space a = true -> PyStr.lstrip (a +:+ b) = PyStr.lstrip b.
Proof.
  induction a as [|c a IH]; [now rewrite append_nil_l|].
  cbn [PyStr.forallb]. intros H. apply andb_prop in H as [Hc Ha].
  rewrite append_cons. cbn [PyStr.lstrip]. now rewrite Hc, IH.
Qed.

Lemma rstrip_spaces s : PyStr.forallb PyStr.is_space s = true -> PyStr.rstrip s = EmptyString.
Proof.
  induction s as [|c s IH]; [reflexivity|]. cbn [PyStr.forallb PyStr.rstrip].
  intros H. apply andb_prop in H as [Hc Hs]. now rewrite (IH Hs), Hc.
Qed.

Lemma rstrip_app_spaces a b :
  PyStr.forallb (fun c => negb (PyStr.is_space c)) a = true -> a <> EmptyString ->
  PyStr.forallb PyStr.is_space b = true ->
  PyStr.rstrip (a +:+ b) = a.
Proof.
  intros Ha Hne Hb. induction a as [|c a IH]; [congruence|].
  rewrite append_cons. cbn [PyStr.rstrip]. cbn [PyStr.forallb] in Ha.
  apply andb_prop in Ha as [Hc Ha]. apply negb_true_iff in Hc.
  destruct a as [|d a].
  - rewrite append_nil_l, (rstrip_spaces b Hb). now rewrite Hc.
  - rewrite IH by (assumption || discriminate). reflexivity.
Qed.

(** X8: a decimal number with percent signs, commas and blanks before
    and after it (as in [3.5%] or [ 1250 %]) is read by [_safe_float] as
    the float of the number. *)
Theorem safe_float_reads_percentage (before s after : string) :
  decimal_number s = true ->
  PyStr.forallb is_mark before = true -> PyStr.forallb is_mark after = true ->
  _safe_float (VStr (before +:+ s +:+ after)) = Ok (VFloat (decimal_value s)).
Proof.
  intros Hs Hb Ha. pose proof (decimal_number_chars s Hs) as Hchars.
  unfold _safe_float. cbv zeta. rewrite !filter_app.
  rewrite (filter_id _ s)
    by (eapply forallb_impl; [apply number_char_not_percent_or_comma | exact Hchars]).
  assert (Hns : PyStr.forallb (fun c => negb (PyStr.is_space c)) s = true).
  { eapply forallb_impl; [|exact Hchars].
    intros c Hc. now rewrite (number_char_not_space c Hc). }
  assert (Hne : s <> EmptyString).
  { intros ->. discriminate. }
  unfold PyStr.strip. rewrite (lstrip_spaces_app _ _ (filter_marks before Hb)).
  replace (PyStr.lstrip (s +:+ PyStr.filter (fun c => negb (is_percent_or_comma c)) after))
    with (s +:+ PyStr.filter (fun c => negb (is_percent_or_comma c)) after).
  2:{ destruct s as [|c s']; [congruence|]. rewrite append_cons. cbn [PyStr.lstrip].
      cbn [PyStr.forallb] in Hns. apply andb_prop in Hns as [Hc _].
      apply negb_true_iff in Hc. now rewrite Hc. }
  rewrite (rstrip_app_spaces s _ Hns Hne (filter_marks after Ha)).
  destruct s as [|c s'] eqn:Es; [congruence|]. cbn [PyStr.is_empty]. rewrite <- Es in *.
  rewrite (of_str_decimal_number s Hs). reflexivity.
Qed.

Lemma safe_float_reads_percentage_witness :
  decimal_number "3.5" = true
  /\ _safe_float (VStr (" " +:+ "3.5" +:+ " %")) = Ok (VFloat three_and_a_half).
Proof.
  split; [reflexivity|].
  apply (safe_float_reads_percentage " " "3.5" " %"); reflexivity.
Defined.

(** ** The media type *)

Lemma lower_char_idempotent c : PyStr.lower_char (PyStr.lower_char c) = PyStr.lower_char c.
Proof.
  apply Ascii.eqb_eq. revert c. apply ascii_forall with
    (P := fun c => Ascii.eqb (PyStr.lower_char (PyStr.lower_char c)) (PyStr.lower_char c)).
  vm_compute. reflexivity.
Qed.

Lemma lower_idempotent s : PyStr.lower (PyStr.lower s) = PyStr.lower s.
Proof.
  induction s as [|c s IH]; [reflexivity|]. cbn [PyStr.lower].
  now rewrite lower_char_idempotent, IH.
Qed.

(** what [_validate_media_type] returns is the same for a text and for
    its lowercase form *)
Lemma validate_media_type_lowered s t :
  _validate_media_type (VStr s) = Ok t ->
  _validate_media_type (VStr (PyStr.lower s)) = Ok t.
Proof.
  unfold _validate_media_type. cbn [Py.truthy].
  destruct s as [|c s]; [intros E; exact E|]. cbn [PyStr.lower PyStr.is_empty negb].
  now rewrite lower_char_idempotent, lower_idempotent.
Qed.

(** X9: [_validate_media_type] answers one of the four media types for
    every text and for every falsy value, and the same one for a text and
    for its lowercase form; every other value, truthy and not a text (a
    number, a list), makes it raise [AttributeError]. *)
Theorem media_type_range (media_type : pyval) :
  ((Py.truthy media_type = false \/ exists s, media_type = VStr s) ->
   exists t,
     _validate_media_type media_type = Ok t
     /\ In t valid_types
     /\ forall s, media_type = VStr s ->
          _validate_media_type (VStr (PyStr.lower s)) = Ok t)
  /\ (Py.truthy media_type = true -> (forall s, media_type <> VStr s) ->
      _validate_media_type media_type = Raise AttributeError).
Proof.
  split.
  - intros Hcase.
    assert (Hok : exists t, _validate_media_type media_type = Ok t).
    { unfold _validate_media_type.
      destruct (Py.truthy media_type) eqn:Ht; cbn [negb]; [|eauto].
      destruct Hcase as [Hf|[s ->]]; [discriminate|].
      destruct (List.existsb _ valid_types); [eauto|].
      destruct (assoc _ type_mapping); eauto. }
    destruct Hok as [t Ht]. exists t. split; [exact Ht|].
    split; [now apply (validate_media_type_returns media_type)|].
    intros s ->. now apply validate_media_type_lowered.
  - intros Ht Hs. unfold _validate_media_type. rewrite Ht. cbn [negb].
    destruct media_type; try reflexivity. now destruct (Hs s).
Qed.

Lemma media_type_range_witness :
  _validate_media_type (VStr "Reel") = Ok "reel"
  /\ _validate_media_type (VStr "reel") = Ok "reel"
  /\ _validate_media_type VNone = Ok "photo"
  /\ _validate_media_type (VInt 3) = Raise AttributeError.
Proof.
  destruct (media_type_range (VStr "Reel")) as [Htext _].
  destruct Htext as (t & Ht & _ & Hlower); [right; now exists "Reel"|].
  assert (t = "reel") as -> by (vm_compute in Ht; congruence).
  split; [exact Ht|]. split; [exact (Hlower "Reel" eq_refl)|].
  destruct (media_type_range VNone) as [Hfalsy _].
  destruct Hfalsy as (t' & Ht' & _); [now left|].
  split; [rewrite Ht'; vm_compute in Ht'; congruence|].
  destruct (media_type_range (VInt 3)) as [_ Hraise].
  apply Hraise; [reflexivity | discriminate].
Defined.

(** ** The dates of the posts *)

(** X10: whatever it is given, [_validate_date] returns the print of a
    date of the calendar; for a value that is not a text it is the print
    of the current day. *)
Theorem validate_date_always_a_date
    (pads_year : bool) (today : PyDate.date) (date_str : pyval) :
  PyDate.valid today = true ->
  (exists d, PyDate.valid d = true
             /\ _validate_date pads_year today date_str = PyDate.strftime pads_year d)
  /\ ((forall s, date_str <> VStr s) ->
      _validate_date pads_year today date_str = PyDate.strftime pads_year today).
Proof.
  intros Hv. split; [now apply validate_date_prints|].
  intros Hs. unfold _validate_date.
  destruct (negb (Py.truthy date_str)); [reflexivity|].
  destruct date_str; try reflexivity. now destruct (Hs s).
Qed.

Lemma validate_date_always_a_date_witness :
  PyDate.valid (noon 0%nat) = true
  /\ (exists d, PyDate.valid d = true
        /\ _validate_date false (noon 0%nat) (VInt 20240610) = PyDate.strftime false d)
  /\ ((forall s, VInt 20240610 <> VStr s) ->
      _validate_date false (noon 0%nat) (VInt 20240610)
      = PyDate.strftime false (noon 0%nat)).
Proof.
  split; [reflexivity|].
  apply (validate_date_always_a_date false (noon 0%nat) (VInt 20240610)). reflexivity.
Defined.

Lemma four_digit_years_checked :
  List.forallb
    (fun n => String.eqb (Py.str_of_nat n) (PyDate.pad4 (Z.of_nat n)))
    (seq 1000 (Z.to_nat 9000)) = true.
Proof. vm_compute. reflexivity. Qed.

Lemma four_digit_year_text pads y :
  1000 <= y <= 9999 -> PyDate.year_text pads y = PyDate.pad4 y.
Proof.
  intros Hy. destruct pads; [reflexivity|]. unfold PyDate.year_text.
  pose proof four_digit_years_checked as H. rewrite forallb_forall in H.
  specialize (H (Z.to_nat y)). rewrite Z2Nat.id in H by lia.
  apply String.eqb_eq, H, in_seq. lia.
Qed.

(** X11: a date written [YYYY-MM-DD], of the calendar and with a year of
    four digits, is returned as it is, whatever the current day. *)
Theorem validate_date_keeps_iso_date
    (pads_year : bool) (today d : PyDate.date) :
  PyDate.valid d = true -> 1000 <= PyDate.year d ->
  _validate_date pads_year today (VStr (PyDate.strftime true d))
  = PyDate.strftime true d.
Proof.
  intros Hv Hy. unfold _validate_date. rewrite strftime_truthy. cbn [negb].
  rewrite (resolve_date_printed today d Hv).
  unfold PyDate.strftime. rewrite four_digit_year_text; [reflexivity|].
  unfold PyDate.valid in Hv. repeat (apply andb_prop in Hv as [Hv ?]).
  repeat match goal with H : Z.leb _ _ = true |- _ => apply Z.leb_le in H end. lia.
Qed.

Lemma validate_date_keeps_iso_date_witness :
  PyDate.valid (PyDate.mkdate 2023 12 31) = true
  /\ _validate_date false (noon 0%nat) (VStr "2023-12-31") = "2023-12-31".
Proof.
  split; [reflexivity|].
  apply (validate_date_keeps_iso_date false (noon 0%nat) (PyDate.mkdate 2023 12 31));
    [reflexivity | simpl; lia].
Defined.

(** *** Relative dates *)

Lemma first_digits_found before digits after :
  PyStr.forallb (fun c => negb (PyStr.is_digit c)) before = true ->
  PyStr.forallb PyStr.is_digit digits = true -> digits <> EmptyString ->
  match after with String c _ => PyStr.is_digit c = false | EmptyString => True end ->
  first_digits (before +:+ digits +:+ after) = Some digits.
Proof.
  intros Hb Hd Hne Ha. induction before as [|c before IH].
  - rewrite append_nil_l. destruct digits as [|c digits]; [congruence|].
    rewrite append_cons. cbn [first_digits]. cbn [PyStr.forallb] in Hd.
    apply andb_prop in Hd as [Hc Hd]. rewrite Hc. f_equal.
    rewrite <- append_cons.
    destruct after as [|a after].
    + rewrite append_nil_r, span_all; [reflexivity|]. cbn [PyStr.forallb].
      now rewrite Hc, Hd.
    + rewrite span_app; [reflexivity | | exact Ha]. cbn [PyStr.forallb].
      now rewrite Hc, Hd.
  - cbn [PyStr.forallb] in Hb. apply andb_prop in Hb as [Hc Hb].
    apply negb_true_iff in Hc. rewrite append_cons. cbn [first_digits].
    rewrite Hc. now apply IH.
Qed.

(** X12: in a text that speaks of days ago (and not of yesterday) the
    first number is taken as the count of days, and the date is the
    current day less that count; with weeks in place of days, less seven
    times the count. *)
Theorem validate_date_counts_back
    (pads_year : bool) (today d : PyDate.date) (before digits after : string) (unit : Z) :
  let text := before +:+ digits +:+ after in
  PyStr.forallb (fun c => negb (PyStr.is_digit c)) before = true ->
  PyStr.forallb PyStr.is_digit digits = true -> digits <> EmptyString ->
  (String.length digits <= 4300)%nat ->
  match after with String c _ => PyStr.is_digit c = false | EmptyString => True end ->
  PyStr.contains "ago" (PyStr.lower text) = true ->
  PyStr.contains "yesterday" (PyStr.lower text) = false ->
  (PyStr.contains "day" (PyStr.lower text) = true /\ unit = 1
   \/ PyStr.contains "day" (PyStr.lower text) = false
      /\ PyStr.contains "week" (PyStr.lower text) = true /\ unit = 7) ->
  PyDate.minus_days today (unit * PyFloat.digits_val digits) = Ok d ->
  _validate_date pads_year today (VStr text) = PyDate.strftime pads_year d.
Proof.
  cbv zeta. intros Hb Hd Hne _ Ha Hago Hy Hunit Hminus.
  unfold _validate_date.
  assert (Ht : Py.truthy (VStr (before +:+ digits +:+ after)) = true).
  { cbn [Py.truthy]. destruct (before +:+ digits +:+ after) eqn:E; [|reflexivity].
    try rewrite E in Hago. discriminate. }
  rewrite Ht. cbn [negb]. unfold resolve_date, relative_date. cbv zeta.
  rewrite Hago, Hy. cbn [orb].
  rewrite (first_digits_found before digits after Hb Hd Hne Ha).
  rewrite (int_of_str_digits digits Hd Hne). cbn [bind].
  destruct Hunit as [[Hday ->]|[Hday [Hweek ->]]].
  - rewrite Hday. rewrite Z.mul_1_l in Hminus. rewrite Hminus. reflexivity.
  - rewrite Hday, Hweek. rewrite Hminus. reflexivity.
Qed.

Lemma validate_date_counts_back_witness :
  PyDate.minus_days (noon 0%nat) (1 * PyFloat.digits_val "3") = Ok (PyDate.mkdate 2024 6 7)
  /\ _validate_date false (noon 0%nat) (VStr ("posted " +:+ "3" +:+ " days ago"))
     = "2024-06-07".
Proof.
  split; [vm_compute; reflexivity|].
  apply (validate_date_counts_back false (noon 0%nat) (PyDate.mkdate 2024 6 7)
           "posted " "3" " days ago" 1);
    first [ reflexivity | discriminate | simpl; lia | now left | vm_compute; reflexivity ].
Defined.

(** ** What the validation keeps *)

Lemma not_in_keys k (keys : list string) :
  List.forallb (fun w => negb (String.eqb k w)) keys = true -> k ∉ keys.
Proof.
  intros H Hin. rewrite forallb_forall in H.
  apply list_elem_of_In in Hin. specialize (H k Hin).
  now rewrite String.eqb_refl in H.
Qed.

(** X13: the validated record holds a Boolean under [has_metrics], the
    truth value of what the candidate held there ([False] when it held
    nothing), also when a later statement of the validation raises. *)
Theorem has_metrics_always_boolean
    (pads_year : bool) (clock : nat -> PyDate.date) (data : dict) (username : string) :
  _validate_and_clean_metrics_enhanced pads_year clock data username !! "has_metrics"
  = Some (VBool (Py.truthy (Py.get_default data "has_metrics" (VBool false)))).
Proof.
  unfold _validate_and_clean_metrics_enhanced.
  pose proof (validation_body_writes pads_year clock username) as Hw.
  unfold validation_body, written_keys in *.
  apply Forall2_cons in Hw as [_ Hw].
  erewrite run_cons_ok by reflexivity.
  erewrite (run_frame _ _ _ _ Hw); [apply lookup_insert_eq|].
  apply not_in_keys. reflexivity.
Qed.

Lemma insert_keeps (d : dict) w v k : is_Some (d !! k) -> is_Some (<[w := v]> d !! k).
Proof.
  intros H. destruct (decide (k = w)) as [->|Hne].
  - rewrite lookup_insert_eq. eauto.
  - now rewrite lookup_insert_ne.
Qed.

Lemma validation_body_sets_keys p c u :
  Forall sets_at_most_one_key (validation_body p c u).
Proof.
  unfold validation_body.
  repeat (apply List.Forall_cons; [intros d d' H|]); [..|apply List.Forall_nil].
  - inversion H; subst. eauto.
  - unfold set_influencer_name in H. destruct (_ || _)%bool; inversion H; subst; eauto.
  - inversion H; subst. eauto.
  - inversion H; subst. eauto.
  - inversion H; subst. eauto.
  - inversion H; subst. eauto.
  - unfold set_recent_posts in H. destruct (_ && _)%bool.
    + bind_inv H. bind_inv H. inversion H; subst. eauto.
    + inversion H; subst. eauto.
  - unfold set_normalized in H. bind_inv H. inversion H; subst. eauto.
  - unfold set_normalized in H. bind_inv H. inversion H; subst. eauto.
  - unfold set_normalized in H. bind_inv H. inversion H; subst. eauto.
  - unfold set_normalized in H. bind_inv H. inversion H; subst. eauto.
  - unfold set_normalized in H. bind_inv H. inversion H; subst. eauto.
  - unfold set_normalized in H. bind_inv H. inversion H; subst. eauto.
  - destruct (derive_average_writes_int _ _ _ _ H) as [->|[n ->]]; eauto.
  - destruct (derive_average_writes_int _ _ _ _ H) as [->|[n ->]]; eauto.
  - destruct (derive_engagement_rate_writes_float _ _ H) as [->|[f ->]]; eauto.
Qed.

(** X14: the validation leaves every key it does not name as the
    candidate had it (a [story_metrics] or an [error] entry passes
    through), and it removes no key. *)
Theorem validation_keeps_other_keys
    (pads_year : bool) (clock : nat -> PyDate.date) (data : dict) (username k : string) :
  (k ∉ written_keys ->
   _validate_and_clean_metrics_enhanced pads_year clock data username !! k = data !! k)
  /\ (is_Some (data !! k) ->
      is_Some (_validate_and_clean_metrics_enhanced pads_year clock data username !! k)).
Proof.
  unfold _validate_and_clean_metrics_enhanced. split.
  - intros Hk. apply (run_frame _ written_keys);
      [apply validation_body_writes | exact Hk].
  - intros Hk. apply (run_invariant (fun d => is_Some (d !! k))); [|exact Hk].
    eapply Forall_impl; [apply validation_body_sets_keys|].
    intros s Hs d d' Hd E. destruct (Hs d d' E) as [->|[w [v ->]]];
      [exact Hd | now apply insert_keeps].
Qed.

Lemma validation_keeps_other_keys_witness :
  _validate_and_clean_metrics_enhanced false noon record_with_story "bob"
    !! "story_metrics" = Some (VStr "1.2k views")
  /\ is_Some (_validate_and_clean_metrics_enhanced false noon record_with_story "bob"
                !! "story_metrics").
Proof.
  destruct (validation_keeps_other_keys false noon record_with_story "bob" "story_metrics")
    as [H1 H2].
  split.
  - rewrite H1; [reflexivity|]. apply not_in_keys. reflexivity.
  - apply H2. vm_compute. eauto.
Defined.

(** ** The posts of a validated record *)

Lemma clean_posts_from_wellformed pads clock u posts :
  (forall i, PyDate.valid (clock i) = true) ->
  forall i cl, clean_posts_from pads clock u i posts = Ok cl ->
  Forall (cleaned (printed_date pads)) cl /\ length cl = length posts.
Proof.
  intros Hv. induction posts as [|p posts IH]; intros i cl H; cbn [clean_posts_from] in H.
  - inversion H. split; [constructor | reflexivity].
  - apply bind_ok in H as (p' & Ep & H). apply bind_ok in H as (cl' & Ecl & H).
    inversion H; subst; clear H.
    destruct (clean_post_cleaned _ _ _ _ _ _ Ep) as (m & _ & Hc).
    destruct (IH _ _ Ecl) as [Hcl Hlen]. split; [|cbn [length]; now rewrite Hlen].
    constructor; [|exact Hcl].
    eapply cleaned_impl; [|exact Hc]. intros date ->.
    destruct (validate_date_prints pads (clock i) (Py.get m "post_date") (Hv i))
      as (d & Hd & E).
    exists d. auto.
Qed.

Lemma set_recent_posts_wellformed pads clock u d d' :
  (forall i, PyDate.valid (clock i) = true) ->
  set_recent_posts pads clock u d = Ok d' ->
  exists cl, d' !! "recent_posts" = Some (VList cl)
    /\ Forall (cleaned (printed_date pads)) cl
    /\ forall given, d !! "recent_posts" = Some (VList given) -> length cl = length given.
Proof.
  intros Hv H. unfold set_recent_posts, Py.has_key, Py.get in H.
  match type of H with (if ?c then _ else _) = _ => destruct c eqn:Ec end.
  - apply bind_ok in H as (posts & Eposts & H). apply bind_ok in H as (cl & Ecl & H).
    inversion H; subst; clear H. exists cl.
    destruct (clean_posts_from_wellformed _ _ _ _ Hv _ _ Ecl) as [Hcl Hlen].
    split; [apply lookup_insert_eq|]. split; [exact Hcl|].
    intros given Hg. rewrite Hg in Eposts. cbn [from_option id Py.iterate] in Eposts.
    inversion Eposts; subst. exact Hlen.
  - inversion H; subst; clear H. exists []. split; [apply lookup_insert_eq|].
    split; [constructor|]. intros given Hg. rewrite Hg in Ec.
    cbn [from_option id Py.truthy] in Ec.
    rewrite bool_decide_eq_true_2 in Ec by eauto. cbn [andb] in Ec.
    destruct given; [reflexivity | discriminate].
Qed.

(** X15: when no statement of the validation raises, the record holds a
    list of posts under [recent_posts], as many as the candidate listed,
    and each is a dictionary of the eleven post fields with a post id and
    a link that are not empty, one of the four media types, counts that
    are [int] or [None], and the print of a date of the calendar. *)
Theorem validated_posts_wellformed
    (pads_year : bool) (clock : nat -> PyDate.date) (data : dict) (username : string) :
  (forall i, PyDate.valid (clock i) = true) ->
  raises_nothing pads_year clock data username = true ->
  exists posts,
    _validate_and_clean_metrics_enhanced pads_year clock data username !! "recent_posts"
    = Some (VList posts)
    /\ Forall (cleaned (printed_date pads_year)) posts
    /\ forall given, data !! "recent_posts" = Some (VList given) ->
         length posts = length given.
Proof.
  intros Hv Hrun. apply raises_nothing_exec in Hrun.
  set (out := _validate_and_clean_metrics_enhanced pads_year clock data username) in *.
  clearbody out. unfold validation_body in Hrun.
  exec_step Hrun E1 d1. exec_step Hrun E2 d2. exec_step Hrun E3 d3.
  exec_step Hrun E4 d4. exec_step Hrun E5 d5. exec_step Hrun E6 d6.
  exec_step Hrun E7 d7. exec_step Hrun E8 d8. exec_step Hrun E9 d9.
  exec_step Hrun E10 d10. exec_step Hrun E11 d11. exec_step Hrun E12 d12.
  exec_step Hrun E13 d13. exec_step Hrun E14 d14. exec_step Hrun E15 d15.
  exec_step Hrun E16 d16. inversion Hrun; subst d16; clear Hrun.
  destruct (set_recent_posts_wellformed _ _ _ _ _ Hv E7) as (cl & Lp & Hcl & Hlen).
  exists cl. split; [|split; [exact Hcl|]].
  - frame E16. frame E15. frame E14. frame E13. frame E12. frame E11.
    frame E10. frame E9. frame E8. exact Lp.
  - intros given Hg. apply Hlen.
    frame E6. frame E5. frame E4. frame E3. frame E2. frame E1. exact Hg.
Qed.

Lemma validated_posts_wellformed_witness :
  (forall i, PyDate.valid (noon i) = true)
  /\ raises_nothing false noon raw_record "alice" = true
  /\ exists posts,
       _validate_and_clean_metrics_enhanced false noon raw_record "alice"
         !! "recent_posts" = Some (VList posts)
       /\ Forall (cleaned (printed_date false)) posts
       /\ forall given, raw_record !! "recent_posts" = Some (VList given) ->
            length posts = length given.
Proof.
  split; [intros i; reflexivity|]. split; [vm_compute; reflexivity|].
  apply (validated_posts_wellformed false noon raw_record "alice");
    [intros i; reflexivity | vm_compute; reflexivity].
Defined.

(** ** A post that is no dictionary *)

Lemma clean_posts_from_malformed pads clock u posts p :
  In p posts -> (forall m, p <> VDict m) ->
  forall i, exists e, clean_posts_from pads clock u i posts = Raise e.
Proof.
  intros Hin Hp. induction posts as [|q posts IH]; [destruct Hin|].
  intros i. cbn [clean_posts_from].
  destruct (clean_post pads (clock i) u i q) as [q'|e] eqn:Eq; cbn [bind]; [|eauto].
  destruct Hin as [->|Hin].
  - destruct (clean_post_cleaned _ _ _ _ _ _ Eq) as (m & -> & _). now destruct (Hp m).
  - destruct (IH Hin (S i)) as [e ->]. cbn [bind]. eauto.
Qed.

Lemma defaults_body_writes u : Forall2 writes (defaults_body u) default_keys.
Proof.
  repeat constructor;
    auto using writes_set_has_metrics, writes_set_influencer_name, writes_set_default.
Qed.

Lemma defaults_never_raise u d : exists d', exec (defaults_body u) d = Ok d'.
Proof.
  unfold defaults_body. cbn [exec bind set_has_metrics]. unfold set_influencer_name.
  destruct (_ || _)%bool; cbn [bind set_default]; eauto.
Qed.

(** X16: when the candidate lists a post that is no dictionary (a text,
    a number), the validation stops at the loop over the posts: the posts
    and the counts come back as the candidate had them, the text [12.5k]
    as a text. *)
Theorem validation_stops_at_malformed_post
    (pads_year : bool) (clock : nat -> PyDate.date) (data : dict) (username k : string)
    (posts : list pyval) (p : pyval) :
  data !! "recent_posts" = Some (VList posts) ->
  In p posts -> (forall m, p <> VDict m) ->
  k ∈ later_keys ->
  _validate_and_clean_metrics_enhanced pads_year clock data username !! k = data !! k.
Proof.
  intros Hposts Hin Hp Hk.
  destruct (defaults_never_raise username data) as [d6 E6].
  assert (Hframe : forall key, key ∉ default_keys -> d6 !! key = data !! key).
  { intros key Hkey. now apply (exec_frame _ _ _ _ _ (defaults_body_writes username)). }
  unfold _validate_and_clean_metrics_enhanced.
  change (validation_body pads_year clock username)
    with (defaults_body username
          ++ set_recent_posts pads_year clock username
             :: [ set_normalized "followers_count" _safe_int_enhanced;
                  set_normalized "following_count" _safe_int_enhanced;
                  set_normalized "posts_count" _safe_int_enhanced;
                  set_normalized "avg_likes_per_post" _safe_int_enhanced;
                  set_normalized "avg_comments_per_post" _safe_int_enhanced;
                  set_normalized "engagement_rate" _safe_float;
                  derive_average "avg_likes_per_post" "likes";
                  derive_average "avg_comments_per_post" "comments";
                  derive_engagement_rate ]).
  rewrite (run_app _ _ _ _ E6). cbn [run].
  assert (Hraise : exists e, set_recent_posts pads_year clock username d6 = Raise e).
  { unfold set_recent_posts, Py.has_key, Py.get.
    rewrite (Hframe "recent_posts") by (apply not_in_keys; reflexivity).
    rewrite Hposts. rewrite bool_decide_eq_true_2 by eauto.
    destruct posts as [|q posts]; [destruct Hin|].
    cbn [from_option id Py.truthy Py.iterate bind andb].
    destruct (clean_posts_from_malformed pads_year clock username _ p Hin Hp 0%nat)
      as [e ->].
    cbn [bind]. eauto. }
  destruct Hraise as [e ->].
  apply Hframe. unfold later_keys in Hk.
  repeat (apply elem_of_cons in Hk as [->|Hk]; [apply not_in_keys; reflexivity|]).
  now apply elem_of_nil in Hk.
Qed.

Lemma validation_stops_at_malformed_post_witness :
  record_with_text_post !! "recent_posts"
  = Some (VList [ VDict {[ "likes" := VInt 10 ]}; VStr "second post" ])
  /\ _validate_and_clean_metrics_enhanced false noon record_with_text_post "bob"
       !! "followers_count" = Some (VStr "12.5k").
Proof.
  split; [reflexivity|].
  rewrite (validation_stops_at_malformed_post false noon record_with_text_post "bob"
             "followers_count" [ VDict {[ "likes" := VInt 10 ]}; VStr "second post" ]
             (VStr "second post"));
    [ reflexivity | reflexivity | simpl; auto | discriminate
    | unfold later_keys; set_solver ].
Defined.

(** ** The identifiers of the posts *)

Lemma clean_posts_from_at pads clock u posts :
  forall i cl j p,
  clean_posts_from pads clock u i posts = Ok cl ->
  posts !! j = Some p ->
  exists p', cl !! j = Some p'
             /\ clean_post pads (clock (i + j)%nat) u (i + j)%nat p = Ok p'.
Proof.
  induction posts as [|q posts IH]; intros i cl j p H Hj; [discriminate|].
  cbn [clean_posts_from] in H.
  apply bind_ok in H as (q' & Eq & H). apply bind_ok in H as (cl' & Ecl & H).
  inversion H; subst; clear H.
  destruct j as [|j]; cbn in Hj.
  - inversion Hj; subst. exists q'. rewrite Nat.add_0_r. auto.
  - destruct (IH _ _ _ _ Ecl Hj) as (p' & Hp' & Ep').
    exists p'. split; [exact Hp'|]. now rewrite Nat.add_succ_r.
Qed.

(** the post the validation makes of the post number [j] of the candidate *)
Lemma validated_post_at pads clock data u posts j p :
  raises_nothing pads clock data u = true ->
  data !! "recent_posts" = Some (VList posts) ->
  posts !! j = Some p ->
  exists cl p',
    _validate_and_clean_metrics_enhanced pads clock data u !! "recent_posts"
    = Some (VList cl)
    /\ cl !! j = Some p'
    /\ clean_post pads (clock j) u j p = Ok p'.
Proof.
  intros Hrun Hposts Hj. apply raises_nothing_exec in Hrun.
  set (out := _validate_and_clean_metrics_enhanced pads clock data u) in *.
  clearbody out. unfold validation_body in Hrun.
  exec_step Hrun E1 d1. exec_step Hrun E2 d2. exec_step Hrun E3 d3.
  exec_step Hrun E4 d4. exec_step Hrun E5 d5. exec_step Hrun E6 d6.
  exec_step Hrun E7 d7. exec_step Hrun E8 d8. exec_step Hrun E9 d9.
  exec_step Hrun E10 d10. exec_step Hrun E11 d11. exec_step Hrun E12 d12.
  exec_step Hrun E13 d13. exec_step Hrun E14 d14. exec_step Hrun E15 d15.
  exec_step Hrun E16 d16. inversion Hrun; subst d16; clear Hrun.
  assert (H6 : d6 !! "recent_posts" = Some (VList posts)).
  { frame E6. frame E5. frame E4. frame E3. frame E2. frame E1. exact Hposts. }
  unfold set_recent_posts, Py.has_key, Py.get in E7. rewrite H6 in E7.
  rewrite bool_decide_eq_true_2 in E7 by eauto.
  destruct posts as [|q posts]; [discriminate|].
  cbn [from_option id Py.truthy Py.iterate bind andb] in E7.
  apply bind_ok in E7 as (cl & Ecl & E7). inversion E7; subst d7; clear E7.
  destruct (clean_posts_from_at _ _ _ _ _ _ _ _ Ecl Hj) as (p' & Hp' & Ep').
  exists cl, p'. split; [|split; [exact Hp' | exact Ep']].
  frame E16. frame E15. frame E14. frame E13. frame E12. frame E11.
  frame E10. frame E9. frame E8. apply lookup_insert_eq.
Qed.

(** the identifiers [clean_post] settles on *)
Lemma clean_post_identifiers pads today u i m p' :
  clean_post pads today u i (VDict m) = Ok p' ->
  exists post_id m',
    (if (negb (Py.truthy (Py.get m "post_id"))
         && Py.truthy (Py.get_default m "url" (VStr EmptyString)))%bool
     then match Py.get_default m "url" (VStr EmptyString) with
          | VStr link =>
              match search_post_id link with
              | Some g => Ok (VStr g)
              | None => Ok (Py.get m "post_id")
              end
          | _ => Raise TypeError
          end
     else Ok (Py.get m "post_id")) = Ok post_id
    /\ p' = VDict m'
    /\ m' !! "post_id"
       = Some (Py.or post_id (VStr ("post_" +:+ Py.str_of_nat (i + 1))))
    /\ m' !! "url"
       = Some (Py.or (Py.get_default m "url" (VStr EmptyString))
                 (VStr ("https://instagram.com/" +:+ u +:+ "/p/"
                        +:+ "post_" +:+ Py.str_of_nat (i + 1)))).
Proof.
  unfold clean_post. cbn [Py.method_get bind]. intros H.
  apply bind_ok in H as (post_id & Eid & H).
  do 7 (let v := fresh "v" in let E := fresh "E" in apply bind_ok in H as (v & E & H)).
  inversion H; subst; clear H.
  exists post_id. eexists. split; [exact Eid|]. split; [reflexivity|].
  split; reflexivity.
Qed.

(** X17: in a validated record, a post the candidate gave neither an id
    nor a link gets the id [post_N] and the link
    [https://instagram.com/<username>/p/post_N], where [N] is its place
    in the list, counted from one. *)
Theorem post_without_id_is_numbered
    (pads_year : bool) (clock : nat -> PyDate.date) (data : dict) (username : string)
    (posts : list pyval) (j : nat) (m : dict) :
  raises_nothing pads_year clock data username = true ->
  data !! "recent_posts" = Some (VList posts) ->
  posts !! j = Some (VDict m) ->
  Py.truthy (Py.get m "post_id") = false ->
  Py.truthy (Py.get_default m "url" (VStr EmptyString)) = false ->
  exists cl m',
    _validate_and_clean_metrics_enhanced pads_year clock data username !! "recent_posts"
    = Some (VList cl)
    /\ cl !! j = Some (VDict m')
    /\ m' !! "post_id" = Some (VStr ("post_" +:+ Py.str_of_nat (j + 1)))
    /\ m' !! "url"
       = Some (VStr ("https://instagram.com/" +:+ username +:+ "/p/"
                     +:+ "post_" +:+ Py.str_of_nat (j + 1))).
Proof.
  intros Hrun Hposts Hj Hid Hurl.
  destruct (validated_post_at _ _ _ _ _ _ _ Hrun Hposts Hj) as (cl & p' & Hout & Hcl & Ep).
  destruct (clean_post_identifiers _ _ _ _ _ _ Ep) as (post_id & m' & Eid & -> & Lid & Lurl).
  rewrite Hid, Hurl in Eid. cbn [negb andb] in Eid. inversion Eid; subst post_id.
  exists cl, m'. split; [exact Hout|]. split; [exact Hcl|].
  unfold Py.or in Lid, Lurl. rewrite Hid in Lid. rewrite Hurl in Lurl. auto.
Qed.

Lemma post_without_id_is_numbered_witness :
  raises_nothing false noon average_example "bob" = true
  /\ exists cl m',
       _validate_and_clean_metrics_enhanced false noon average_example "bob"
         !! "recent_posts" = Some (VList cl)
       /\ cl !! 2%nat = Some (VDict m')
       /\ m' !! "post_id" = Some (VStr "post_3")
       /\ m' !! "url" = Some (VStr "https://instagram.com/bob/p/post_3").
Proof.
  split; [vm_compute; reflexivity|].
  apply (post_without_id_is_numbered false noon average_example "bob"
           [ VDict {[ "likes" := VInt 100 ]}; VDict {[ "likes" := VNone ]};
             VDict {[ "likes" := VInt 200 ]} ] 2 {[ "likes" := VInt 200 ]});
    first [ reflexivity | vm_compute; reflexivity ].
Defined.

(** *** The id in a link *)

Lemma match_post_id_here_none c r :
  (c <> "/"%char \/ match r with String d _ => d <> "p"%char | EmptyString => True end) ->
  match_post_id_here (String c r) = None.
Proof.
  intros H. unfold match_post_id_here.
  destruct (ascii_dec c "/") as [->|Hc].
  - destruct H as [H|H]; [congruence|]. destruct r as [|d r]; [reflexivity|].
    destruct (ascii_dec d "p") as [->|Hd]; [congruence|].
    destruct d as [[] [] [] [] [] [] [] []]; try reflexivity; congruence.
  - destruct c as [[] [] [] [] [] [] [] []]; try reflexivity; congruence.
Qed.

Lemma id_char_not_slash : is_id_char "/" = false.
Proof. reflexivity. Qed.

Lemma search_post_id_found before id after :
  PyStr.contains "/p" before = false ->
  PyStr.forallb is_id_char id = true -> id <> EmptyString ->
  search_post_id (before +:+ "/p/" +:+ id +:+ String "/" after) = Some id.
Proof.
  intros Hb Hid Hne.
  change ("/p/" +:+ id +:+ String "/" after)
    with (String "/" (String "p" (String "/" (id +:+ String "/" after)))).
  induction before as [|c before IH].
  - rewrite append_nil_l. cbn [search_post_id match_post_id_here].
    rewrite (span_app _ id "/" after Hid id_char_not_slash).
    destruct id; [congruence | reflexivity].
  - rewrite append_cons. cbn [search_post_id].
    cbn [PyStr.contains] in Hb.
    destruct (String.prefix "/p" (String c before)) eqn:Ep; [discriminate|].
    rewrite match_post_id_here_none; [now apply IH|].
    destruct (ascii_dec c "/") as [->|Hc]; [right | now left].
    destruct before as [|d before].
    + rewrite append_nil_l. discriminate.
    + rewrite append_cons. intros ->. cbn in Ep. destruct before; discriminate.
Qed.

(** X18: in a validated record, a post the candidate gave no id but a
    link [.../p/<id>/...] (with no [/p] before it) gets [<id>] as its id,
    and keeps its link. *)
Theorem post_id_read_from_link
    (pads_year : bool) (clock : nat -> PyDate.date) (data : dict) (username : string)
    (posts : list pyval) (j : nat) (m : dict) (before ident after : string) :
  raises_nothing pads_year clock data username = true ->
  data !! "recent_posts" = Some (VList posts) ->
  posts !! j = Some (VDict m) ->
  Py.truthy (Py.get m "post_id") = false ->
  m !! "url" = Some (VStr (before +:+ "/p/" +:+ ident +:+ String "/" after)) ->
  PyStr.contains "/p" before = false ->
  PyStr.forallb is_id_char ident = true -> ident <> EmptyString ->
  exists cl m',
    _validate_and_clean_metrics_enhanced pads_year clock data username !! "recent_posts"
    = Some (VList cl)
    /\ cl !! j = Some (VDict m')
    /\ m' !! "post_id" = Some (VStr ident)
    /\ m' !! "url" = Some (VStr (before +:+ "/p/" +:+ ident +:+ String "/" after)).
Proof.
  intros Hrun Hposts Hj Hpid Hurl Hb Hid Hne.
  destruct (validated_post_at _ _ _ _ _ _ _ Hrun Hposts Hj) as (cl & p' & Hout & Hcl & Ep).
  destruct (clean_post_identifiers _ _ _ _ _ _ Ep) as (post_id & m' & Eid & -> & Lid & Lurl).
  assert (Hlink : Py.truthy (VStr (before +:+ "/p/" +:+ ident +:+ String "/" after)) = true).
  { cbn [Py.truthy]. destruct before; reflexivity. }
  unfold Py.get_default in Eid, Lurl. rewrite Hurl in Eid, Lurl.
  cbn [from_option id] in Eid, Lurl.
  rewrite Hpid, Hlink in Eid. cbn [negb andb] in Eid.
  rewrite (search_post_id_found before ident after Hb Hid Hne) in Eid.
  inversion Eid; subst post_id.
  exists cl, m'. split; [exact Hout|]. split; [exact Hcl|].
  unfold Py.or in Lid, Lurl. rewrite Hlink in Lurl.
  assert (Py.truthy (VStr ident) = true) as Ht
    by (destruct ident; [congruence | reflexivity]).
  rewrite Ht in Lid. auto.
Qed.

Lemma post_id_read_from_link_witness :
  raises_nothing false noon record_with_link "bob" = true
  /\ exists cl m',
       _validate_and_clean_metrics_enhanced false noon record_with_link "bob"
         !! "recent_posts" = Some (VList cl)
       /\ cl !! 0%nat = Some (VDict m')
       /\ m' !! "post_id" = Some (VStr "Cabc_123")
       /\ m' !! "url" = Some (VStr "https://www.instagram.com/p/Cabc_123/?hl=en").
Proof.
  split; [vm_compute; reflexivity|].
  apply (post_id_read_from_link false noon record_with_link "bob"
           [ VDict {[ "url" := VStr "https://www.instagram.com/p/Cabc_123/?hl=en" ]} ]
           0 {[ "url" := VStr "https://www.instagram.com/p/Cabc_123/?hl=en" ]}
           "https://www.instagram.com" "Cabc_123" "?hl=en");
    first [ reflexivity | discriminate | vm_compute; reflexivity ].
Defined.

(** ** The name of the influencer *)

Lemma substring_from n s c r :
  String.substring n (String.length s - n) s = String c r ->
  exists a, s = a +:+ String c r.
Proof.
  revert n. induction s as [|d s IH]; intros n H.
  - destruct n; discriminate.
  - destruct n as [|n].
    + exists EmptyString. rewrite append_nil_l. rewrite <- H.
      rewrite Nat.sub_0_r. symmetry. apply substring_all.
    + cbn [String.length String.substring Nat.sub] in H.
      destruct (IH n H) as [a ->]. exists (String d a). now rewrite append_cons.
Qed.

Lemma match_handle_here_bare_eq s :
  match_handle_here EmptyString s
  = match s with
    | String "@" r =>
        match PyStr.span is_handle_char r with
        | (String c g, _) => Some (String c g)
        | _ => None
        end
    | _ => None
    end.
Proof.
  unfold match_handle_here. change (String.length EmptyString) with 0%nat.
  rewrite Nat.sub_0_r, substring_all. cbn [PyStr.lower].
  now destruct (PyStr.lower s).
Qed.

Lemma search_handle_bare_at a r c g rest :
  PyStr.span is_handle_char r = (String c g, rest) ->
  exists g', search_handle EmptyString (a +:+ String "@" r) = Some g'.
Proof.
  intros Hspan. induction a as [|d a [g' IH]].
  - rewrite append_nil_l. exists (String c g).
    cbn [search_handle]. rewrite match_handle_here_bare_eq. now rewrite Hspan.
  - rewrite append_cons. cbn [search_handle].
    destruct (match_handle_here EmptyString _); eauto.
Qed.

Lemma match_handle_here_bare lead s g :
  match_handle_here lead s = Some g ->
  exists g', search_handle EmptyString s = Some g'.
Proof.
  unfold match_handle_here. destruct (String.prefix _ _); [|discriminate].
  destruct (String.substring _ _ s) as [|c r] eqn:E; [discriminate|].
  destruct (ascii_dec c "@") as [->|Hc].
  - destruct (PyStr.span is_handle_char r) as [[|d h] rest] eqn:Hspan; [discriminate|].
    intros _. destruct (substring_from _ _ _ _ E) as [a ->].
    now apply (search_handle_bare_at a r d h rest).
  - destruct c as [[] [] [] [] [] [] [] []]; try discriminate. now destruct Hc.
Qed.

Lemma search_handle_bare lead s g :
  search_handle lead s = Some g -> exists g', search_handle EmptyString s = Some g'.
Proof.
  induction s as [|c s IH]; cbn [search_handle].
  - destruct (match_handle_here lead EmptyString) eqn:E; [|discriminate].
    intros _. now apply (match_handle_here_bare lead EmptyString s).
  - destruct (match_handle_here lead (String c s)) eqn:E.
    + intros _. destruct (match_handle_here_bare _ _ _ E) as [g' Hg'].
      cbn [search_handle] in Hg'. eauto.
    + intros H. destruct (IH H) as [g' Hg'].
      destruct (match_handle_here EmptyString (String c s)); eauto.
Qed.

Lemma first_handle_bare message :
  first_handle username_patterns message = search_handle EmptyString message.
Proof.
  unfold username_patterns. cbn [first_handle].
  destruct (search_handle EmptyString message) as [g|] eqn:E; [reflexivity|].
  repeat match goal with
  | |- context [search_handle ?lead message] =>
      lazymatch lead with
      | EmptyString => fail
      | _ =>
          let E' := fresh "E" in
          destruct (search_handle lead message) eqn:E';
          [ apply search_handle_bare in E' as [g' E']; congruence | ]
      end
  end.
  reflexivity.
Qed.

(** X19: of the nine username patterns only the first, the bare
    [@handle], ever decides: whenever one of the eight longer patterns
    matches a message, the first one matches it too, and the loop returns
    at the first. *)
Theorem later_username_patterns_never_decide (message : string) :
  first_handle username_patterns message = search_handle EmptyString message.
Proof. apply first_handle_bare. Qed.

Lemma handle_char_not_at : is_handle_char "@" = false.
Proof. reflexivity. Qed.

Lemma search_handle_found before handle after :
  PyStr.forallb (fun c => negb (Ascii.eqb c "@")) before = true ->
  PyStr.forallb is_handle_char handle = true -> handle <> EmptyString ->
  match after with String c _ => is_handle_char c = false | EmptyString => True end ->
  search_handle EmptyString (before +:+ String "@" (handle +:+ after)) = Some handle.
Proof.
  intros Hb Hh Hne Ha.
  assert (Hspan : PyStr.span is_handle_char (handle +:+ after) = (handle, after)).
  { destruct after as [|c after].
    - rewrite append_nil_r. now apply span_all.
    - now apply span_app. }
  induction before as [|c before IH].
  - rewrite append_nil_l. cbn [search_handle]. rewrite match_handle_here_bare_eq.
    rewrite Hspan. destruct handle; [congruence | reflexivity].
  - cbn [PyStr.forallb] in Hb. apply andb_prop in Hb as [Hc Hb].
    rewrite append_cons. cbn [search_handle]. rewrite match_handle_here_bare_eq.
    destruct (ascii_dec c "@") as [->|Hne']; [discriminate|].
    replace (match c with
             | "@"%char => _
             | _ => None
             end) with (@None string); [now apply IH|].
    destruct c as [[] [] [] [] [] [] [] []]; try reflexivity. now destruct Hne'.
Qed.

(** X20: when a message holds an [@handle], the name is the first handle
    of the message, found without a request to the model. *)
Theorem name_is_first_handle
    (llm : request -> result string) (before handle after : string) :
  PyStr.forallb (fun c => negb (Ascii.eqb c "@")) before = true ->
  PyStr.forallb is_handle_char handle = true -> handle <> EmptyString ->
  match after with String c _ => is_handle_char c = false | EmptyString => True end ->
  extract_influencer_name llm (before +:+ String "@" (handle +:+ after)) = (handle, []).
Proof.
  intros Hb Hh Hne Ha. unfold extract_influencer_name. rewrite first_handle_bare.
  now rewrite (search_handle_found before handle after Hb Hh Hne Ha).
Qed.

Lemma name_is_first_handle_witness :
  extract_influencer_name failing_llm
    ("Hey, it's " +:+ String "@" ("wellness_coach" +:+ " here, mail me@home"))
  = ("wellness_coach", []).
Proof.
  apply (name_is_first_handle failing_llm "Hey, it's " "wellness_coach"
           " here, mail me@home");
    first [ reflexivity | discriminate ].
Defined.

Lemma extract_influencer_name_calls llm message :
  (extract_influencer_name llm message).2
  = match search_handle EmptyString message with
    | Some _ => []
    | None => [NameRequest message]
    end.
Proof.
  unfold extract_influencer_name. rewrite first_handle_bare.
  now destruct (search_handle EmptyString message).
Qed.

(** X21: the name [extract_influencer_name] returns is never the empty
    text, and it asks the model at most once, and only when the message
    holds no handle. *)
Theorem name_never_empty (llm : request -> result string) (message : string) :
  PyStr.is_empty (extract_influencer_name llm message).1 = false
  /\ (extract_influencer_name llm message).2
     = match search_handle EmptyString message with
       | Some _ => []
       | None => [NameRequest message]
       end.
Proof.
  unfold extract_influencer_name. rewrite first_handle_bare.
  destruct (search_handle EmptyString message) as [g|] eqn:E.
  - split; [|reflexivity]. cbn [fst].
    clear -E. revert E. induction message as [|c s IH]; cbn [search_handle];
      rewrite match_handle_here_bare_eq.
    + discriminate.
    + destruct (ascii_dec c "@") as [->|Hne].
      * destruct (PyStr.span is_handle_char s) as [[|d h] rest]; [exact IH|].
        intros H. now inversion H.
      * replace (match c with
                 | "@"%char => _
                 | _ => None
                 end) with (@None string); [exact IH|].
        destruct c as [[] [] [] [] [] [] [] []]; try reflexivity. now destruct Hne.
  - split; [|reflexivity]. cbn [fst].
    destruct (llm (NameRequest message)) as [content|e]; cbn [bind]; [|reflexivity].
    destruct (PyStr.filter _ (PyStr.strip content)) as [|c s]; [reflexivity|].
    now destruct (_ && _)%bool.
Qed.

(** ** The requests to the model *)

Lemma resolve_username_calls llm text username :
  (resolve_username llm text username).2
  = if String.eqb username "unknown"
    then match search_handle EmptyString text with
         | Some _ => []
         | None => [NameRequest text]
         end
    else [].
Proof.
  unfold resolve_username. destruct (String.eqb username "unknown"); [|reflexivity].
  rewrite <- (extract_influencer_name_calls llm).
  now destruct (extract_influencer_name llm text).
Qed.

(** X22: [extract_metrics_from_text] sends the model nothing for a text
    the prefilter does not flag.  For a flagged text it sends one
    extraction request, preceded by a request for the name only when the
    username is unknown and the text holds no handle. *)
Theorem extraction_requests
    (loads : string -> result pyval) (llm : request -> result string)
    (pads_year : bool) (clock : nat -> PyDate.date) (text username : string) :
  let calls := (extract_metrics_from_text loads llm pads_year clock text username).2 in
  let name := (resolve_username llm text username).1 in
  (_quick_metrics_check text = false -> calls = [])
  /\ (_quick_metrics_check text = true ->
      calls
      = (if (String.eqb username "unknown"
             && negb (bool_decide (is_Some (search_handle EmptyString text))))%bool
         then [NameRequest text] else [])
        ++ [ExtractRequest text name]).
Proof.
  cbv zeta. unfold extract_metrics_from_text. split; intros Hq; rewrite Hq; cbn [negb].
  - reflexivity.
  - pose proof (resolve_username_calls llm text username) as Hc.
    destruct (resolve_username llm text username) as [name calls]. cbn [fst snd] in *.
    subst calls. destruct (String.eqb username "unknown"); cbn [andb]; [|reflexivity].
    destruct (search_handle EmptyString text) as [g|].
    + rewrite bool_decide_eq_true_2 by eauto. reflexivity.
    + rewrite bool_decide_eq_false_2 by (intros [x Hx]; discriminate). reflexivity.
Qed.

Lemma extraction_requests_witness :
  _quick_metrics_check "I'm @fit_anna and got 120 likes" = true
  /\ (extract_metrics_from_text Json.loads failing_llm false noon
        "I'm @fit_anna and got 120 likes" "unknown").2
     = [ExtractRequest "I'm @fit_anna and got 120 likes" "fit_anna"].
Proof.
  split; [reflexivity|].
  destruct (extraction_requests Json.loads failing_llm false noon
              "I'm @fit_anna and got 120 likes" "unknown") as [_ H].
  rewrite H; reflexivity.
Defined.

(** ** The result of [process_influencer_message] *)

Lemma classification_is_dict loads llm message_text username :
  exists d, (classify_message_intent loads llm message_text username).1 = VDict d.
Proof.
  unfold classify_message_intent, classify_attempt. cbn [fst].
  destruct (llm _) as [content|e]; cbn [bind]; [|eauto].
  destruct (loads content) as [v|e]; cbn [bind]; [|eauto].
  destruct v; cbn [Py.method_get bind]; eauto.
Qed.

Lemma response_is_dict loads llm describe message_text username classification context :
  exists d, (generate_contextual_response loads llm describe message_text username
               classification context).1 = VDict d.
Proof.
  unfold generate_contextual_response. cbn [fst].
  destruct (llm _) as [content|e]; cbn [bind]; [|eauto].
  destruct (loads content) as [v|e]; cbn [bind]; [|eauto].
  destruct v; cbn [Py.method_get bind]; eauto.
Qed.

(** what [process_influencer_message] returns: the [try] block runs to
    its end *)
Lemma process_influencer_message_succeeds
    loads llm describe pads_year clock timestamp message_text username context :
  exists classification metrics_data response middle,
    process_influencer_message loads llm describe pads_year clock timestamp
      message_text username context
    = (list_to_map
         [ ("timestamp", VStr timestamp);
           ("influencer_username", VStr username);
           ("original_message", VStr message_text);
           ("classification", VDict classification);
           ("metrics_data", metrics_data);
           ("response", VDict response);
           ("processing_status", VStr "success") ],
       ClassifyRequest message_text username
       :: middle ++ [RespondRequest message_text username (VDict classification) context])
    /\ (metrics_data = VNone /\ middle = []
        \/ Py.truthy (Py.get_default classification "contains_metrics" (VBool false)) = true
           /\ metrics_data
              = VDict (extract_metrics_from_text loads llm pads_year clock
                         message_text username).1
           /\ middle
              = (extract_metrics_from_text loads llm pads_year clock
                   message_text username).2).
Proof.
  unfold process_influencer_message.
  destruct (classification_is_dict loads llm message_text username) as [c Hc].
  assert (Hcalls : (classify_message_intent loads llm message_text username).2
                   = [ClassifyRequest message_text username]) by reflexivity.
  destruct (classify_message_intent loads llm message_text username) as [cl calls1].
  cbn [fst snd] in Hc, Hcalls. subst cl calls1. cbn [Py.method_get bind].
  destruct (response_is_dict loads llm describe message_text username (VDict c) context)
    as [r Hr].
  assert (Hrc : (generate_contextual_response loads llm describe message_text username
                   (VDict c) context).2
                = [RespondRequest message_text username (VDict c) context]) by reflexivity.
  destruct (generate_contextual_response loads llm describe message_text username
              (VDict c) context) as [resp calls3].
  cbn [fst snd] in Hr, Hrc. subst resp calls3.
  destruct (Py.truthy (Py.get_default c "contains_metrics" (VBool false))) eqn:Ht.
  - destruct (extract_metrics_from_text loads llm pads_year clock message_text username)
      as [metrics calls2] eqn:Em.
    exists c, (VDict metrics), r, calls2. split; [reflexivity|]. right. auto.
  - exists c, VNone, r, []. split; [reflexivity|]. left. auto.
Qed.

(** X23: [process_influencer_message] never takes its [except] branch:
    whatever the model answers or raises, the result has the status
    [success], a dictionary as classification and a dictionary as
    response; the requests start with the classification and end with the
    response, and an extraction is between them only when the
    classification says the message holds metrics. *)
Theorem message_processing_never_fails
    (loads : string -> result pyval) (llm : request -> result string)
    (describe : exc -> string) (pads_year : bool) (clock : nat -> PyDate.date)
    (timestamp message_text username : string) (context : pyval) :
  exists classification response middle,
    (process_influencer_message loads llm describe pads_year clock timestamp
       message_text username context).1 !! "processing_status" = Some (VStr "success")
    /\ (process_influencer_message loads llm describe pads_year clock timestamp
          message_text username context).1 !! "classification"
       = Some (VDict classification)
    /\ (process_influencer_message loads llm describe pads_year clock timestamp
          message_text username context).1 !! "response" = Some (VDict response)
    /\ (process_influencer_message loads llm describe pads_year clock timestamp
          message_text username context).2
       = ClassifyRequest message_text username
         :: middle ++ [RespondRequest message_text username (VDict classification) context]
    /\ (Py.truthy (Py.get_default classification "contains_metrics" (VBool false)) = false
        -> middle = []).
Proof.
  destruct (process_influencer_message_succeeds loads llm describe pads_year clock
              timestamp message_text username context)
    as (c & m & r & middle & -> & Hm).
  exists c, r, middle. cbn [fst snd].
  repeat split; try reflexivity.
  intros Hf. destruct Hm as [[_ ->]|[Ht _]]; [reflexivity | congruence].
Qed.

(** ** The download link *)

Lemma match_file_id_here_none c r :
  c <> "/"%char -> match_file_id_here (String c r) = None.
Proof.
  intros Hc. unfold match_file_id_here.
  destruct c as [[] [] [] [] [] [] [] []]; try reflexivity. now destruct Hc.
Qed.

Lemma search_file_id_id_chars s :
  PyStr.forallb is_id_char s = true -> search_file_id s = None.
Proof.
  induction s as [|c s IH]; [reflexivity|]. cbn [PyStr.forallb].
  intros H. apply andb_prop in H as [Hc Hs]. cbn [search_file_id].
  rewrite match_file_id_here_none; [now apply IH|].
  intros ->. discriminate.
Qed.

Lemma search_file_id_download file_id :
  PyStr.forallb is_id_char file_id = true ->
  search_file_id (download_prefix +:+ file_id) = None.
Proof.
  intros H. unfold download_prefix.
  repeat rewrite append_cons. rewrite append_nil_l.
  cbn [search_file_id match_file_id_here].
  now apply search_file_id_id_chars.
Qed.

Lemma search_file_id_chars s g :
  search_file_id s = Some g -> PyStr.forallb is_id_char g = true.
Proof.
  induction s as [|c s IH]; cbn [search_file_id].
  - discriminate.
  - destruct (match_file_id_here (String c s)) as [g'|] eqn:E; [|exact IH].
    intros H. inversion H; subst g'. clear H IH. unfold match_file_id_here in E.
    destruct c as [[] [] [] [] [] [] [] []]; try discriminate.
    destruct s as [|d s]; [discriminate|].
    destruct d as [[] [] [] [] [] [] [] []]; try discriminate.
    destruct s as [|e s]; [discriminate|].
    destruct e as [[] [] [] [] [] [] [] []]; try discriminate.
    pose proof (span_spec is_id_char s) as Hs.
    destruct (PyStr.span is_id_char s) as [[|a h] rest]; [discriminate|].
    inversion E; subst g. now destruct Hs as (_ & Hs & _).
Qed.

(** X24: converting a link twice is converting it once: a download link
    holds no [/d/] marker, so the second call returns it as it is. *)
Theorem convert_google_drive_url_idempotent (shared_url converted : pyval) :
  convert_google_drive_url shared_url = Ok converted ->
  convert_google_drive_url converted = Ok converted.
Proof.
  unfold convert_google_drive_url at 1. destruct shared_url; try discriminate.
  destruct (search_file_id s) as [g|] eqn:E; intros H; inversion H; subst; clear H.
  - cbn [convert_google_drive_url].
    now rewrite (search_file_id_download g (search_file_id_chars s g E)).
  - cbn [convert_google_drive_url]. now rewrite E.
Qed.

Lemma convert_google_drive_url_idempotent_witness :
  convert_google_drive_url
    (VStr "https://drive.google.com/file/d/1AbC-dEf_9/view?usp=sharing")
  = Ok (VStr "https://drive.google.com/uc?export=download&id=1AbC-dEf_9")
  /\ convert_google_drive_url
       (VStr "https://drive.google.com/uc?export=download&id=1AbC-dEf_9")
     = Ok (VStr "https://drive.google.com/uc?export=download&id=1AbC-dEf_9").
Proof.
  split; [reflexivity|].
  apply (convert_google_drive_url_idempotent
           (VStr "https://drive.google.com/file/d/1AbC-dEf_9/view?usp=sharing")).
  reflexivity.
Defined.

Lemma prefix_nil s : String.prefix EmptyString s = true.
Proof. now destruct s. Qed.

Lemma prefix_marker_boundary before rest :
  before <> EmptyString ->
  String.prefix "/d/" (before +:+ String "/" rest)
  = String.prefix "/d/" (before +:+ "/").
Proof.
  intros Hne. destruct before as [|a [|b [|c before]]]; [congruence|..];
    repeat rewrite append_cons; rewrite ?append_nil_l; cbn [String.prefix];
    rewrite ?prefix_nil;
    repeat match goal with
    | |- context [ascii_dec ?x ?y] => destruct (ascii_dec x y)
    end;
    first [reflexivity | discriminate | congruence].
Qed.

Lemma match_file_id_here_prefix s :
  String.prefix "/d/" s = false -> match_file_id_here s = None.
Proof.
  unfold match_file_id_here. destruct s as [|a [|b [|c s]]]; try reflexivity;
    try (destruct a as [[] [] [] [] [] [] [] []]; reflexivity).
  - destruct a as [[] [] [] [] [] [] [] []]; try reflexivity.
    destruct b as [[] [] [] [] [] [] [] []]; reflexivity.
  - cbn [String.prefix]. intros H.
    destruct a as [[] [] [] [] [] [] [] []]; try reflexivity.
    destruct b as [[] [] [] [] [] [] [] []]; try reflexivity.
    destruct c as [[] [] [] [] [] [] [] []]; try reflexivity.
    cbn in H. destruct s; discriminate.
Qed.

Lemma search_file_id_found before file_id after :
  PyStr.contains "/d/" (before +:+ "/") = false ->
  PyStr.forallb is_id_char file_id = true -> file_id <> EmptyString ->
  match after with String c _ => is_id_char c = false | EmptyString => True end ->
  search_file_id (before +:+ "/d/" +:+ file_id +:+ after) = Some file_id.
Proof.
  intros Hb Hid Hne Ha.
  change ("/d/" +:+ file_id +:+ after)
    with (String "/" (String "d" (String "/" (file_id +:+ after)))).
  assert (Hspan : PyStr.span is_id_char (file_id +:+ after) = (file_id, after)).
  { destruct after as [|c after].
    - rewrite append_nil_r. now apply span_all.
    - now apply span_app. }
  induction before as [|c before IH].
  - rewrite append_nil_l. cbn [search_file_id match_file_id_here].
    rewrite Hspan. destruct file_id; [congruence | reflexivity].
  - rewrite append_cons in Hb. cbn [PyStr.contains] in Hb.
    destruct (String.prefix "/d/" (String c (before +:+ "/"))) eqn:Ep; [discriminate|].
    rewrite <- append_cons in Ep.
    rewrite <- (prefix_marker_boundary (String c before)
                  (String "d" (String "/" (file_id +:+ after)))) in Ep by discriminate.
    rewrite append_cons in Ep |- *. cbn [search_file_id].
    rewrite (match_file_id_here_prefix _ Ep). now apply IH.
Qed.

(** X25: a shared link [.../d/<id>...], with no [/d/] marker before it,
    is turned into the download link of [<id>]; the id is the longest run
    of letters, digits, [_] and [-] after the marker. *)
Theorem convert_google_drive_url_extracts_id (before file_id after : string) :
  PyStr.contains "/d/" (before +:+ "/") = false ->
  PyStr.forallb is_id_char file_id = true -> file_id <> EmptyString ->
  match after with String c _ => is_id_char c = false | EmptyString => True end ->
  convert_google_drive_url (VStr (before +:+ "/d/" +:+ file_id +:+ after))
  = Ok (VStr ("https://drive.google.com/uc?export=download&id=" +:+ file_id)).
Proof.
  intros Hb Hid Hne Ha. cbn [convert_google_drive_url].
  now rewrite (search_file_id_found before file_id after Hb Hid Hne Ha).
Qed.

Lemma convert_google_drive_url_extracts_id_witness :
  PyStr.contains "/d/" ("https://drive.google.com/file" +:+ "/") = false
  /\ convert_google_drive_url
       (VStr ("https://drive.google.com/file" +:+ "/d/" +:+ "1AbC-dEf_9"
              +:+ "/view?usp=sharing"))
     = Ok (VStr "https://drive.google.com/uc?export=download&id=1AbC-dEf_9").
Proof.
  split; [reflexivity|].
  apply (convert_google_drive_url_extracts_id "https://drive.google.com/file"
           "1AbC-dEf_9" "/view?usp=sharing");
    first [ reflexivity | discriminate ].
Defined.

(** ** From the validated record to the warehouse *)

Lemma post_record_cleaned (P : string -> Prop) ts p :
  cleaned P p -> post_record ts p = Ok (kept_of_post p).
Proof.
  intros Hc. destruct Hc as [post_id url media likes comments date views reach
    impressions shares completeness _ _ _ _ _ _ _ _ _ _].
  destruct (cleaned_post_lookups post_id url (VStr media) likes comments (VStr date)
              views reach impressions shares completeness)
    as (L1 & L2 & L3 & L4 & L5 & L6 & _).
  cbv zeta in *. unfold post_record, kept_of_post. cbn [Py.method_get bind].
  unfold Py.get_default, Py.get. rewrite L1, L2, L4, L5, L6. cbn [from_option id].
  replace (cleaned_post_dict post_id url (VStr media) likes comments (VStr date) views
             reach impressions shares completeness !! "caption") with (@None pyval)
    by reflexivity.
  reflexivity.
Qed.

Lemma post_records_cleaned (P : string -> Prop) ts posts :
  Forall (cleaned P) posts -> post_records ts posts = Ok (kept_of_post <$> posts).
Proof.
  induction 1 as [|p posts Hp _ IH]; [reflexivity|]. cbn [post_records].
  rewrite (post_record_cleaned P ts p Hp). cbn [bind]. now rewrite IH.
Qed.

Lemma posts_data_kept (P : string -> Prop) pads clock posts :
  Forall (cleaned P) posts ->
  forall i, posts_data pads clock i (kept_of_post <$> posts) = stored_of_post <$> posts.
Proof.
  induction 1 as [|p posts Hp _ IH]; intros i; [reflexivity|].
  cbn [fmap list_fmap]. destruct Hp. cbn [kept_of_post posts_data stored_of_post].
  rewrite <- (IH (S i)). reflexivity.
Qed.

Lemma validated_posts pads clock data u :
  raises_nothing pads clock data u = true ->
  exists posts,
    _validate_and_clean_metrics_enhanced pads clock data u !! "recent_posts"
    = Some (VList posts)
    /\ Forall (cleaned (fun _ => True)) posts.
Proof.
  intros Hrun. apply raises_nothing_exec in Hrun.
  set (out := _validate_and_clean_metrics_enhanced pads clock data u) in *.
  clearbody out. unfold validation_body in Hrun.
  exec_step Hrun E1 d1. exec_step Hrun E2 d2. exec_step Hrun E3 d3.
  exec_step Hrun E4 d4. exec_step Hrun E5 d5. exec_step Hrun E6 d6.
  exec_step Hrun E7 d7. exec_step Hrun E8 d8. exec_step Hrun E9 d9.
  exec_step Hrun E10 d10. exec_step Hrun E11 d11. exec_step Hrun E12 d12.
  exec_step Hrun E13 d13. exec_step Hrun E14 d14. exec_step Hrun E15 d15.
  exec_step Hrun E16 d16. inversion Hrun; subst d16; clear Hrun.
  destruct (posts_cleaned _ _ _ _ _ E7) as (cl & Lp & Hcl).
  exists cl. split; [|exact Hcl].
  frame E16. frame E15. frame E14. frame E13. frame E12. frame E11.
  frame E10. frame E9. frame E8. exact Lp.
Qed.

(** the record [format_for_bigquery] makes of a validated record *)
Lemma format_validated ts pads clock data u (user_info : dict) text :
  raises_nothing pads clock data u = true ->
  exists posts record,
    _validate_and_clean_metrics_enhanced pads clock data u !! "recent_posts"
    = Some (VList posts)
    /\ Forall (cleaned (fun _ => True)) posts
    /\ format_for_bigquery ts
         (VDict (_validate_and_clean_metrics_enhanced pads clock data u))
         (VDict user_info) (VStr text) = Ok record
    /\ record !! "recent_posts" = Some (VList (kept_of_post <$> posts))
    /\ forall k, k ∈ aggregate_keys ->
         record !! k
         = Some (Py.get (_validate_and_clean_metrics_enhanced pads clock data u) k).
Proof.
  intros Hrun. destruct (validated_posts pads clock data u Hrun) as (posts & Hposts & Hcl).
  set (out := _validate_and_clean_metrics_enhanced pads clock data u) in *.
  assert (Hl : Py.get_default out "recent_posts" (VList []) = VList posts)
    by (unfold Py.get_default; now rewrite Hposts).
  exists posts. unfold format_for_bigquery. cbn [Py.method_get bind].
  repeat (match goal with
          | |- context [if Py.eq_str ?v "unknown" then _ else _] =>
              destruct (Py.eq_str v "unknown")
          | |- context [if Py.truthy ?v then _ else _] => destruct (Py.truthy v)
          | |- context [match search_at_word text with _ => _ end] =>
              destruct (search_at_word text)
          end; cbn [bind]);
    rewrite Hl; cbn [Py.iterate bind];
    rewrite (post_records_cleaned _ ts posts Hcl); cbn [bind];
    (eexists; split; [exact Hposts|]; split; [exact Hcl|]; split; [reflexivity|];
     split; [reflexivity|];
     intros k Hk; unfold aggregate_keys in Hk;
     repeat (apply elem_of_cons in Hk as [->|Hk]; [reflexivity|]);
     now apply elem_of_nil in Hk).
Qed.

(** X26: [format_for_bigquery] never raises on a record the validation
    ran through, whoever the user and whatever the message.  Its posts
    are those of the record, each with the post id, likes, comments and
    post date of the validated post (a count that is [None] stays
    [None]: the defaults of the function are not used) and no caption,
    and the six aggregates are those of the record. *)
Theorem validated_record_formats
    (collection_timestamp : string) (pads_year : bool) (clock : nat -> PyDate.date)
    (data : dict) (username : string) (user_info : dict) (raw_response : string) :
  raises_nothing pads_year clock data username = true ->
  exists posts record,
    _validate_and_clean_metrics_enhanced pads_year clock data username !! "recent_posts"
    = Some (VList posts)
    /\ format_for_bigquery collection_timestamp
         (VDict (_validate_and_clean_metrics_enhanced pads_year clock data username))
         (VDict user_info) (VStr raw_response) = Ok record
    /\ record !! "recent_posts" = Some (VList (kept_of_post <$> posts))
    /\ forall k, k ∈ aggregate_keys ->
         record !! k
         = Some (Py.get
                   (_validate_and_clean_metrics_enhanced pads_year clock data username) k).
Proof.
  intros Hrun.
  destruct (format_validated collection_timestamp pads_year clock data username
              user_info raw_response Hrun)
    as (posts & record & H1 & _ & H2 & H3 & H4).
  exists posts, record. auto.
Qed.

Lemma validated_record_formats_witness :
  raises_nothing false noon raw_record "alice" = true
  /\ exists posts record,
       _validate_and_clean_metrics_enhanced false noon raw_record "alice"
         !! "recent_posts" = Some (VList posts)
       /\ format_for_bigquery "2024-06-10T12:00:00"
            (VDict (_validate_and_clean_metrics_enhanced false noon raw_record "alice"))
            (VDict {[ "username" := VStr "alice" ]}) (VStr "12.5k followers") = Ok record
       /\ record !! "recent_posts" = Some (VList (kept_of_post <$> posts))
       /\ forall k, k ∈ aggregate_keys ->
            record !! k
            = Some (Py.get
                      (_validate_and_clean_metrics_enhanced false noon raw_record "alice")
                      k).
Proof.
  split; [vm_compute; reflexivity|].
  apply (validated_record_formats "2024-06-10T12:00:00" false noon raw_record "alice"
           {[ "username" := VStr "alice" ]} "12.5k followers").
  vm_compute. reflexivity.
Defined.

(** X27: of a validated and formatted record [insert_metrics] hands one
    row to the client, with the name, the two timestamps and, for each
    post, its id, likes, comments and date; the answer is [True] exactly
    when the client returns no error. *)
Theorem validated_record_row
    (insert_rows_json : pyval -> result pyval)
    (collection_timestamp collection_date processed_at : string)
    (pads_year : bool) (clock clock' : nat -> PyDate.date)
    (data : dict) (username : string) (user_info : dict) (raw_response : string) :
  raises_nothing pads_year clock data username = true ->
  exists posts record row,
    _validate_and_clean_metrics_enhanced pads_year clock data username !! "recent_posts"
    = Some (VList posts)
    /\ format_for_bigquery collection_timestamp
         (VDict (_validate_and_clean_metrics_enhanced pads_year clock data username))
         (VDict user_info) (VStr raw_response) = Ok record
    /\ row = VDict (bq_row_dict (Py.get record "influencer_name") (VStr collection_date)
                      (VList (stored_of_post <$> posts)) (VStr processed_at))
    /\ insert_metrics insert_rows_json pads_year clock' collection_date processed_at
         (VDict record)
       = (match insert_rows_json row with
          | Ok errors => negb (Py.truthy errors)
          | Raise _ => false
          end, [row]).
Proof.
  intros Hrun.
  destruct (format_validated collection_timestamp pads_year clock data username
              user_info raw_response Hrun)
    as (posts & record & H1 & Hcl & H2 & H3 & _).
  exists posts, record. eexists. split; [exact H1|]. split; [exact H2|].
  split; [reflexivity|].
  unfold insert_metrics, bq_row. cbn [Py.method_get bind].
  unfold Py.get_default at 1. rewrite H3. cbn [from_option id Py.iterate bind].
  rewrite (posts_data_kept _ pads_year clock' posts Hcl). reflexivity.
Qed.

Lemma validated_record_row_witness :
  raises_nothing false noon raw_record "alice" = true
  /\ exists posts record row,
       _validate_and_clean_metrics_enhanced false noon raw_record "alice"
         !! "recent_posts" = Some (VList posts)
       /\ format_for_bigquery "2024-06-10T12:00:00"
            (VDict (_validate_and_clean_metrics_enhanced false noon raw_record "alice"))
            (VDict {[ "username" := VStr "alice" ]}) (VStr "12.5k followers") = Ok record
       /\ row = VDict (bq_row_dict (Py.get record "influencer_name")
                         (VStr "2024-06-10T12:00:01")
                         (VList (stored_of_post <$> posts)) (VStr "2024-06-10T12:00:02"))
       /\ insert_metrics (fun _ => Ok (VList [])) false new_year
            "2024-06-10T12:00:01" "2024-06-10T12:00:02" (VDict record)
          = (match Ok (VList []) with
             | Ok errors => negb (Py.truthy errors)
             | Raise _ => false
             end, [row]).
Proof.
  split; [vm_compute; reflexivity|].
  apply (validated_record_row (fun _ => Ok (VList [])) "2024-06-10T12:00:00"
           "2024-06-10T12:00:01" "2024-06-10T12:00:02" false noon new_year raw_record
           "alice" {[ "username" := VStr "alice" ]} "12.5k followers").
  vm_compute. reflexivity.
Defined.

(** X28: the row [insert_metrics] hands to the client depends on the
    posts and on the name of the record alone: follower counts,
    averages and engagement rates are not stored by it. *)
Theorem row_ignores_aggregates
    (insert_rows_json : pyval -> result pyval) (pads_year : bool)
    (clock : nat -> PyDate.date) (collection_date processed_at : string)
    (record record' : dict) :
  record !! "recent_posts" = record' !! "recent_posts" ->
  record !! "influencer_name" = record' !! "influencer_name" ->
  insert_metrics insert_rows_json pads_year clock collection_date processed_at
    (VDict record)
  = insert_metrics insert_rows_json pads_year clock collection_date processed_at
      (VDict record').
Proof.
  intros Hp Hn. unfold insert_metrics, bq_row. cbn [Py.method_get bind].
  unfold Py.get_default. now rewrite Hp, Hn.
Qed.

Lemma row_ignores_aggregates_witness :
  insert_metrics (fun _ => Ok (VList [])) false noon "t1" "t2"
    (VDict {[ "influencer_name" := VStr "alice"; "followers_count" := VInt 12500 ]})
  = insert_metrics (fun _ => Ok (VList [])) false noon "t1" "t2"
      (VDict {[ "influencer_name" := VStr "alice"; "followers_count" := VInt 7 ]}).
Proof.
  apply (row_ignores_aggregates (fun _ => Ok (VList [])) false noon "t1" "t2"
           {[ "influencer_name" := VStr "alice"; "followers_count" := VInt 12500 ]}
           {[ "influencer_name" := VStr "alice"; "followers_count" := VInt 7 ]});
    reflexivity.
Defined.

(** ** The replies of the bot *)

Lemma count_app kind a b : count kind (a ++ b) = (count kind a + count kind b)%nat.
Proof. unfold count. now rewrite List.filter_app, length_app. Qed.

Lemma count_sent_asked calls : count is_sent (Asked <$> calls) = 0%nat.
Proof. induction calls; [reflexivity | exact IHcalls]. Qed.

Lemma count_stored_asked calls : count is_stored (Asked <$> calls) = 0%nat.
Proof. induction calls; [reflexivity | exact IHcalls]. Qed.

Lemma count_sent_stored rows : count is_sent (Stored <$> rows) = 0%nat.
Proof. induction rows; [reflexivity | exact IHrows]. Qed.

Lemma count_asked_stored rows : count is_asked (Stored <$> rows) = 0%nat.
Proof. induction rows; [reflexivity | exact IHrows]. Qed.

Lemma count_stored_stored rows : count is_stored (Stored <$> rows) = length rows.
Proof. induction rows; [reflexivity|]. unfold count in *. cbn. now rewrite IHrows. Qed.

Lemma count_asked_asked calls : count is_asked (Asked <$> calls) = length calls.
Proof. induction calls; [reflexivity|]. unfold count in *. cbn. now rewrite IHcalls. Qed.

Lemma insert_metrics_rows insert_rows_json pads clock cd pa data :
  (length (insert_metrics insert_rows_json pads clock cd pa data).2 <= 1)%nat.
Proof. unfold insert_metrics. destruct (bq_row _ _ _ _ _); cbn; lia. Qed.

Lemma insert_metrics_shape insert_rows_json pads clock cd pa data :
  insert_metrics insert_rows_json pads clock cd pa data = (false, [])
  \/ exists answer row,
       insert_metrics insert_rows_json pads clock cd pa data = (answer, [row]).
Proof. unfold insert_metrics. destruct (bq_row _ _ _ _ _); eauto. Qed.

(** the events and the outcome of a sequence *)
Lemma then_events {A B} (m : action A) (k : A -> action B) :
  (then_ m k).1 = m.1 ++ match m.2 with Ok a => (k a).1 | Raise _ => [] end.
Proof.
  destruct m as [events [a|e]]; cbn [then_ fst snd].
  - now destruct (k a).
  - now rewrite app_nil_r.
Qed.

Lemma then_outcome {A B} (m : action A) (k : A -> action B) :
  (then_ m k).2 = match m.2 with Ok a => (k a).2 | Raise e => Raise e end.
Proof.
  destruct m as [events [a|e]]; cbn [then_ fst snd]; [|reflexivity]. now destruct (k a).
Qed.

Lemma or_else_events {A} (body handler : action A) :
  (or_else body handler).1
  = body.1 ++ match body.2 with Ok _ => [] | Raise _ => handler.1 end.
Proof.
  destruct body as [events [a|e]]; cbn [or_else fst snd].
  - now rewrite app_nil_r.
  - now destruct handler.
Qed.

Ltac open_action :=
  repeat first
    [ rewrite then_events | rewrite then_outcome | rewrite or_else_events
    | progress cbn [lift ret send_telegram_message fst snd]
    | match goal with
      | |- context [match ?r with Ok _ => _ | Raise _ => _ end] =>
          let E := fresh "E" in destruct r eqn:E
      end ].

Lemma extraction_calls_length loads llm pads clock text username :
  (length (extract_metrics_from_text loads llm pads clock text username).2 <= 2)%nat.
Proof.
  unfold extract_metrics_from_text. destruct (negb _); [cbn; lia|].
  pose proof (resolve_username_calls llm text username) as H.
  destruct (resolve_username llm text username) as [name calls]. cbn [snd] in *.
  subst calls. rewrite length_app. cbn [length].
  destruct (String.eqb username "unknown"); [|cbn; lia].
  destruct (search_handle EmptyString text); cbn; lia.
Qed.

Section BotReplies.

Variable loads : string -> result pyval.
Variable llm : request -> result string.
Variable describe : exc -> string.
Variable pads_year : bool.
Variable clock : nat -> PyDate.date.
Variable timestamp : string.
Variable insert_rows_json : pyval -> result pyval.
Variable warehouse_clock : nat -> PyDate.date.
Variable collection_date processed_at : string.
Variable collection_timestamp : string.
Variable format_value : pyval -> string -> result string.

(** the success report sends its one message when it runs to its end,
    and nothing when a formatting raises *)
Lemma report_success_events structured_data metrics_data :
  let report := report_success format_value structured_data metrics_data in
  count is_sent report.1 = (if report.2 is Ok _ then 1 else 0)%nat
  /\ count is_asked report.1 = 0%nat
  /\ count is_stored report.1 = 0%nat.
Proof.
  unfold report_success. cbv zeta. open_action; cbn; repeat split; lia.
Qed.

Lemma success_result_lookups (t u msg c m r : pyval) :
  let result : dict :=
    list_to_map
      [ ("timestamp", t); ("influencer_username", u); ("original_message", msg);
        ("classification", c); ("metrics_data", m); ("response", r);
        ("processing_status", VStr "success") ] in
  Py.get_default result "classification" (VDict ∅) = c
  /\ Py.get result "metrics_data" = m
  /\ Py.get_default result "response" (VDict ∅) = r.
Proof. cbv zeta. repeat split; reflexivity. Qed.

Ltac count_events :=
  repeat rewrite count_app;
  rewrite ?count_sent_asked, ?count_stored_asked, ?count_sent_stored,
    ?count_asked_stored, ?count_stored_stored, ?count_asked_asked;
  cbn [count List.filter is_sent is_asked is_stored length].

Lemma process_influencer_response_counts openai bigquery message_text user_info :
  let events :=
    process_influencer_response loads llm describe pads_year clock timestamp
      insert_rows_json warehouse_clock collection_date processed_at
      collection_timestamp format_value openai bigquery message_text user_info in
  (1 <= count is_sent events <= 3)%nat
  /\ (count is_stored events <= if bigquery is Ready then 1 else 0)%nat
  /\ (count is_asked events <= if openai is Ready then 4 else 0)%nat
  /\ (if openai is Ready then True else count is_sent events = 1%nat).
Proof.
  cbv zeta. unfold process_influencer_response, respond. destruct openai.
  - cbn. repeat split; try lia; destruct bigquery; lia.
  - cbn. repeat split; try lia; destruct bigquery; lia.
  - pose proof (process_influencer_message_succeeds loads llm describe pads_year clock
                  timestamp message_text (default "unknown" (user_username user_info))
                  VNone) as (c & m & r & middle & -> & Hm).
    destruct (success_result_lookups (VStr timestamp)
                (VStr (default "unknown" (user_username user_info))) (VStr message_text)
                (VDict c) m (VDict r)) as (L1 & L2 & L3).
    cbv zeta in L1, L2, L3. rewrite L1, L2, L3. clear L1 L2 L3.
    cbn [Py.method_get].
    assert (Hmiddle : (length middle <= 2)%nat).
    { destruct Hm as [[_ ->]|(_ & _ & ->)]; [cbn; lia|].
      apply extraction_calls_length. }
    clear Hm.
    repeat first
      [ progress cbn [then_ or_else lift ret send_telegram_message fst snd]
      | match goal with
        | |- context [report_success format_value ?sd ?md] =>
            let H := fresh "H" in
            pose proof (report_success_events sd md) as H; cbv zeta in H;
            destruct H as (? & ? & ?);
            destruct (report_success format_value sd md) as [? [?|?]]
        | |- context [insert_metrics ?a ?b ?c ?d ?e ?f] =>
            pose proof (insert_metrics_rows a b c d e f);
            destruct (insert_metrics a b c d e f) as [[|] rows]
        | |- context [match bigquery with _ => _ end] => destruct bigquery
        | |- context [if ?c then _ else _] => destruct c
        | |- context [match ?r with Ok _ => _ | Raise _ => _ end] => destruct r
        end ];
      count_events;
      rewrite ?length_app; cbn [length fst snd] in *; repeat split; lia.
Qed.

(** the success report is one message, or nothing when a formatting
    raises *)
Lemma report_success_shape structured_data metrics_data :
  (exists text,
     report_success format_value structured_data metrics_data
     = ([Sent (VStr text)], Ok tt))
  \/ (exists e,
        report_success format_value structured_data metrics_data = ([], Raise e)).
Proof.
  unfold report_success.
  repeat first
    [ progress cbn [then_ lift ret send_telegram_message fst snd app]
    | match goal with
      | |- context [match ?r with Ok _ => _ | Raise _ => _ end] => destruct r
      end ];
    eauto.
Qed.

(** X29: whatever is written to the bot, and whatever the model and the
    warehouse answer or raise, [handle_admin_command] sends between one
    and three messages; it hands at most one row to the warehouse, and
    none unless the warehouse helper was built; it sends the model at
    most four requests, and none unless the model helper was built. *)
Theorem every_message_answered
    (openai bigquery : helper) (message_text : string) (user_info : user) :
  let events :=
    handle_admin_command loads llm describe pads_year clock timestamp
      insert_rows_json warehouse_clock collection_date processed_at
      collection_timestamp format_value openai bigquery message_text user_info in
  (1 <= count is_sent events <= 3)%nat
  /\ (count is_stored events <= if bigquery is Ready then 1 else 0)%nat
  /\ (count is_asked events <= if openai is Ready then 4 else 0)%nat.
Proof.
  cbv zeta. unfold handle_admin_command.
  destruct (String.eqb (PyStr.lower (PyStr.strip message_text)) "/start").
  { cbn. repeat split; try lia; destruct bigquery, openai; lia. }
  destruct (String.eqb (PyStr.lower (PyStr.strip message_text)) "/help").
  { cbn. repeat split; try lia; destruct bigquery, openai; lia. }
  pose proof (process_influencer_response_counts openai bigquery
                (PyStr.strip message_text) user_info) as H.
  cbv zeta in H. tauto.
Qed.

(** X30: with the model helper built, [process_influencer_response]
    first sends the model the requests of [process_influencer_message],
    then replies with the [response_message] of the response (the
    default thanks when the response has none).  After that it is silent,
    or it announces the processing, hands at most one row to the
    warehouse (none unless the warehouse helper was built) and ends with
    exactly one more message; when no row was handed over that message
    is one of the two apologies, never the success report. *)
Theorem replies_in_order
    (bigquery : helper) (message_text : string) (user_info : user) :
  let events :=
    process_influencer_response loads llm describe pads_year clock timestamp
      insert_rows_json warehouse_clock collection_date processed_at
      collection_timestamp format_value Ready bigquery message_text user_info in
  let processed :=
    process_influencer_message loads llm describe pads_year clock timestamp
      message_text (default "unknown" (user_username user_info)) VNone in
  exists response rest,
    processed.1 !! "response" = Some (VDict response)
    /\ events
       = (Asked <$> processed.2)
         ++ Sent (Py.get_default response "response_message" (VStr default_reply_text))
            :: rest
    /\ (rest = []
        \/ exists rows final,
             rest = Sent (VStr processing_text) :: (Stored <$> rows) ++ [Sent final]
             /\ (length rows <= 1)%nat
             /\ (if bigquery is Ready then True else rows = [])
             /\ (rows = [] ->
                 final = VStr storage_issue_text \/ final = VStr technical_issue_text)).
Proof.
  cbv zeta. unfold process_influencer_response, respond.
  pose proof (process_influencer_message_succeeds loads llm describe pads_year clock
                timestamp message_text (default "unknown" (user_username user_info))
                VNone) as (c & m & r & middle & -> & Hm).
  destruct (success_result_lookups (VStr timestamp)
              (VStr (default "unknown" (user_username user_info))) (VStr message_text)
              (VDict c) m (VDict r)) as (L1 & L2 & L3).
  cbv zeta in L1, L2, L3. rewrite L1, L2, L3. clear L1 L2 L3.
  exists r. cbn [fst snd].
  set (calls := ClassifyRequest _ _ :: _). clearbody calls.
  assert (Hdict : m = VNone \/ exists metrics, m = VDict metrics)
    by (destruct Hm as [[-> _]|(_ & -> & _)]; eauto).
  clear Hm. destruct Hdict as [->|[metrics ->]]; cbn [Py.method_get Py.truthy];
  repeat first
    [ progress cbn [then_ or_else lift ret send_telegram_message fst snd]
    | match goal with
      | |- context [report_success format_value ?sd ?md] =>
          destruct (report_success_shape sd md) as [[? ->]|[? ->]]
      | |- context [insert_metrics ?a ?b ?c ?d ?e ?f] =>
          destruct (insert_metrics_shape a b c d e f) as [->|([|] & ? & ->)]
      | |- context [match bigquery with _ => _ end] => destruct bigquery
      | |- context [if ?c then _ else _] => destruct c
      | |- context [match ?r with Ok _ => _ | Raise _ => _ end] => destruct r
      end ].
  all: rewrite <- ?app_assoc; cbn [app fst snd fmap list_fmap].
  all: eexists; split; [reflexivity|]; split; [reflexivity|].
  all: first
    [ left; reflexivity
    | right; eexists [], _; split; [reflexivity|]; cbn [length]; repeat split;
        solve [eauto | lia]
    | right; eexists [_], _; split; [reflexivity|]; cbn [length]; repeat split;
        solve [discriminate | lia] ].
Qed.

End BotReplies.
